(** * DCReminderBot: the reminder and digest scheduling engine

    A shallow embedding of [cogs/reminders.py] and of the [Database]
    wrapper of [db.py], followed by the properties of the offset
    calculator, the trigger store, the reminder poller and the digest
    poller.

    Modelling conventions.
    - Python [int] is [Z] (unbounded).
    - A Python [str] is a [string]; its characters are read as the code
      points U+0000..U+00FF.  The character classes below ([isspace],
      the regular expression classes [\s] and [\d], [lower]) are those
      of CPython on that range.
    - SQLite tables with an [INTEGER PRIMARY KEY] are finite maps from the
      row id to the remaining columns.
    - Calls that leave the process (Discord gateway, the clock, the
      timezone database) are oracles passed as arguments.
    - A statement of the store fails only where a fault is injected, which
      is done in [project_create]; in the pollers and the other commands
      the statements succeed.
    - The optional limit of the interpreter on the number of digits that
      [int] converts is not modelled. *)

From Stdlib Require Import ZArith Ascii String List Lia Bool.
From stdpp Require Import base tactics option list sorting gmap strings pretty.

Local Open Scope Z_scope.

(** ** Python text primitives *)

Module Py.

Definition code (c : ascii) : Z := Z.of_N (N_of_ascii c).

(** [str.isspace] on one character, which is also the class [\s] of [re]
    for [str] patterns. *)
Definition isspace (c : ascii) : bool :=
  let n := code c in
  ((9 <=? n) && (n <=? 13)) || ((28 <=? n) && (n <=? 32))
  || (n =? 133) || (n =? 160).

(** The class [\d] of [re] for [str] patterns. *)
Definition isdigit (c : ascii) : bool :=
  let n := code c in (48 <=? n) && (n <=? 57).

(** [str.lower] on one character: A-Z, and the Latin-1 capitals
    U+00C0..U+00DE except the multiplication sign U+00D7. *)
Definition lower (c : ascii) : ascii :=
  let n := code c in
  if ((65 <=? n) && (n <=? 90))
     || ((192 <=? n) && (n <=? 222) && negb (n =? 215))
  then ascii_of_N (Z.to_N (n + 32)) else c.

(** [str.upper] on one character of the ASCII range.  No other Latin-1
    character has an ASCII letter as its upper case, so comparing
    [name.upper()] with an upper-case ASCII word only needs this map. *)
Definition upper_ascii (c : ascii) : ascii :=
  let n := code c in
  if (97 <=? n) && (n <=? 122) then ascii_of_N (Z.to_N (n - 32)) else c.

Definition digit_value (c : ascii) : Z := code c - 48.

(** [int(s)] for a string [s] made of decimal digits only. *)
Definition int_of_digits (ds : list ascii) : Z :=
  fold_left (fun acc d => 10 * acc + digit_value d) ds 0.

Section scan.
Context {A : Type} (f : A -> bool).

Fixpoint takewhile (l : list A) : list A :=
  match l with
  | x :: l' => if f x then x :: takewhile l' else []
  | [] => []
  end.

Fixpoint dropwhile (l : list A) : list A :=
  match l with
  | x :: l' => if f x then dropwhile l' else l
  | [] => []
  end.

End scan.

Definition lstrip (s : list ascii) : list ascii := dropwhile isspace s.
Definition rstrip (s : list ascii) : list ascii := rev (dropwhile isspace (rev s)).
Definition strip (s : list ascii) : list ascii := rstrip (lstrip s).

(** [s.split(sep)] for a one-character separator: never the empty list. *)
Fixpoint split (sep : ascii) (s : list ascii) : list (list ascii) :=
  match s with
  | [] => [[]]
  | c :: s' =>
      if Ascii.eqb c sep then [] :: split sep s'
      else match split sep s' with
           | t :: ts => (c :: t) :: ts
           | [] => [[c]]
           end
  end.

(** [int(s)] on an arbitrary string: surrounding whitespace, an optional
    sign, then decimal digits where single underscores may separate
    digits.  [None] stands for [ValueError]. *)
Fixpoint int_body (s : list ascii) (acc : Z) (after_digit : bool) : option Z :=
  match s with
  | [] => if after_digit then Some acc else None
  | c :: s' =>
      if isdigit c then int_body s' (10 * acc + digit_value c) true
      else if Ascii.eqb c "_" && after_digit then int_body s' acc false
      else None
  end.

Definition int_of_str (s : list ascii) : option Z :=
  match strip s with
  | "+"%char :: r => int_body r 0 false
  | "-"%char :: r => Z.opp <$> int_body r 0 false
  | r => int_body r 0 false
  end.

(** Truth value of an optional string: [None] and the empty string are
    false. *)
Definition truthy (o : option string) : bool :=
  match o with
  | Some (String _ _) => true
  | _ => false
  end.

(** [a or b] where [a] is an optional string. *)
Definition or_else (a : option string) (b : option string) : option string :=
  if truthy a then a else b.

(** Exceptions that the embedded code raises or catches. *)
Inductive exn : Type :=
| ValueError (msg : string)
| KeyError (key : string)
| OtherError (msg : string).

Definition result (A : Type) : Type := exn + A.

End Py.

Abbreviation chars := list_ascii_of_string (only parsing).
Abbreviation text := string_of_list_ascii (only parsing).

(** ** Offset calculator *)

(** [DURATION_RE = re.compile(r"^\s*(\d+)\s*([smhdw])\s*$", re.IGNORECASE)].
    The three classes (whitespace, digits, unit letters) are pairwise
    disjoint, so the greedy left-to-right scan below decides the match and
    yields the groups 1 and 2. *)
Definition is_unit (c : ascii) : bool :=
  match Py.lower c with
  | "s"%char | "m"%char | "h"%char | "d"%char | "w"%char => true
  | _ => false
  end.

Definition DURATION_RE_match (p : list ascii) : option (list ascii * ascii) :=
  let r1 := Py.dropwhile Py.isspace p in
  let g1 := Py.takewhile Py.isdigit r1 in
  let r2 := Py.dropwhile Py.isdigit r1 in
  match g1 with
  | [] => None
  | _ :: _ =>
      match Py.dropwhile Py.isspace r2 with
      | g2 :: r3 =>
          if is_unit g2 && forallb Py.isspace r3 then Some (g1, g2) else None
      | [] => None
      end
  end.

(** [{"s": 1, "m": 60, "h": 3600, "d": 86400, "w": 604800}[unit]];
    [None] stands for the [KeyError] of a missing key. *)
Definition unit_multiplier (unit : ascii) : option Z :=
  match unit with
  | "s"%char => Some 1
  | "m"%char => Some 60
  | "h"%char => Some 3600
  | "d"%char => Some 86400
  | "w"%char => Some 604800
  | _ => None
  end.

(** [sorted(set(out), reverse=True)] *)
Definition sorted_set_reverse (out : list Z) : list Z :=
  merge_sort Z.ge (elements (list_to_set out : gset Z)).

(** The [for part in offset_str.split(",")] loop, [out] being the list
    built so far. *)
Fixpoint parse_offset_parts (parts : list (list ascii)) (out : list Z)
  : Py.result (list Z) :=
  match parts with
  | [] => inr out
  | part :: rest =>
      let p := Py.strip part in
      match p with
      | [] => parse_offset_parts rest out
      | _ :: _ =>
          match DURATION_RE_match p with
          | None =>
              inl (Py.ValueError
                     ("Invalid duration: " +:+ text p +:+ " (use s,m,h,d,w)"))
          | Some (g1, g2) =>
              let val := Py.int_of_digits g1 in
              let unit := Py.lower g2 in
              match unit_multiplier unit with
              | None => inl (Py.KeyError (text [unit]))
              | Some mult => parse_offset_parts rest (out ++ [val * mult])
              end
          end
      end
  end.

Definition parse_offset_str (offset_str : string) : Py.result (list Z) :=
  match parse_offset_parts (Py.split ","%char (chars offset_str)) [] with
  | inl e => inl e
  | inr out => inr (sorted_set_reverse out)
  end.

Definition day : Z := 86400.
Definition hour : Z := 3600.

Definition default_offsets (now_utc due_utc : Z) : list Z :=
  let lead := due_utc - now_utc in
  if 3 * day <=? lead then [3 * day; 2 * day; day]
  else if (2 * day <=? lead) && (lead <? 3 * day) then [day]
  else if (12 * hour <=? lead) && (lead <? 2 * day) then [4 * hour]
  else if (4 * hour <=? lead) && (lead <? 12 * hour) then [2 * hour]
  else if (hour <=? lead) && (lead <? 4 * hour) then [hour]
  else if (30 * 60 <=? lead) && (lead <? hour) then [30 * 60]
  else if 10 * 60 <? lead then [10 * 60] else [Z.max (lead - 60) 60].


(** The loop of [project_create] and [project_add_reminder] that turns
    offsets into fire instants:
    [ts = due_utc - off; if ts > now_utc + 30: keep ts]. *)
Fixpoint reminder_timestamps (now_utc due_utc : Z) (offsets : list Z) : list Z :=
  match offsets with
  | [] => []
  | off :: rest =>
      let ts := due_utc - off in
      if now_utc + 30 <? ts
      then ts :: reminder_timestamps now_utc due_utc rest
      else reminder_timestamps now_utc due_utc rest
  end.

(** [if not reminder_ts: fallback = max(due_utc - 300, now_utc + 60) ...] *)
Definition with_fallback (now_utc due_utc : Z) (reminder_ts : list Z) : list Z :=
  match reminder_ts with
  | [] =>
      let fallback := Z.max (due_utc - 300) (now_utc + 60) in
      if fallback <? due_utc then [fallback] else []
  | _ :: _ => reminder_ts
  end.

(** ** Timezones *)

Inductive tzinfo : Type :=
| tz_utc
| tz_zone (name : string).

Definition upper_is (word : string) (name : list ascii) : bool :=
  bool_decide (map Py.upper_ascii name = chars word).

(** [zoneinfo name] tells whether [ZoneInfo(name)] returns; it depends on
    the timezone data installed on the host. *)
Definition parse_timezone (zoneinfo : string -> bool) (tz_name : option string)
  : tzinfo :=
  let name :=
    Py.strip (chars (default "UTC"%string (Py.or_else tz_name (Some "UTC"%string)))) in
  if upper_is "UTC" name || upper_is "Z" name then tz_utc
  else if zoneinfo (text name) then tz_zone (text name)
  else tz_utc.

(** [datetime.strptime(s, "%H:%M")] returns (rather than raising
    [ValueError]): the directive [%H] is [2[0-3]|[0-1]\d|\d], [%M] is
    [[0-5]\d|\d], and no character may remain. *)
Definition strptime_HM_ok (s : string) : bool :=
  let d := Py.isdigit in
  let lt n c := Py.isdigit c && (Py.code c <? 48 + n) in
  let hh a b := (Ascii.eqb a "2" && lt 4 b) || (lt 2 a && d b) in
  match chars s with
  | [h; ":"%char; m] => d h && d m
  | [h; ":"%char; m1; m2] => d h && lt 6 m1 && d m2
  | [h1; h2; ":"%char; m] => hh h1 h2 && d m
  | [h1; h2; ":"%char; m1; m2] => hh h1 h2 && lt 6 m1 && d m2
  | _ => false
  end.

(** ** The store ([db.py]) *)

(** Rows of [config], keyed by [guild_id]. *)
Module Config.
Record t : Type := mk {
  timezone : option string;
  announcer_user_id : option Z;
  announce_role_id : option Z;
  announce_channel_id : option Z;
  deadlines_channel_id : option Z;
  deadlines_digest_time : option string
}.
(** Column defaults of the schema. *)
Definition default : t :=
  mk (Some "UTC"%string) None None None None (Some "09:00"%string).
End Config.

(** Rows of [projects], keyed by [id]. *)
Module Project.
Record t : Type := mk {
  guild_id : Z;
  name : string;
  description : string;
  due_ts : Z;
  tz : string;
  role_id : Z;
  channel_id : Z;
  created_by : Z;
  created_at : Z
}.
End Project.

(** Rows of [reminders], keyed by [id]. *)
Module Reminder.
Record t : Type := mk {
  project_id : Z;
  remind_ts : Z;
  sent : Z;
  custom : Z;
  message : option string
}.
Definition mark_sent (r : t) : t :=
  mk (project_id r) (remind_ts r) 1 (custom r) (message r).
End Reminder.

(** The tables, with the [AUTOINCREMENT] counters of [sqlite_sequence]. *)
Record Tables : Type := mkTables {
  config : gmap Z Config.t;
  projects : gmap Z Project.t;
  reminders : gmap Z Reminder.t;
  seq_projects : Z;
  seq_reminders : Z
}.

Definition empty_tables : Tables := mkTables ∅ ∅ ∅ 0 0.

(** The single connection [self._conn]: [view] is what statements on the
    connection read and write, [committed] what the last [commit()] made
    durable. *)
Record Conn : Type := mkConn {
  view : Tables;
  committed : Tables
}.

Definition fresh_conn : Conn := mkConn empty_tables empty_tables.

(** How a statement can fail: SQLite either backs out the failing statement
    alone and leaves the implicit transaction open, or rolls the whole
    transaction back. *)
Inductive StoreFault : Type :=
| StmtAbort
| TxnRollback.

Definition sqlite_error : Py.exn := Py.OtherError "sqlite3.Error".

(** [Database.execute]: [cur.execute(sql, params)], then
    [self._conn.commit()].  [stmt] is the effect of the SQL statement on
    the tables; [fault] injects a failure of [cur.execute]. *)
Definition execute_with {A : Type} (fault : option StoreFault)
    (stmt : Tables -> A * Tables) (c : Conn) : Py.result A * Conn :=
  match fault with
  | None => let '(a, t) := stmt (view c) in (inr a, mkConn t t)
  | Some StmtAbort => (inl sqlite_error, c)
  | Some TxnRollback => (inl sqlite_error, mkConn (committed c) (committed c))
  end.

Definition execute {A : Type} (stmt : Tables -> A * Tables) (c : Conn) : A * Conn :=
  let '(a, t) := stmt (view c) in (a, mkConn t t).

(** [Database.executemany]: the statement once per parameter row inside
    one implicit transaction, then [commit()].  [fault = Some (k, f)] makes
    the execution for the row of index [k] fail with [f] (the commit itself
    when [k] is past the last row). *)
Definition executemany_with {R : Type} (fault : option (nat * StoreFault))
    (stmt : R -> Tables -> Tables) (seq_of_params : list R) (c : Conn)
  : Py.result unit * Conn :=
  let run rows := fold_left (fun t r => stmt r t) rows (view c) in
  match fault with
  | None => let t := run seq_of_params in (inr tt, mkConn t t)
  | Some (k, StmtAbort) =>
      (inl sqlite_error, mkConn (run (take k seq_of_params)) (committed c))
  | Some (k, TxnRollback) =>
      (inl sqlite_error, mkConn (committed c) (committed c))
  end.

(** [INSERT INTO projects (...) VALUES (...)]; returns [cur.lastrowid]. *)
Definition insert_project (row : Project.t) (t : Tables) : Z * Tables :=
  let id := seq_projects t + 1 in
  (id, mkTables (config t) (<[id := row]> (projects t)) (reminders t)
                id (seq_reminders t)).

(** [INSERT INTO reminders (project_id, remind_ts, sent, custom, message)
    VALUES (?, ?, ?, ?, ?)] *)
Definition insert_reminder (row : Reminder.t) (t : Tables) : Tables :=
  let id := seq_reminders t + 1 in
  mkTables (config t) (projects t) (<[id := row]> (reminders t))
           (seq_projects t) id.

(** [UPDATE reminders SET sent = 1 WHERE id = ?] *)
Definition update_sent (rid : Z) (t : Tables) : Tables :=
  mkTables (config t) (projects t) (alter Reminder.mark_sent rid (reminders t))
           (seq_projects t) (seq_reminders t).

(** [Database.get_config] *)
Definition get_config (c : Conn) (guild_id : Z) : option Config.t :=
  config (view c) !! guild_id.

(** The keyword arguments that this cog passes to [upsert_config]; [None]
    means that the column is not named in the call. *)
Record ConfigKwargs : Type := mkKwargs {
  kw_deadlines_channel_id : option (option Z);
  kw_deadlines_digest_time : option (option string);
  kw_timezone : option (option string)
}.

Definition set_columns (kw : ConfigKwargs) (row : Config.t) : Config.t :=
  Config.mk
    (default (Config.timezone row) (kw_timezone kw))
    (Config.announcer_user_id row)
    (Config.announce_role_id row)
    (Config.announce_channel_id row)
    (default (Config.deadlines_channel_id row) (kw_deadlines_channel_id kw))
    (default (Config.deadlines_digest_time row) (kw_deadlines_digest_time kw)).

(** [UPDATE config SET k1 = ?, ... WHERE guild_id = ?] *)
Definition update_config (guild_id : Z) (kw : ConfigKwargs) (t : Tables)
  : unit * Tables :=
  (tt, mkTables (alter (set_columns kw) guild_id (config t))
                (projects t) (reminders t) (seq_projects t) (seq_reminders t)).

(** [INSERT INTO config (guild_id, k1, ...) VALUES (?, ?, ...)]; the other
    columns take their defaults. *)
Definition insert_config (guild_id : Z) (kw : ConfigKwargs) (t : Tables)
  : unit * Tables :=
  (tt, mkTables (<[guild_id := set_columns kw Config.default]> (config t))
                (projects t) (reminders t) (seq_projects t) (seq_reminders t)).

(** [Database.upsert_config] *)
Definition upsert_config (guild_id : Z) (kw : ConfigKwargs) (c : Conn) : Conn :=
  match config (view c) !! guild_id with
  | Some _ => snd (execute (update_config guild_id kw) c)
  | None => snd (execute (insert_config guild_id kw) c)
  end.

(** ** Commands of the cog *)

(** What a command sends back with [interaction.followup.send]. *)
Inductive Reply : Type :=
| MustBeUsedInServer
| InvalidDueFormat
| DueTooSoon
| ErrorText (e : Py.exn)
| ProjectCreated (project_id : Z) (due_utc : Z) (reminder_ts : list Z)
| ProjectNotFound
| NoValidReminders
| AddedReminders (inserted : list Z)
| InvalidTimeFormat
| DigestConfigured (channel : Z) (time_hhmm : string) (timezone : option string).

(** A command either replies or lets an exception escape. *)
Inductive Outcome : Type :=
| Replied (r : Reply)
| Raised (e : Py.exn).

(** What [project_create] reads from outside the process. *)
Record CreateEnv : Type := mkCreateEnv {
  ce_zoneinfo : string -> bool;
  (** [int(datetime.strptime(due, "%Y-%m-%d %H:%M")
            .replace(tzinfo=tzinfo).timestamp())], [None] for [ValueError] *)
  ce_due_timestamp : string -> tzinfo -> option Z;
  (** [int(datetime.now(tzinfo).timestamp())] *)
  ce_now_utc : Z;
  (** [int(time.time())] *)
  ce_time : Z;
  ce_fault_project : option StoreFault;
  ce_fault_reminders : option (nat * StoreFault)
}.

Record CreateArgs : Type := mkCreateArgs {
  ca_guild_id : option Z;
  ca_user_id : Z;
  ca_name : string;
  ca_due : string;
  ca_role_id : Z;
  ca_channel_id : Z;
  ca_description : option string;
  ca_timezone : option string;
  ca_custom_offsets : option string
}.

(** The offsets that [project_create] computes. *)
Definition compute_offsets (custom_offsets : option string) (now_utc due_utc : Z)
  : Py.result (list Z) :=
  match custom_offsets with
  | Some s => if Py.truthy custom_offsets then parse_offset_str s
              else inr (default_offsets now_utc due_utc)
  | None => inr (default_offsets now_utc due_utc)
  end.

(** The rows that [project_create] passes to [executemany]. *)
Definition reminder_rows (project_id : Z) (custom_offsets : option string)
    (reminder_ts : list Z) : list Reminder.t :=
  map (fun ts => Reminder.mk project_id ts 0
                   (if Py.truthy custom_offsets then 1 else 0) None)
      reminder_ts.

(** [tz = timezone or (cfg["timezone"] if cfg else "UTC")] *)
Definition create_tz (timezone : option string) (cfg : option Config.t)
  : option string :=
  Py.or_else timezone
    (match cfg with
     | Some row => Config.timezone row
     | None => Some "UTC"%string
     end).

Definition project_create (env : CreateEnv) (a : CreateArgs) (c : Conn)
  : Outcome * Conn :=
  match ca_guild_id a with
  | None => (Replied MustBeUsedInServer, c)
  | Some guild_id =>
      let cfg := get_config c guild_id in
      let tz := create_tz (ca_timezone a) cfg in
      let tzinfo := parse_timezone (ce_zoneinfo env) tz in
      match ce_due_timestamp env (ca_due a) tzinfo with
      | None => (Replied InvalidDueFormat, c)
      | Some due_utc =>
          let now_utc := ce_now_utc env in
          if due_utc <=? now_utc + 60 then (Replied DueTooSoon, c)
          else
            match compute_offsets (ca_custom_offsets a) now_utc due_utc with
            | inl (Py.ValueError msg) => (Replied (ErrorText (Py.ValueError msg)), c)
            | inl e => (Raised e, c)
            | inr offsets =>
                let reminder_ts :=
                  with_fallback now_utc due_utc
                    (reminder_timestamps now_utc due_utc offsets) in
                match tz with
                | None =>
                    (* NOT NULL constraint of [projects.tz] *)
                    (Raised sqlite_error, c)
                | Some tz_text =>
                    let row :=
                      Project.mk guild_id (ca_name a)
                        (default ""%string (Py.or_else (ca_description a) None))
                        due_utc tz_text (ca_role_id a) (ca_channel_id a)
                        (ca_user_id a) (ce_time env) in
                    match execute_with (ce_fault_project env) (insert_project row) c with
                    | (inl e, c1) => (Raised e, c1)
                    | (inr project_id, c1) =>
                        let rows :=
                          reminder_rows project_id (ca_custom_offsets a) reminder_ts in
                        match executemany_with (ce_fault_reminders env)
                                insert_reminder rows c1 with
                        | (inl e, c2) => (Raised e, c2)
                        | (inr _, c2) =>
                            (Replied (ProjectCreated project_id due_utc reminder_ts), c2)
                        end
                    end
                end
            end
      end
  end.

(** [SELECT * FROM projects WHERE id = ? AND guild_id = ?] *)
Definition query_project (c : Conn) (project_id : Z) (guild_id : option Z)
  : option Project.t :=
  match projects (view c) !! project_id with
  | Some p => if bool_decide (guild_id = Some (Project.guild_id p)) then Some p else None
  | None => None
  end.

(** The insertion loop of [project_add_reminder]: one [Database.execute]
    per kept offset. *)
Fixpoint add_reminder_loop (project_id now_utc due_utc : Z) (offs : list Z)
    (c : Conn) : list Z * Conn :=
  match offs with
  | [] => ([], c)
  | off :: rest =>
      let ts := due_utc - off in
      if now_utc + 30 <? ts then
        let c1 :=
          snd (execute (fun t => (tt, insert_reminder
                                        (Reminder.mk project_id ts 0 1 None) t)) c) in
        let '(inserted, c2) := add_reminder_loop project_id now_utc due_utc rest c1 in
        (ts :: inserted, c2)
      else add_reminder_loop project_id now_utc due_utc rest c
  end.

(** [now_utc] is [int(time.time())]. *)
Definition project_add_reminder (now_utc : Z) (guild_id : option Z)
    (project_id : Z) (offset : string) (c : Conn) : Outcome * Conn :=
  match query_project c project_id guild_id with
  | None => (Replied ProjectNotFound, c)
  | Some proj =>
      match parse_offset_str offset with
      | inl (Py.ValueError msg) => (Replied (ErrorText (Py.ValueError msg)), c)
      | inl e => (Raised e, c)
      | inr offs =>
          let due_utc := Project.due_ts proj in
          match add_reminder_loop project_id now_utc due_utc offs c with
          | ([], c1) => (Replied NoValidReminders, c1)
          | (inserted, c1) => (Replied (AddedReminders inserted), c1)
          end
      end
  end.

Definition deadlines_configure (zoneinfo : string -> bool) (guild_id channel : Z)
    (time_hhmm : string) (timezone : option string) (c : Conn) : Outcome * Conn :=
  if negb (strptime_HM_ok time_hhmm) then (Replied InvalidTimeFormat, c)
  else
    (* Validate tz *)
    let _ := if Py.truthy timezone then Some (parse_timezone zoneinfo timezone) else None in
    let stored_tz :=
      Py.or_else timezone
        (match get_config c guild_id with
         | Some row => Config.timezone row
         | None => Some "UTC"%string
         end) in
    let c1 :=
      upsert_config guild_id
        (mkKwargs (Some (Some channel)) (Some (Some time_hhmm)) (Some stored_tz)) c in
    (Replied (DigestConfigured channel time_hhmm (Py.or_else timezone None)), c1).

(** ** The Discord gateway and the state of the running bot *)

Record Channel : Type := mkChannel {
  ch_id : Z;
  (** [isinstance(channel, discord.TextChannel)] *)
  ch_is_text : bool
}.

Inductive Message : Type :=
| ReminderMessage (role_id : Z) (name description : string) (due_ts : Z)
| DigestMessage (fields : list (Z * string * Z * string)).

(** Which trigger or which digest a gateway call was made for.  The tag is
    not part of what is sent; it lets the properties below count calls. *)
Inductive Origin : Type :=
| OfReminder (rid : Z)
| OfDigest (guild_id : Z) (local_date : string).

Inductive Event : Type :=
| Send (o : Origin) (ch : Channel) (m : Message)   (* [channel.send] called *)
| Printed (o : Origin) (e : Py.exn)                  (* [print("Failed ...")] *)
| UpdateSent (rid : Z).                            (* the [UPDATE] statement ran *)

(** Answers of the gateway; they may depend on everything that happened
    before (the trace, most recent event first). *)
Record Gateway : Type := mkGateway {
  get_channel : list Event -> Z -> option Channel;
  fetch_channel : list Event -> Z -> Py.result Channel;
  send : list Event -> Channel -> Message -> Py.result unit
}.

Record Bot : Type := mkBot {
  conn : Conn;
  trace : list Event;
  (** the attribute [_digest_cache], [None] until it is first assigned *)
  digest_cache : option (gset string)
}.

Definition log (e : Event) (b : Bot) : Bot :=
  mkBot (conn b) (e :: trace b) (digest_cache b).

(** [channel = self.bot.get_channel(id)], then [fetch_channel(id)] unless
    that is a text channel. *)
Definition resolve_channel (gw : Gateway) (b : Bot) (id : Z) : Py.result Channel :=
  match get_channel gw (trace b) id with
  | Some channel =>
      if ch_is_text channel then inr channel else fetch_channel gw (trace b) id
  | None => fetch_channel gw (trace b) id
  end.

(** ** Reminder poller *)

Module DueRow.
Record t : Type := mk {
  rid : Z;
  project_id : Z;
  remind_ts : Z;
  name : string;
  due_ts : Z;
  role_id : Z;
  channel_id : Z;
  description : string
}.
End DueRow.

(** One row of [reminders r JOIN projects p ON p.id = r.project_id WHERE
    r.sent = 0 AND r.remind_ts BETWEEN ? AND ?]. *)
Definition due_row (t : Tables) (window_start window_end : Z)
    (kv : Z * Reminder.t) : option DueRow.t :=
  let r := kv.2 in
  if (Reminder.sent r =? 0) && (window_start <=? Reminder.remind_ts r)
     && (Reminder.remind_ts r <=? window_end)
  then
    match projects t !! Reminder.project_id r with
    | Some p =>
        Some (DueRow.mk kv.1 (Reminder.project_id r) (Reminder.remind_ts r)
                (Project.name p) (Project.due_ts p) (Project.role_id p)
                (Project.channel_id p) (Project.description p))
    | None => None
    end
  else None.

Definition remind_ts_le (a b : DueRow.t) : Prop :=
  DueRow.remind_ts a <= DueRow.remind_ts b.

#[global] Instance remind_ts_le_dec : RelDecision remind_ts_le :=
  fun a b => Z_le_dec (DueRow.remind_ts a) (DueRow.remind_ts b).

(** The [SELECT] of [_reminder_loop], [ORDER BY r.remind_ts ASC]. *)
Definition query_due (c : Conn) (window_start window_end : Z) : list DueRow.t :=
  merge_sort remind_ts_le
    (omap (due_row (view c) window_start window_end)
          (map_to_list (reminders (view c)))).

(** [self.bot.db.execute("UPDATE reminders SET sent = 1 WHERE id = ?", ...)] *)
Definition mark_sent (rid : Z) (b : Bot) : Bot :=
  mkBot (snd (execute (fun t => (tt, update_sent rid t)) (conn b)))
        (UpdateSent rid :: trace b) (digest_cache b).

(** The statements of the [try] block up to [await channel.send(...)]. *)
Definition try_send_reminder (gw : Gateway) (r : DueRow.t) (b : Bot)
  : Py.result unit * Bot :=
  match resolve_channel gw b (DueRow.channel_id r) with
  | inl e => (inl e, b)
  | inr channel =>
      let m := ReminderMessage (DueRow.role_id r) (DueRow.name r)
                 (DueRow.description r) (DueRow.due_ts r) in
      (send gw (trace b) channel m, log (Send (OfReminder (DueRow.rid r)) channel m) b)
  end.

(** The body of [for r in rows]. *)
Definition reminder_step (gw : Gateway) (b : Bot) (r : DueRow.t) : Bot :=
  match try_send_reminder gw r b with
  | (inr _, b1) => mark_sent (DueRow.rid r) b1
  | (inl e, b1) =>
      mark_sent (DueRow.rid r) (log (Printed (OfReminder (DueRow.rid r)) e) b1)
  end.

(** One run of [_reminder_loop]; [now] is [int(time.time())]. *)
Definition _reminder_loop (gw : Gateway) (now : Z) (b : Bot) : Bot :=
  let window_start := now - 60 in
  let window_end := now + 30 in
  match query_due (conn b) window_start window_end with
  | [] => b
  | rows => fold_left (reminder_step gw) rows b
  end.

(** Successive runs of the poller, each with its own clock reading and
    gateway behaviour. *)
Definition reminder_loops (runs : list (Gateway * Z)) (b : Bot) : Bot :=
  fold_left (fun b run => _reminder_loop run.1 run.2 b) runs b.

(** ** Digest poller *)

(** [guild_now = now_utc.astimezone(tz)] and what the loop reads off it. *)
Record LocalTime : Type := mkLocalTime {
  lt_date : string;          (* [strftime('%Y-%m-%d')] *)
  lt_hour : Z;
  lt_minute : Z;
  lt_timestamp : Z;          (* [int(guild_now.timestamp())] *)
  lt_timestamp_7d : Z        (* [int((guild_now + timedelta(days=7)).timestamp())] *)
}.

Record DigestEnv : Type := mkDigestEnv {
  de_zoneinfo : string -> bool;
  de_astimezone : tzinfo -> LocalTime;
  de_guilds : list Z;
  de_gateway : Gateway
}.

(** [digest_h, digest_m = map(int, hhmm.split(":"))], with [9, 0] when
    that raises. *)
Definition parse_digest_time (hhmm : string) : Z * Z :=
  match map Py.int_of_str (Py.split ":"%char (chars hhmm)) with
  | [Some digest_h; Some digest_m] => (digest_h, digest_m)
  | _ => (9, 0)
  end.

(** [f"{guild.id}:{guild_now.strftime('%Y-%m-%d')}"] *)
Definition digest_key (guild_id : Z) (local_date : string) : string :=
  pretty guild_id +:+ ":" +:+ local_date.

Definition due_ts_le (a b : Z * string * Z * string) : Prop := a.1.2 <= b.1.2.

#[global] Instance due_ts_le_dec : RelDecision due_ts_le :=
  fun a b => Z_le_dec a.1.2 b.1.2.

(** [SELECT id, name, due_ts, tz FROM projects WHERE guild_id = ? AND due_ts
    BETWEEN ? AND ? ORDER BY due_ts ASC] *)
Definition query_upcoming (c : Conn) (guild_id start_ts end_ts : Z)
  : list (Z * string * Z * string) :=
  merge_sort due_ts_le
    (omap (fun kv : Z * Project.t =>
             let p := kv.2 in
             if (Project.guild_id p =? guild_id) && (start_ts <=? Project.due_ts p)
                && (Project.due_ts p <=? end_ts)
             then Some (kv.1, Project.name p, Project.due_ts p, Project.tz p)
             else None)
          (map_to_list (projects (view c)))).

Definition set_cache (cache : gset string) (b : Bot) : Bot :=
  mkBot (conn b) (trace b) (Some cache).

(** The [try] block of [_digest_loop] with its [except] clause. *)
Definition deliver_digest (gw : Gateway) (guild_id channel_id : Z)
    (guild_now : LocalTime) (b : Bot) : Bot :=
  let o := OfDigest guild_id (lt_date guild_now) in
  match resolve_channel gw b channel_id with
  | inl e => log (Printed o e) b
  | inr channel =>
      let start_ts := lt_timestamp guild_now in
      let end_ts := lt_timestamp_7d guild_now in
      match query_upcoming (conn b) guild_id start_ts end_ts with
      | [] => b
      | rows =>
          let m := DigestMessage rows in
          let b1 := log (Send o channel m) b in
          match send gw (trace b) channel m with
          | inl e => log (Printed o e) b1
          | inr _ => b1
          end
      end
  end.

(** The head of the body of [for guild in self.bot.guilds], up to the
    test [guild_now.hour == digest_h and guild_now.minute == digest_m]:
    the digest channel and the local time when the guild is configured
    and the minute matches. *)
Definition digest_due (env : DigestEnv) (c : Conn) (guild_id : Z)
  : option (Z * LocalTime) :=
  match get_config c guild_id with
  | None => None
  | Some cfg =>
      match Config.deadlines_channel_id cfg with
      | None => None
      | Some channel_id =>
          if channel_id =? 0 then None
          else
            let tz :=
              parse_timezone (de_zoneinfo env)
                (Py.or_else (Config.timezone cfg) (Some "UTC"%string)) in
            let hhmm :=
              default "09:00"%string
                (Py.or_else (Config.deadlines_digest_time cfg) (Some "09:00"%string)) in
            let '(digest_h, digest_m) := parse_digest_time hhmm in
            let guild_now := de_astimezone env tz in
            if (lt_hour guild_now =? digest_h) && (lt_minute guild_now =? digest_m)
            then Some (channel_id, guild_now)
            else None
      end
  end.

(** The body of [for guild in self.bot.guilds]. *)
Definition digest_step (env : DigestEnv) (b : Bot) (guild_id : Z) : Bot :=
  match digest_due env (conn b) guild_id with
  | None => b
  | Some (channel_id, guild_now) =>
      (* Debounce per process per day *)
      let key := digest_key guild_id (lt_date guild_now) in
      let cache := default ∅ (digest_cache b) in
      if bool_decide (key ∈ cache) then set_cache cache b
      else
        deliver_digest (de_gateway env) guild_id channel_id guild_now
          (set_cache ({[key]} ∪ cache) b)
  end.

(** One run of [_digest_loop]. *)
Definition _digest_loop (env : DigestEnv) (b : Bot) : Bot :=
  fold_left (digest_step env) (de_guilds env) b.

(** Successive runs of the digest poller. *)
Definition digest_loops (envs : list DigestEnv) (b : Bot) : Bot :=
  fold_left (fun b env => _digest_loop env b) envs b.

(** The bot when the process starts on a given store. *)
Definition start (c : Conn) : Bot := mkBot c [] None.

(** ** Vocabulary of the specification *)

(** The token grammar [^\s*\d+\s*[smhdw]\s*$], case-insensitive, stated on
    the shape of the token: whitespace, a non-empty run of digits [ds],
    whitespace, one unit letter [u], whitespace. *)
Definition unit_letter (u : ascii) : Prop :=
  u ∈ chars "smhdwSMHDW".

Definition duration_token (tok ds : list ascii) (u : ascii) : Prop :=
  exists w1 w2 w3 : list ascii,
    tok = w1 ++ ds ++ w2 ++ u :: w3
    /\ Forall (fun c => Py.isspace c = true) w1
    /\ Forall (fun c => Py.isspace c = true) w2
    /\ Forall (fun c => Py.isspace c = true) w3
    /\ ds <> []
    /\ Forall (fun c => Py.isdigit c = true) ds
    /\ unit_letter u.


(** The integer written by a run of decimal digits. *)
Fixpoint decimal_value (ds : list ascii) : Z :=
  match ds with
  | [] => 0
  | d :: rest => Py.digit_value d * 10 ^ Z.of_nat (length rest) + decimal_value rest
  end.

(** Unit multipliers: s=1, m=60, h=3600, d=86400, w=604800. *)
Definition unit_seconds (u : ascii) : Z :=
  match u with
  | "s"%char | "S"%char => 1
  | "m"%char | "M"%char => 60
  | "h"%char | "H"%char => 3600
  | "d"%char | "D"%char => 86400
  | "w"%char | "W"%char => 604800
  | _ => 0
  end.


(** A token is blank when only whitespace is left between the commas. *)
Definition blank (tok : list ascii) : Prop :=
  Forall (fun c => Py.isspace c = true) tok.

Abbreviation spaces := (Forall (fun c : ascii => Py.isspace c = true)).
Abbreviation digits := (Forall (fun c : ascii => Py.isdigit c = true)).


(** Number of [channel.send] calls made for a trigger, of [UPDATE]
    statements run for it, and of [channel.send] calls made for the digest
    of a guild on a local date. *)
Definition is_send_for (rid : Z) (e : Event) : bool :=
  match e with
  | Send (OfReminder rid') _ _ => rid' =? rid
  | _ => false
  end.

Definition is_update_for (rid : Z) (e : Event) : bool :=
  match e with
  | UpdateSent rid' => rid' =? rid
  | _ => false
  end.

Definition is_digest_for (guild_id : Z) (local_date : string) (e : Event) : bool :=
  match e with
  | Send (OfDigest g d) _ _ => (g =? guild_id) && String.eqb d local_date
  | _ => false
  end.

Definition sends_for (rid : Z) (tr : list Event) : nat :=
  length (List.filter (is_send_for rid) tr).

Definition updates_for (rid : Z) (tr : list Event) : nat :=
  length (List.filter (is_update_for rid) tr).

Definition digests_for (guild_id : Z) (local_date : string) (tr : list Event) : nat :=
  length (List.filter (is_digest_for guild_id local_date) tr).

(** [project_create] gets past its validation steps: it is used in guild
    [g], the timezone text is [tz_text], the due string parses to [due_utc],
    which is more than a minute ahead, and the offsets are [offsets]. *)
Definition create_ready (env : CreateEnv) (a : CreateArgs) (c : Conn)
    (g : Z) (tz_text : string) (due_utc : Z) (offsets : list Z) : Prop :=
  ca_guild_id a = Some g
  /\ create_tz (ca_timezone a) (get_config c g) = Some tz_text
  /\ ce_due_timestamp env (ca_due a)
       (parse_timezone (ce_zoneinfo env) (Some tz_text)) = Some due_utc
  /\ ce_now_utc env + 60 < due_utc
  /\ compute_offsets (ca_custom_offsets a) (ce_now_utc env) due_utc = inr offsets.

(** The row of [projects] that [project_create] inserts. *)
Definition project_row (env : CreateEnv) (a : CreateArgs) (g : Z)
    (tz_text : string) (due_utc : Z) : Project.t :=
  Project.mk g (ca_name a)
    (default ""%string (Py.or_else (ca_description a) None))
    due_utc tz_text (ca_role_id a) (ca_channel_id a) (ca_user_id a) (ce_time env).

(** The same environment with other injected store faults. *)
Definition set_faults (fp : option StoreFault) (fr : option (nat * StoreFault))
    (env : CreateEnv) : CreateEnv :=
  mkCreateEnv (ce_zoneinfo env) (ce_due_timestamp env) (ce_now_utc env)
              (ce_time env) fp fr.

(** The effect of [mark_sent] on the connection. *)
Definition mark_conn (c : Conn) (rid : Z) : Conn :=
  (execute (fun t => (tt, update_sent rid t)) c).2.


(** Invariant of the digest poller: a digest for which [channel.send] was
    called was called for once, and its key is in the debounce guard. *)
Definition delivered_are_guarded (b : Bot) : Prop :=
  forall g d,
    digests_for g d (trace b) = 0%nat
    \/ (digests_for g d (trace b) = 1%nat
        /\ exists cache, digest_cache b = Some cache /\ digest_key g d ∈ cache).

(** The invariant that the specification states for a stored trigger [r],
    [now] being the clock reading when it was created: its fire instant
    lies strictly between [now + 30] and the due instant of its event. *)
Definition trigger_in_bounds (now : Z) (t : Tables) (r : Reminder.t) : Prop :=
  exists p, projects t !! Reminder.project_id r = Some p
            /\ now + 30 < Reminder.remind_ts r < Project.due_ts p.

(** ** Sample inputs

    A host without timezone data, the clock at 2030-01-01 09:00:00 UTC and
    a deadline at 10:00 the same day. *)
Definition sample_now : Z := 1893488400.
Definition sample_due : Z := 1893492000.

Definition sample_due_timestamp (due : string) (tz : tzinfo) : option Z :=
  match tz with
  | tz_utc => if String.eqb due "2030-01-01 10:00" then Some sample_due else None
  | tz_zone _ => None
  end.

Definition sample_env : CreateEnv :=
  mkCreateEnv (fun _ => false) sample_due_timestamp sample_now sample_now None None.

Definition sample_args (custom_offsets : option string) : CreateArgs :=
  mkCreateArgs (Some 42) 7 "Essay" "2030-01-01 10:00" 5 6 None None custom_offsets.

(** The digest is configured for guild 42 at 09:00, and the local time is
    2030-01-01 09:00.  The gateway resolves every channel; [ok] tells
    whether [channel.send] returns. *)
Definition sample_local : LocalTime :=
  mkLocalTime "2030-01-01" 9 0 sample_now (sample_now + 7 * day).

Definition sample_gateway (ok : bool) : Gateway :=
  mkGateway (fun _ id => Some (mkChannel id true))
            (fun _ id => inr (mkChannel id true))
            (fun _ _ _ =>
               if ok then inr tt else inl (Py.OtherError "discord.HTTPException")).

Definition sample_digest_env (ok : bool) : DigestEnv :=
  mkDigestEnv (fun _ => false) (fun _ => sample_local) [42] (sample_gateway ok).

Definition sample_configured : Conn :=
  (deadlines_configure (fun _ => false) 42 6 "09:00" None fresh_conn).2.

Definition sample_with_project : Conn :=
  (project_create sample_env (sample_args None) sample_configured).2.

(** A store with two triggers, one minute and two minutes after
    [sample_now]. *)
Definition sample_two_triggers : Conn :=
  (project_create sample_env (sample_args (Some "59m,58m"%string)) fresh_conn).2.


(** ** The remaining commands of the reminders cog *)

Definition project_due_le (a b : Z * Project.t) : Prop :=
  Project.due_ts a.2 <= Project.due_ts b.2.

#[global] Instance project_due_le_dec : RelDecision project_due_le :=
  fun a b => Z_le_dec (Project.due_ts a.2) (Project.due_ts b.2).

(** [SELECT p.id, p.name, p.due_ts, p.tz, p.role_id, p.channel_id FROM
    projects p WHERE p.guild_id = ? ORDER BY p.due_ts ASC] *)
Definition query_guild_projects (c : Conn) (guild_id : option Z)
  : list (Z * Project.t) :=
  merge_sort project_due_le
    (List.filter
       (fun kv : Z * Project.t => bool_decide (guild_id = Some (Project.guild_id kv.2)))
       (map_to_list (projects (view c)))).

(** What [project_list] sends: ["No projects found."], or one line per
    project with its id, name, due instant and timezone text. *)
Inductive ListReply : Type :=
| NoProjectsFound
| ProjectLines (lines : list (Z * string * Z * string)).

Definition line_of (r : Z * Project.t) : Z * string * Z * string :=
  (r.1, Project.name r.2, Project.due_ts r.2, Project.tz r.2).

Definition project_list (guild_id : option Z) (c : Conn) : ListReply :=
  match query_guild_projects c guild_id with
  | [] => NoProjectsFound
  | rows => ProjectLines (map line_of rows)
  end.

(** [DELETE FROM projects WHERE id = ?].  The schema turns foreign keys on
    and declares [reminders.project_id] with [ON DELETE CASCADE], so the
    reminders of the project go with it. *)
Definition delete_project (project_id : Z) (t : Tables) : unit * Tables :=
  (tt, mkTables (config t)
         (delete project_id (projects t))
         (filter (fun kv : Z * Reminder.t => Reminder.project_id kv.2 <> project_id)
                 (reminders t))
         (seq_projects t) (seq_reminders t)).

Inductive DeleteReply : Type :=
| DeleteNotFound
| Deleted (project_id : Z).

Definition project_delete (guild_id : option Z) (project_id : Z) (c : Conn)
  : DeleteReply * Conn :=
  match query_project c project_id guild_id with
  | None => (DeleteNotFound, c)
  | Some _ => (Deleted project_id, (execute (delete_project project_id) c).2)
  end.

(** [deadlines_timezone]: the reply is ["Timezone updated to ..."] in every
    case, so only the new connection is returned. *)
Definition deadlines_timezone (zoneinfo : string -> bool) (guild_id : Z)
    (timezone : string) (c : Conn) : Conn :=
  let _ := parse_timezone zoneinfo (Some timezone) in
  upsert_config guild_id (mkKwargs None None (Some (Some timezone))) c.

(** A command of the reminders cog that writes to the store, or a poll
    cycle. *)
Inductive Command : Type :=
| CmdCreate (env : CreateEnv) (a : CreateArgs)
| CmdAddReminder (now_utc : Z) (guild_id : option Z) (project_id : Z) (offset : string)
| CmdDelete (guild_id : option Z) (project_id : Z)
| CmdConfigure (zoneinfo : string -> bool) (guild_id channel : Z)
    (time_hhmm : string) (timezone : option string)
| CmdTimezone (zoneinfo : string -> bool) (guild_id : Z) (timezone : string)
| CmdPoll (gw : Gateway) (now : Z).

Definition run_command (cmd : Command) (c : Conn) : Conn :=
  match cmd with
  | CmdCreate env a => (project_create env a c).2
  | CmdAddReminder now g pid off => (project_add_reminder now g pid off c).2
  | CmdDelete g pid => (project_delete g pid c).2
  | CmdConfigure zi g ch hhmm tz => (deadlines_configure zi g ch hhmm tz c).2
  | CmdTimezone zi g tz => deadlines_timezone zi g tz c
  | CmdPoll gw now => conn (_reminder_loop gw now (start c))
  end.

(** The store after a sequence of commands and poll cycles on a new
    database. *)
Definition run_commands (cmds : list Command) : Conn :=
  fold_left (fun c cmd => run_command cmd c) cmds fresh_conn.

(** Every stored reminder belongs to a stored project, and the
    [AUTOINCREMENT] counters are not below any stored id. *)
Definition store_consistent (t : Tables) : Prop :=
  (forall rid r, reminders t !! rid = Some r ->
     is_Some (projects t !! Reminder.project_id r))
  /\ (forall rid, is_Some (reminders t !! rid) -> rid <= seq_reminders t)
  /\ (forall pid, is_Some (projects t !! pid) -> pid <= seq_projects t).

(** Both what the connection sees and what is committed are consistent. *)
Definition conn_consistent (c : Conn) : Prop :=
  store_consistent (view c) /\ store_consistent (committed c).

(** The fire instants that [project_create] computes when no custom offsets
    are given. *)
Definition default_schedule (now_utc due_utc : Z) : list Z :=
  with_fallback now_utc due_utc
    (reminder_timestamps now_utc due_utc (default_offsets now_utc due_utc)).

(** A reminder row that no run of the poller in [runs] can select: it is
    already marked, or its project is gone, or its fire instant lies in
    none of the windows [[now - 60, now + 30]]. *)
Definition never_due (t : Tables) (runs : list (Gateway * Z)) (r : Reminder.t)
  : Prop :=
  Reminder.sent r <> 0
  \/ projects t !! Reminder.project_id r = None
  \/ forall run, run ∈ runs ->
       ~ (run.2 - 60 <= Reminder.remind_ts r <= run.2 + 30).

(** A string without the character [:]. *)
Fixpoint no_colon (s : string) : Prop :=
  match s with
  | EmptyString => True
  | String c s' => c <> ":"%char /\ no_colon s'
  end.

(** The debounce guard of the digest poller as a set. *)
Definition guard (b : Bot) : gset string := default ∅ (digest_cache b).

(** ** The weekly schedule ([cogs/schedules.py]) *)

(** [WEEKDAY_MAP], a dict from the lower-case day names to 0..6. *)
Definition WEEKDAY_MAP : list (string * Z) :=
  [("mon", 0); ("monday", 0);
   ("tue", 1); ("tuesday", 1);
   ("wed", 2); ("wednesday", 2);
   ("thu", 3); ("thursday", 3);
   ("fri", 4); ("friday", 4);
   ("sat", 5); ("saturday", 5);
   ("sun", 6); ("sunday", 6)]%string.

(** [d[k]] for a dict written as a list of items with distinct keys;
    [None] when [k not in d]. *)
Definition dict_get {V : Type} (k : string) (d : list (string * V)) : option V :=
  snd <$> List.find (fun kv => String.eqb kv.1 k) d.

(** What [parse_day] and [validate_time] raise, all of class [ValueError]:
    ["Invalid day. Use one of: Mon/Tue/Wed/Thu/Fri/Sat/Sun"],
    ["Use HH:MM 24h format"], the error of [int] on a text that is not a
    decimal literal, and ["Invalid time range"]. *)
Inductive ScheduleError : Type :=
| InvalidDay
| UseHHMM
| InvalidLiteral (literal : string)
| InvalidTimeRange.

Definition parse_day (day : string) : ScheduleError + Z :=
  let k := text (map Py.lower (Py.strip (chars day))) in
  match dict_get k WEEKDAY_MAP with
  | None => inl InvalidDay
  | Some d => inr d
  end.

(** The first lines of [validate_time]: the hour and the minute as
    numbers. *)
Definition read_time (hhmm : string) : ScheduleError + (Z * Z) :=
  match Py.split ":" (chars hhmm) with
  | [h; m] =>
      match Py.int_of_str h with
      | None => inl (InvalidLiteral (text h))
      | Some h =>
          match Py.int_of_str m with
          | None => inl (InvalidLiteral (text m))
          | Some m =>
              if negb ((0 <=? h) && (h <=? 23) && (0 <=? m) && (m <=? 59))
              then inl InvalidTimeRange
              else inr (h, m)
          end
      end
  | _ => inl UseHHMM
  end.

(** [f"{n:02d}"]: the decimal text of [n], with a zero in front when it
    has one character only. *)
Definition format_02d (n : Z) : string :=
  let s := pretty n in
  if (String.length s <? 2)%nat then "0" +:+ s else s.

Definition format_time (hm : Z * Z) : string :=
  format_02d hm.1 +:+ ":" +:+ format_02d hm.2.

Definition validate_time (hhmm : string) : ScheduleError + string :=
  match read_time hhmm with
  | inl e => inl e
  | inr hm => inr (format_time hm)
  end.

(** Rows of [schedules], keyed by [id]. *)
Module Schedule.
Record t : Type := mk {
  guild_id : Z;
  weekday : Z;
  subject : string;
  start_time : string;
  end_time : string;
  notes : option string
}.
End Schedule.

Record Schedules : Type := mkSchedules {
  schedule_rows : gmap Z Schedule.t;
  seq_schedules : Z
}.

Definition no_schedules : Schedules := mkSchedules ∅ 0.

Inductive AddOutcome : Type :=
(** an error text sent back *)
| AddRefused (e : ScheduleError)
(** ["Added: {subject} on {day.title()} {start}-{end}"] *)
| Added (subject day start_ end_ : string)
(** [sqlite3.IntegrityError] leaves the handler: [guild_id] is
    [NOT NULL] *)
| AddRaised.

(** [SchedulesCog.add] *)
Definition schedule_add (guild_id : option Z) (day subject start_hhmm end_hhmm : string)
    (notes : option string) (s : Schedules) : AddOutcome * Schedules :=
  match parse_day day with
  | inl e => (AddRefused e, s)
  | inr weekday =>
      match validate_time start_hhmm with
      | inl e => (AddRefused e, s)
      | inr start_ =>
          match validate_time end_hhmm with
          | inl e => (AddRefused e, s)
          | inr end_ =>
              match guild_id with
              | None => (AddRaised, s)
              | Some g =>
                  let id := seq_schedules s + 1 in
                  let row :=
                    Schedule.mk g weekday subject start_ end_
                      (Some (default ""%string (Py.or_else notes None))) in
                  (Added subject day start_ end_,
                   mkSchedules (<[id := row]> (schedule_rows s)) id)
              end
          end
      end
  end.

(** Comparison of [TEXT] values in [ORDER BY]: byte by byte, a proper
    prefix first. *)
Definition text_le (a b : string) : Prop := String.leb a b = true.

#[global] Instance text_le_dec : RelDecision text_le :=
  fun a b => decide (String.leb a b = true).

Definition start_le (a b : Schedule.t) : Prop :=
  text_le (Schedule.start_time a) (Schedule.start_time b).

#[global] Instance start_le_dec : RelDecision start_le :=
  fun a b => text_le_dec (Schedule.start_time a) (Schedule.start_time b).

(** [ORDER BY weekday, start_time] *)
Definition weekday_start_le (a b : Schedule.t) : Prop :=
  Schedule.weekday a < Schedule.weekday b
  \/ (Schedule.weekday a = Schedule.weekday b /\ start_le a b).

#[global] Instance weekday_start_le_dec : RelDecision weekday_start_le.
Proof. intros a b. unfold weekday_start_le. apply _. Defined.

(** [SELECT ... FROM schedules WHERE guild_id = ? AND weekday = ? ORDER BY
    start_time] *)
Definition query_day (s : Schedules) (guild_id : option Z) (wd : Z)
  : list Schedule.t :=
  merge_sort start_le
    (List.filter
       (fun r => bool_decide (guild_id = Some (Schedule.guild_id r))
                 && (Schedule.weekday r =? wd))
       (map_to_list (schedule_rows s)).*2).

(** [SELECT ... FROM schedules WHERE guild_id = ? ORDER BY weekday,
    start_time] *)
Definition query_week (s : Schedules) (guild_id : option Z) : list Schedule.t :=
  merge_sort weekday_start_le
    (List.filter
       (fun r => bool_decide (guild_id = Some (Schedule.guild_id r)))
       (map_to_list (schedule_rows s)).*2).

Definition day_names : list string :=
  ["Mon"; "Tue"; "Wed"; "Thu"; "Fri"; "Sat"; "Sun"]%string.

(** [by_day = {i: [] for i in range(7)}] and the loop
    [by_day[r["weekday"]].append(r)]; a weekday that is no key raises
    [KeyError]. *)
Definition empty_by_day : gmap Z (list Schedule.t) :=
  list_to_map ((fun i => (Z.of_nat i, [])) <$> seq 0 7).

Fixpoint group_by_day (rows : list Schedule.t) (by_day : gmap Z (list Schedule.t))
  : Py.result (gmap Z (list Schedule.t)) :=
  match rows with
  | [] => inr by_day
  | r :: rest =>
      match by_day !! Schedule.weekday r with
      | None => inl (Py.KeyError (pretty (Schedule.weekday r)))
      | Some entries =>
          group_by_day rest (<[Schedule.weekday r := entries ++ [r]]> by_day)
      end
  end.

(** The fields of the weekly embed: for [i] in [range(7)], the day name
    and the entries of the day, days without entry left out. *)
Definition week_fields (by_day : gmap Z (list Schedule.t))
  : list (string * list Schedule.t) :=
  omap (fun i =>
          match by_day !! Z.of_nat i, day_names !! i with
          | Some (e :: entries), Some name => Some (name, e :: entries)
          | _, _ => None
          end)
       (seq 0 7).

(** What [SchedulesCog.list] sends.  A field of the embed of a day shows
    one row (times, subject, and the notes or ["-"]); a field of the
    weekly embed shows the rows of one day. *)
Inductive Listing : Type :=
| ListRefused (e : ScheduleError)
| NoEntries
| DayEmbed (day : string) (fields : list Schedule.t)
| WeekEmbed (fields : list (string * list Schedule.t))
| ListRaised (e : Py.exn).

Definition schedule_list (guild_id : option Z) (day : option string) (s : Schedules)
  : Listing :=
  if Py.truthy day then
    match parse_day (default ""%string day) with
    | inl e => ListRefused e
    | inr wd =>
        match query_day s guild_id wd with
        | [] => NoEntries
        | rows => DayEmbed (default ""%string day) rows
        end
    end
  else
    match query_week s guild_id with
    | [] => NoEntries
    | rows =>
        match group_by_day rows empty_by_day with
        | inl e => ListRaised e
        | inr by_day => WeekEmbed (week_fields by_day)
        end
    end.

Inductive ClearOutcome : Type :=
| ClearRefused (e : ScheduleError)
(** ["Cleared schedule for {day.title()}."] *)
| Cleared (day : string).

(** [SchedulesCog.clear] *)
Definition schedule_clear (guild_id : option Z) (day : string) (s : Schedules)
  : ClearOutcome * Schedules :=
  match parse_day day with
  | inl e => (ClearRefused e, s)
  | inr wd =>
      (Cleared day,
       mkSchedules
         (filter (fun kv : Z * Schedule.t =>
                    ~ (guild_id = Some (Schedule.guild_id kv.2)
                       /\ Schedule.weekday kv.2 = wd))
                 (schedule_rows s))
         (seq_schedules s))
  end.

(** A command of the schedules cog that writes to the table. *)
Inductive ScheduleCommand : Type :=
| SchAdd (guild_id : option Z) (day subject start_hhmm end_hhmm : string)
    (notes : option string)
| SchClear (guild_id : option Z) (day : string).

Definition run_schedule_command (cmd : ScheduleCommand) (s : Schedules) : Schedules :=
  match cmd with
  | SchAdd g day subject st en notes => (schedule_add g day subject st en notes s).2
  | SchClear g day => (schedule_clear g day s).2
  end.

Definition run_schedule_commands (cmds : list ScheduleCommand) : Schedules :=
  fold_left (fun s cmd => run_schedule_command cmd s) cmds no_schedules.

(** Minutes since midnight of a time that [validate_time] returned. *)
Definition minute_of_day (hm : Z * Z) : Z := 60 * hm.1 + hm.2.

(** The texts that [validate_time] returns. *)
Definition canonical_time (t : string) : Prop :=
  exists h m, 0 <= h <= 23 /\ 0 <= m <= 59 /\ t = format_time (h, m).

(** A row as [schedule_add] writes it. *)
Definition schedule_row_ok (r : Schedule.t) : Prop :=
  0 <= Schedule.weekday r <= 6
  /\ canonical_time (Schedule.start_time r)
  /\ canonical_time (Schedule.end_time r)
  /\ is_Some (Schedule.notes r).

(** Minutes since midnight of a stored time. *)
Definition minutes_of (t : string) : Z :=
  match read_time t with
  | inr hm => minute_of_day hm
  | inl _ => 0
  end.

Definition chronological (a b : Schedule.t) : Prop :=
  minutes_of (Schedule.start_time a) <= minutes_of (Schedule.start_time b).

(** Every stored row is as [schedule_add] writes it, under an id that the
    counter has passed. *)
Definition rows_ok (s : Schedules) : Prop :=
  forall id r, schedule_rows s !! id = Some r ->
    schedule_row_ok r /\ id <= seq_schedules s.

(** [ORDER BY weekday, start_time] read on the times of day. *)
Definition week_chronological (a b : Schedule.t) : Prop :=
  Schedule.weekday a < Schedule.weekday b
  \/ (Schedule.weekday a = Schedule.weekday b /\ chronological a b).

(** ** The question lists of [cogs/assessments.py] *)

(** The loop of [qa_get] that cuts the rows of a topic into embeds.  An
    embed is the list of its fields, a field a name and a value; all
    embeds carry the same title. *)
Definition MAX_FIELDS : nat := 10.

(** [f"Q{r['id']}: {q}"] *)
Definition field_name (id : Z) (q : string) : string :=
  "Q" +:+ pretty id +:+ ": " +:+ q.

(** [a if len(a) <= 1024 else a[:1000] + "... (truncated)"] *)
Definition field_value (a : string) : string :=
  if (String.length a <=? 1024)%nat then a
  else substring 0 1000 a +:+ "... (truncated)".

Definition qa_field (r : Z * string * string) : string * string :=
  let '(id, q, a) := r in (field_name id q, field_value a).

(** One turn of [for i, r in enumerate(rows, start=1)], on the variables
    [chunk] and [embeds]. *)
Definition qa_step (st : list (string * string) * list (list (string * string)))
    (r : Z * string * string)
  : list (string * string) * list (list (string * string)) :=
  let '(chunk, embeds) := st in
  let chunk := chunk ++ [qa_field r] in
  if (length chunk =? MAX_FIELDS)%nat then ([], embeds ++ [chunk])
  else (chunk, embeds).

Definition qa_embeds (rows : list (Z * string * string))
  : list (list (string * string)) :=
  let '(chunk, embeds) := fold_left qa_step rows ([], []) in
  match chunk with
  | [] => embeds
  | _ :: _ => embeds ++ [chunk]
  end.

(** The parser [_parse_qas_text] of the bulk question text. *)

(** The line boundaries of [str.splitlines] among U+0000..U+00FF: LF, VT,
    FF, CR, FS, GS, RS and NEL. *)
Definition is_linebreak (c : ascii) : bool :=
  let n := Py.code c in
  ((10 <=? n) && (n <=? 13)) || ((28 <=? n) && (n <=? 30)) || (n =? 133).

(** [s.splitlines()]: CR LF counts as one boundary, and a boundary at the
    end opens no further line. *)
Fixpoint splitlines (s : list ascii) : list (list ascii) :=
  match s with
  | [] => []
  | c :: s' =>
      if is_linebreak c then
        [] :: match s' with
              | c' :: s'' =>
                  if Ascii.eqb c "013" && Ascii.eqb c' "010" then splitlines s''
                  else splitlines s'
              | [] => []
              end
      else
        match splitlines s' with
        | l :: ls => (c :: l) :: ls
        | [] => [[c]]
        end
  end.

(** [ln.lower().startswith(p)] for a two-character [p]. *)
Definition lower_startswith (c1 c2 : ascii) (ln : list ascii) : bool :=
  match ln with
  | x1 :: x2 :: _ => Ascii.eqb (Py.lower x1) c1 && Ascii.eqb (Py.lower x2) c2
  | _ => false
  end.

(** The variables [qas], [q_cur] and [a_cur]. *)
Definition QasState : Type :=
  list (list ascii * list ascii) * option (list ascii) * option (list ascii).

Definition flush (st : QasState) : QasState :=
  let '(qas, q_cur, a_cur) := st in
  match q_cur, a_cur with
  | Some q, Some a => (qas ++ [(Py.strip q, Py.strip a)], None, None)
  | _, _ => (qas, None, None)
  end.

(** One turn of [for ln in lines]. *)
Definition qas_line (st : QasState) (ln : list ascii) : QasState :=
  match Py.strip ln with
  | [] => flush st
  | _ :: _ =>
      if lower_startswith "q" ":" ln then
        let '(qas, _, a_cur) := flush st in
        (qas, Some (Py.strip (drop 2 ln)), a_cur)
      else if lower_startswith "a" ":" ln then
        let '(qas, q_cur, _) := st in
        (qas, q_cur, Some (Py.strip (drop 2 ln)))
      else
        let '(qas, q_cur, a_cur) := st in
        match a_cur, q_cur with
        | Some a, _ => (qas, q_cur, Some (a ++ "010"%char :: ln))
        | None, Some q => (qas, Some (q ++ "010"%char :: ln), a_cur)
        | None, None => (qas, Some (Py.strip ln), a_cur)
        end
  end.

Definition parse_qas_lines (lines : list (list ascii))
  : list (list ascii * list ascii) :=
  let '(qas, _, _) := flush (fold_left qas_line lines ([], None, None)) in
  List.filter (fun qa => match qa with
                         | (_ :: _, _ :: _) => true
                         | _ => false
                         end) qas.

Definition _parse_qas_text (qas_text : string) : list (string * string) :=
  (fun qa => (text qa.1, text qa.2))
    <$> parse_qas_lines (Py.rstrip <$> splitlines (chars qas_text)).

(** The text that lists the pairs as [Q: ...] and [A: ...] lines. *)
Definition qas_lines_of (pairs : list (list ascii * list ascii)) : list ascii :=
  concat ((fun qa => chars "Q: " ++ qa.1 ++ "010"%char :: chars "A: " ++ qa.2
                     ++ ["010"%char]) <$> pairs).

(** A one-line text without blank at either end. *)
Definition plain_line (s : list ascii) : Prop :=
  s <> [] /\ Py.strip s = s /\ Forall (fun c => is_linebreak c = false) s.

(** Pairs of texts without blank at either end. *)
Definition stripped_pairs (qas : list (list ascii * list ascii)) : Prop :=
  Forall (fun qa => Py.strip qa.1 = qa.1 /\ Py.strip qa.2 = qa.2) qas.

(** * Properties *)

(** ** Offset calculator: default offsets *)

Example default_offsets_ten_days :
  with_fallback 0 864000 (reminder_timestamps 0 864000 (default_offsets 0 864000))
  = [864000 - 3 * day; 864000 - 2 * day; 864000 - day].
Proof. reflexivity. Qed.

Ltac branch_on_tests :=
  repeat (match goal with
          | |- context [?a <=? ?b] => destruct (Z.leb_spec a b)
          | |- context [?a <? ?b] => destruct (Z.ltb_spec a b)
          end; simpl; try lia).

(** C3.  With no explicit offsets, [default_offsets now due] is the row of
    the lead-time table selected by the lead [L = due - now]: [L >= 3d]
    gives [3d, 2d, 1d]; [2d <= L < 3d] gives [1d]; [12h <= L < 2d] gives
    [4h]; [4h <= L < 12h] gives [2h]; [1h <= L < 4h] gives [1h];
    [30m <= L < 1h] gives [30m]; [10m < L < 30m] gives [10m]; [L <= 10m]
    gives [max(L - 60, 60)].  In particular a lead of four days gives
    [3d, 2d, 1d], a lead of 1800 gives [1800] and a lead of 300 gives
    [240]. *)
Theorem default_offsets_table (now due : Z) :
  let L := due - now in
  (3 * day <= L -> default_offsets now due = [3 * day; 2 * day; day])
  /\ (2 * day <= L < 3 * day -> default_offsets now due = [day])
  /\ (12 * hour <= L < 2 * day -> default_offsets now due = [4 * hour])
  /\ (4 * hour <= L < 12 * hour -> default_offsets now due = [2 * hour])
  /\ (hour <= L < 4 * hour -> default_offsets now due = [hour])
  /\ (30 * 60 <= L < hour -> default_offsets now due = [30 * 60])
  /\ (10 * 60 < L < 30 * 60 -> default_offsets now due = [10 * 60])
  /\ (L <= 10 * 60 -> default_offsets now due = [Z.max (L - 60) 60])
  /\ (L = 4 * 86400 -> default_offsets now due = [259200; 172800; 86400])
  /\ (L = 1800 -> default_offsets now due = [1800])
  /\ (L = 300 -> default_offsets now due = [240]).
Proof.
  intros L. unfold default_offsets. fold L. unfold day, hour in *.
  repeat split; intros H; branch_on_tests; try reflexivity.
  f_equal. lia.
Qed.

Lemma default_offsets_table_witness :
  default_offsets 1000 (1000 + 10 * day) = [3 * day; 2 * day; day]
  /\ default_offsets 1000 (1000 + 2 * day) = [day]
  /\ default_offsets 1000 (1000 + 12 * hour) = [4 * hour]
  /\ default_offsets 1000 (1000 + 4 * hour) = [2 * hour]
  /\ default_offsets 1000 (1000 + hour) = [hour]
  /\ default_offsets 1000 (1000 + 30 * 60) = [30 * 60]
  /\ default_offsets 1000 (1000 + 601) = [10 * 60]
  /\ default_offsets 1000 (1000 + 600) = [Z.max (1000 + 600 - 1000 - 60) 60]
  /\ default_offsets 0 (4 * 86400) = [259200; 172800; 86400]
  /\ default_offsets 0 1800 = [1800]
  /\ default_offsets 0 300 = [240].
Proof.
  repeat apply conj.
  - destruct (default_offsets_table 1000 (1000 + 10 * day))
      as (H & _). apply H. unfold day. lia.
  - destruct (default_offsets_table 1000 (1000 + 2 * day))
      as (_ & H & _). apply H. unfold day. lia.
  - destruct (default_offsets_table 1000 (1000 + 12 * hour))
      as (_ & _ & H & _). apply H. unfold day, hour. lia.
  - destruct (default_offsets_table 1000 (1000 + 4 * hour))
      as (_ & _ & _ & H & _). apply H. unfold hour. lia.
  - destruct (default_offsets_table 1000 (1000 + hour))
      as (_ & _ & _ & _ & H & _). apply H. unfold hour. lia.
  - destruct (default_offsets_table 1000 (1000 + 30 * 60))
      as (_ & _ & _ & _ & _ & H & _). apply H. unfold hour. lia.
  - destruct (default_offsets_table 1000 (1000 + 601))
      as (_ & _ & _ & _ & _ & _ & H & _). apply H. lia.
  - destruct (default_offsets_table 1000 (1000 + 600))
      as (_ & _ & _ & _ & _ & _ & _ & H & _). apply H. lia.
  - destruct (default_offsets_table 0 (4 * 86400))
      as (_ & _ & _ & _ & _ & _ & _ & _ & H & _). apply H. lia.
  - destruct (default_offsets_table 0 1800)
      as (_ & _ & _ & _ & _ & _ & _ & _ & _ & H & _). apply H. lia.
  - destruct (default_offsets_table 0 300)
      as (_ & _ & _ & _ & _ & _ & _ & _ & _ & _ & H). apply H. lia.
Defined.

(** C9.  [default_offsets] is total and never returns the empty list, also
    when [due <= now]; every offset it returns is at least 60; and when
    the lead is at most ten minutes (zero and negative leads included) it
    returns the single offset [max(lead - 60, 60)], which is at least
    60. *)
Theorem default_offsets_nonempty (now due : Z) :
  default_offsets now due <> []
  /\ Forall (fun off => 60 <= off) (default_offsets now due)
  /\ (due - now <= 10 * 60 ->
      default_offsets now due = [Z.max (due - now - 60) 60]
      /\ 60 <= Z.max (due - now - 60) 60).
Proof.
  unfold default_offsets, day, hour.
  split; [| split].
  - branch_on_tests; discriminate.
  - branch_on_tests; repeat (apply Forall_cons_2; [lia |]); apply Forall_nil_2.
  - intros H. split; [| lia]. branch_on_tests. reflexivity.
Qed.

Lemma default_offsets_nonempty_witness :
  default_offsets 500 200 = [60] /\ default_offsets 500 500 = [60]
  /\ default_offsets 0 600 = [540].
Proof.
  repeat apply conj.
  - destruct (default_offsets_nonempty 500 200) as (_ & _ & H).
    destruct H as [H _]; [lia | exact H].
  - destruct (default_offsets_nonempty 500 500) as (_ & _ & H).
    destruct H as [H _]; [lia | exact H].
  - destruct (default_offsets_nonempty 0 600) as (_ & _ & H).
    destruct H as [H _]; [lia | exact H].
Defined.

(** ** Scanning lists *)

Section scan_facts.
Context {A : Type} (f : A -> bool).

Lemma takewhile_dropwhile (l : list A) :
  Py.takewhile f l ++ Py.dropwhile f l = l.
Proof.
  induction l as [|x l IH]; simpl; [reflexivity|].
  destruct (f x); simpl; [now rewrite IH | reflexivity].
Qed.

Lemma Forall_takewhile (l : list A) :
  Forall (fun x => f x = true) (Py.takewhile f l).
Proof.
  induction l as [|x l IH]; simpl; [constructor|].
  destruct (f x) eqn:E; constructor; assumption.
Qed.

Lemma dropwhile_head (l r : list A) (x : A) :
  Py.dropwhile f l = x :: r -> f x = false.
Proof.
  induction l as [|y l IH]; simpl; [discriminate|].
  destruct (f y) eqn:E; [exact IH|].
  intros [= -> _]. exact E.
Qed.

Lemma dropwhile_all (w : list A) :
  Forall (fun x => f x = true) w -> Py.dropwhile f w = [].
Proof.
  induction 1 as [|x w Hx _ IH]; simpl; [reflexivity|].
  now rewrite Hx.
Qed.

Lemma dropwhile_app (w l : list A) :
  Forall (fun x => f x = true) w ->
  Py.dropwhile f (w ++ l) = Py.dropwhile f l.
Proof.
  induction 1 as [|x w Hx _ IH]; simpl; [reflexivity|].
  now rewrite Hx.
Qed.

Lemma takewhile_app (w l : list A) :
  Forall (fun x => f x = true) w ->
  Py.takewhile f (w ++ l) = w ++ Py.takewhile f l.
Proof.
  induction 1 as [|x w Hx _ IH]; simpl; [reflexivity|].
  now rewrite Hx, IH.
Qed.

Lemma dropwhile_nil_all (l : list A) :
  Py.dropwhile f l = [] -> Forall (fun x => f x = true) l.
Proof.
  induction l as [|x l IH]; simpl; [constructor|].
  destruct (f x) eqn:E; [|discriminate].
  intros H. constructor; auto.
Qed.

End scan_facts.

(** ** Character classes *)

Ltac each_char c :=
  destruct c as [[] [] [] [] [] [] [] []]; vm_compute.

Lemma digit_not_space (c : ascii) : Py.isdigit c = true -> Py.isspace c = false.
Proof. each_char c; congruence. Qed.

Lemma is_unit_letter (c : ascii) : is_unit c = bool_decide (unit_letter c).
Proof. each_char c; reflexivity. Qed.

Lemma unit_letter_is_unit (u : ascii) : unit_letter u -> is_unit u = true.
Proof. intros H. rewrite is_unit_letter. now apply bool_decide_eq_true. Qed.

Lemma unit_not_space (u : ascii) : is_unit u = true -> Py.isspace u = false.
Proof. each_char u; congruence. Qed.

Lemma unit_not_digit (u : ascii) : is_unit u = true -> Py.isdigit u = false.
Proof. each_char u; congruence. Qed.

Lemma space_not_digit (c : ascii) : Py.isspace c = true -> Py.isdigit c = false.
Proof. each_char c; congruence. Qed.

Lemma unit_multiplier_lower (u : ascii) :
  is_unit u = true ->
  unit_multiplier (Py.lower u) = Some (unit_seconds u) /\ 0 < unit_seconds u.
Proof. each_char u; intros H; (discriminate H || (split; reflexivity)). Qed.

Lemma digit_value_range (c : ascii) :
  Py.isdigit c = true -> 0 <= Py.digit_value c <= 9.
Proof. each_char c; intros H; (discriminate H || (split; discriminate)). Qed.

(** ** The token grammar and [DURATION_RE] *)

Lemma first_not_digit (w2 w3 : list ascii) (u : ascii) :
  spaces w2 -> is_unit u = true ->
  Py.takewhile Py.isdigit (w2 ++ u :: w3) = []
  /\ Py.dropwhile Py.isdigit (w2 ++ u :: w3) = w2 ++ u :: w3.
Proof.
  intros Hw Hu. destruct Hw as [|c w2 Hc Hw]; simpl.
  - now rewrite (unit_not_digit u Hu).
  - now rewrite (space_not_digit c Hc).
Qed.

Lemma DURATION_RE_match_complete (p ds : list ascii) (u : ascii) :
  duration_token p ds u -> DURATION_RE_match p = Some (ds, u).
Proof.
  intros (w1 & w2 & w3 & -> & H1 & H2 & H3 & Hne & Hds & Hu).
  apply unit_letter_is_unit in Hu.
  unfold DURATION_RE_match.
  rewrite (dropwhile_app _ _ _ H1).
  destruct ds as [|d ds]; [congruence|].
  assert (Hd : Py.isspace d = false)
    by (apply digit_not_space; now inversion Hds).
  replace (Py.dropwhile Py.isspace ((d :: ds) ++ w2 ++ u :: w3))
    with ((d :: ds) ++ w2 ++ u :: w3) by (simpl; now rewrite Hd).
  rewrite (takewhile_app _ _ _ Hds), (dropwhile_app _ _ _ Hds).
  destruct (first_not_digit w2 w3 u H2 Hu) as [-> ->].
  rewrite app_nil_r. simpl.
  rewrite (dropwhile_app _ _ _ H2). simpl.
  rewrite (unit_not_space u Hu), Hu. simpl.
  now rewrite (proj2 (forallb_forall _ _)) by (intros x Hx; eapply List.Forall_forall in H3; eauto).
Qed.

Lemma DURATION_RE_match_sound (p ds : list ascii) (u : ascii) :
  DURATION_RE_match p = Some (ds, u) -> duration_token p ds u.
Proof.
  unfold DURATION_RE_match.
  set (r1 := Py.dropwhile Py.isspace p).
  destruct (Py.takewhile Py.isdigit r1) as [|d g1] eqn:Eg; [discriminate|].
  set (r2 := Py.dropwhile Py.isdigit r1).
  destruct (Py.dropwhile Py.isspace r2) as [|g2 r3] eqn:Er; [discriminate|].
  destruct (is_unit g2) eqn:Eu; [|discriminate].
  destruct (forallb Py.isspace r3) eqn:E3; [|discriminate].
  simpl. intros [= <- <-].
  exists (Py.takewhile Py.isspace p), (Py.takewhile Py.isspace r2), r3.
  repeat apply conj.
  - rewrite <- Er, takewhile_dropwhile. unfold r2. rewrite <- Eg.
    rewrite takewhile_dropwhile. unfold r1. now rewrite takewhile_dropwhile.
  - apply Forall_takewhile.
  - apply Forall_takewhile.
  - apply List.Forall_forall. intros x Hx.
    apply (proj1 (forallb_forall _ _) E3 x Hx).
  - discriminate.
  - rewrite <- Eg. apply Forall_takewhile.
  - rewrite is_unit_letter in Eu. now apply bool_decide_eq_true in Eu.
Qed.

Lemma DURATION_RE_match_spec (p ds : list ascii) (u : ascii) :
  DURATION_RE_match p = Some (ds, u) <-> duration_token p ds u.
Proof. split; [apply DURATION_RE_match_sound | apply DURATION_RE_match_complete]. Qed.


(** ** [strip] *)


Lemma strip_blank (tok : list ascii) : blank tok -> Py.strip tok = [].
Proof.
  intros H. unfold Py.strip, Py.lstrip. now rewrite (dropwhile_all _ _ H).
Qed.





(** ** Decimal notation *)

Lemma int_of_digits_acc (ds : list ascii) (acc : Z) :
  fold_left (fun a d => 10 * a + Py.digit_value d) ds acc
  = acc * 10 ^ Z.of_nat (length ds) + decimal_value ds.
Proof.
  revert acc. induction ds as [|d ds IH]; intros acc.
  - simpl. lia.
  - cbn [fold_left decimal_value length]. rewrite IH.
    rewrite Nat2Z.inj_succ, Z.pow_succ_r by lia. ring.
Qed.

Lemma int_of_digits_decimal (ds : list ascii) :
  Py.int_of_digits ds = decimal_value ds.
Proof. unfold Py.int_of_digits. rewrite int_of_digits_acc. lia. Qed.

Lemma decimal_value_nonneg (ds : list ascii) : digits ds -> 0 <= decimal_value ds.
Proof.
  induction 1 as [|d ds Hd _ IH]; simpl; [lia|].
  pose proof (digit_value_range d Hd).
  assert (0 <= 10 ^ Z.of_nat (length ds)) by (apply Z.pow_nonneg; lia).
  nia.
Qed.

(** ** [sorted(set(out), reverse=True)] *)

Lemma Zge_trans : Transitive Z.ge.
Proof. intros x y z. lia. Qed.

Lemma Zge_total : Total Z.ge.
Proof. intros x y. lia. Qed.

Lemma descending_strict (l : list Z) :
  StronglySorted Z.ge l -> NoDup l -> StronglySorted (fun a b => b < a) l.
Proof.
  induction 1 as [|x l Hs IH Hx]; intros Hnd; constructor.
  - apply IH. now inversion Hnd.
  - apply List.Forall_forall. intros y Hy.
    pose proof (proj1 (List.Forall_forall _ _) Hx y Hy) as Hge.
    assert (x <> y).
    { intros ->. inversion Hnd as [|? ? Hnin _]; subst.
      apply Hnin. now apply list_elem_of_In. }
    lia.
Qed.

Lemma sorted_set_reverse_spec (out : list Z) :
  (forall x, x ∈ sorted_set_reverse out <-> x ∈ out)
  /\ NoDup (sorted_set_reverse out)
  /\ StronglySorted (fun a b => b < a) (sorted_set_reverse out).
Proof.
  unfold sorted_set_reverse.
  set (s := list_to_set out : gset Z).
  assert (Hp : merge_sort Z.ge (elements s) ≡ₚ elements s)
    by apply merge_sort_Permutation.
  assert (Hnd : NoDup (merge_sort Z.ge (elements s))).
  { rewrite Hp. apply NoDup_elements. }
  repeat apply conj.
  - intros x. rewrite Hp, elem_of_elements. unfold s.
    apply elem_of_list_to_set.
  - exact Hnd.
  - apply descending_strict; [|exact Hnd].
    apply (@StronglySorted_merge_sort _ Z.ge _ Zge_trans Zge_total).
Qed.

(** ** The parsing loop *)












(** ** Offset calculator: parsing *)







(** ** Trigger store: what [project_create] writes *)

Lemma insert_reminders_fold (rows : list Reminder.t) (t : Tables) :
  let t' := fold_left (fun t r => insert_reminder r t) rows t in
  config t' = config t
  /\ projects t' = projects t
  /\ seq_projects t' = seq_projects t
  /\ seq_reminders t' = seq_reminders t + Z.of_nat (length rows)
  /\ (forall (i : nat) r, rows !! i = Some r ->
        reminders t' !! (seq_reminders t + 1 + Z.of_nat i) = Some r)
  /\ (forall k, k <= seq_reminders t \/ seq_reminders t + Z.of_nat (length rows) < k ->
        reminders t' !! k = reminders t !! k).
Proof.
  revert t. induction rows as [|r rows IH]; intros t; cbn zeta.
  - simpl. repeat apply conj; try reflexivity; try lia.
    intros i r Hi. now rewrite lookup_nil in Hi.
  - cbn [fold_left].
    destruct (IH (insert_reminder r t)) as (Hc & Hp & Hsp & Hsr & Hnew & Hold).
    cbn [insert_reminder config projects seq_projects seq_reminders reminders] in *.
    repeat apply conj.
    + exact Hc.
    + exact Hp.
    + exact Hsp.
    + rewrite Hsr. cbn [length]. lia.
    + intros [|i] r' Hi.
      * cbn in Hi. injection Hi as <-.
        rewrite Hold by lia.
        replace (seq_reminders t + 1 + Z.of_nat 0) with (seq_reminders t + 1) by lia.
        apply lookup_insert_eq.
      * cbn in Hi. specialize (Hnew i r' Hi).
        rewrite <- Hnew. f_equal. lia.
    + intros k Hk. cbn [length] in Hk. rewrite Hold by lia.
      apply lookup_insert_ne. lia.
Qed.

Lemma project_create_run (env : CreateEnv) (a : CreateArgs) (c : Conn)
    (g : Z) (tz_text : string) (due : Z) (offsets : list Z) :
  create_ready env a c g tz_text due offsets ->
  project_create env a c =
    let ts := with_fallback (ce_now_utc env) due
                (reminder_timestamps (ce_now_utc env) due offsets) in
    match execute_with (ce_fault_project env)
            (insert_project (project_row env a g tz_text due)) c with
    | (inl e, c1) => (Raised e, c1)
    | (inr pid, c1) =>
        match executemany_with (ce_fault_reminders env) insert_reminder
                (reminder_rows pid (ca_custom_offsets a) ts) c1 with
        | (inl e, c2) => (Raised e, c2)
        | (inr _, c2) => (Replied (ProjectCreated pid due ts), c2)
        end
    end.
Proof.
  intros (Hg & Htz & Hdue & Hsoon & Hoff).
  unfold project_create. rewrite Hg. cbn zeta. rewrite Htz, Hdue.
  replace (due <=? ce_now_utc env + 60) with false by (symmetry; apply Z.leb_gt; lia).
  rewrite Hoff. reflexivity.
Qed.

Lemma project_create_created (env : CreateEnv) (a : CreateArgs) (c c' : Conn)
    (pid due : Z) (ts : list Z) :
  project_create env a c = (Replied (ProjectCreated pid due ts), c') ->
  exists g tz_text offsets, create_ready env a c g tz_text due offsets.
Proof.
  unfold project_create, create_ready.
  destruct (ca_guild_id a) as [g|]; [|discriminate]. cbn zeta.
  destruct (ce_due_timestamp env _ _) as [due'|] eqn:Hdue; [|discriminate].
  destruct (Z.leb_spec due' (ce_now_utc env + 60)); [discriminate|].
  destruct (compute_offsets _ _ _) as [[]|offsets] eqn:Hoff; try discriminate.
  destruct (create_tz _ _) as [tz_text|] eqn:Htz; [|discriminate].
  destruct (execute_with _ _ _) as [[e|pid'] c1]; [discriminate|].
  destruct (executemany_with _ _ _ _) as [[e|?] c2]; [discriminate|].
  intros [= -> -> <- <-].
  exists g, tz_text, offsets. repeat apply conj; auto.
Qed.

Lemma create_ready_faults (fp : option StoreFault) (fr : option (nat * StoreFault))
    (env : CreateEnv) (a : CreateArgs) (c : Conn) (g : Z) (tz_text : string)
    (due : Z) (offsets : list Z) :
  create_ready env a c g tz_text due offsets ->
  create_ready (set_faults fp fr env) a c g tz_text due offsets.
Proof. intros H. exact H. Qed.

Lemma with_fallback_nonempty (now due : Z) (l : list Z) :
  now + 60 < due -> with_fallback now due l <> [].
Proof.
  intros H. destruct l; [|discriminate]. unfold with_fallback.
  destruct (Z.ltb_spec (Z.max (due - 300) (now + 60)) due); [discriminate | lia].
Qed.

Lemma reminder_timestamps_bounds (now due : Z) (offsets : list Z) :
  Forall (fun ts => now + 30 < ts /\ exists off, off ∈ offsets /\ ts = due - off)
         (reminder_timestamps now due offsets).
Proof.
  induction offsets as [|off rest IH]; simpl; [constructor|].
  assert (IH' : Forall (fun ts => now + 30 < ts
                         /\ exists o, o ∈ off :: rest /\ ts = due - o)
                  (reminder_timestamps now due rest)).
  { eapply Forall_impl; [exact IH|]. intros ts (H1 & o & Ho & ->).
    split; [exact H1|]. exists o. split; [now apply list_elem_of_further | reflexivity]. }
  destruct (Z.ltb_spec (now + 30) (due - off)); [|exact IH'].
  constructor; [|exact IH'].
  split; [assumption|]. exists off. split; [apply list_elem_of_here | reflexivity].
Qed.

(** The fire instants that [project_create] computes are later than
    [now + 30] and not later than the due instant, whenever no offset is
    negative; the second bound is strict only for positive offsets. *)
Lemma scheduled_instants_bounds (now due : Z) (offsets : list Z) :
  now + 60 < due -> Forall (fun off => 0 <= off) offsets ->
  Forall (fun ts => now + 30 < ts <= due)
         (with_fallback now due (reminder_timestamps now due offsets)).
Proof.
  intros Hsoon Hoff.
  pose proof (reminder_timestamps_bounds now due offsets) as Hb.
  destruct (reminder_timestamps now due offsets) as [|t l] eqn:E.
  - unfold with_fallback.
    destruct (Z.ltb_spec (Z.max (due - 300) (now + 60)) due); [|constructor].
    apply Forall_cons_2; [lia | apply Forall_nil_2].
  - cbn [with_fallback]. eapply Forall_impl; [exact Hb|].
    intros ts (H1 & o & Ho & ->). split; [exact H1|].
    pose proof (proj1 (Forall_forall _ _) Hoff o Ho) as Hpos.
    cbn beta in Hpos. lia.
Qed.






(** ** Trigger store: bounds of stored triggers *)

(** C1 at a failing input.  With the explicit offset ["0s"] the candidate
    [due - 0] passes the only test of the loop, [ts > now + 30], so
    [project_create] stores a trigger whose fire instant is the due instant
    itself, and [project_add_reminder] stores another one: neither is
    strictly before the due instant of its event. *)
Theorem project_create_trigger_at_due :
  exists c1 c2,
    project_create sample_env (sample_args (Some "0s"%string)) fresh_conn
    = (Replied (ProjectCreated 1 sample_due [sample_due]), c1)
    /\ reminders (committed c1) !! 1 = Some (Reminder.mk 1 sample_due 0 1 None)
    /\ ~ trigger_in_bounds sample_now (committed c1) (Reminder.mk 1 sample_due 0 1 None)
    /\ project_add_reminder sample_now (Some 42) 1 "0s" c1
       = (Replied (AddedReminders [sample_due]), c2)
    /\ reminders (committed c2) !! 2 = Some (Reminder.mk 1 sample_due 0 1 None)
    /\ ~ trigger_in_bounds sample_now (committed c2) (Reminder.mk 1 sample_due 0 1 None).
Proof.
  eexists. eexists. repeat apply conj.
  - vm_compute. reflexivity.
  - vm_compute. reflexivity.
  - intros (p & Hp & Hb). vm_compute in Hp. injection Hp as <-.
    vm_compute in Hb. destruct Hb as [_ Hb]. discriminate Hb.
  - vm_compute. reflexivity.
  - vm_compute. reflexivity.
  - intros (p & Hp & Hb). vm_compute in Hp. injection Hp as <-.
    vm_compute in Hb. destruct Hb as [_ Hb]. discriminate Hb.
Qed.

(** ** Trigger store: event and triggers are written by two commits *)

(** C5, as amended.  [project_create] inserts and commits the event row
    by one statement, then inserts the trigger rows by a second one.  If a
    call succeeds, the event row and every computed trigger (at least one)
    are committed.  If instead the trigger insertion of that same call
    fails, in whichever way, the exception escapes, the event row is
    committed all the same and no trigger of it is. *)
Theorem project_create_two_commits (env : CreateEnv) (a : CreateArgs)
    (c c_ok : Conn) (pid due : Z) (ts : list Z) :
  project_create (set_faults None None env) a c
  = (Replied (ProjectCreated pid due ts), c_ok) ->
  (exists row, projects (committed c_ok) !! pid = Some row
               /\ Project.due_ts row = due)
  /\ ts <> []
  /\ (forall t, t ∈ ts ->
        exists rid r, reminders (committed c_ok) !! rid = Some r
                      /\ Reminder.project_id r = pid
                      /\ Reminder.remind_ts r = t
                      /\ Reminder.sent r = 0)
  /\ (forall f, exists c',
        project_create (set_faults None (Some f) env) a c = (Raised sqlite_error, c')
        /\ projects (committed c') !! pid = projects (committed c_ok) !! pid
        /\ reminders (committed c') = reminders (view c)).
Proof.
  intros Hrun.
  destruct (project_create_created _ _ _ _ _ _ _ Hrun) as (g & tzt & offsets & Hready).
  pose proof (create_ready_faults None None env a c g tzt due offsets Hready) as Hr0.
  rewrite (project_create_run _ a c g tzt due offsets Hready) in Hrun.
  cbn [set_faults ce_fault_project ce_fault_reminders ce_now_utc execute_with
       executemany_with] in Hrun.
  cbn zeta in Hrun. cbn [insert_project] in Hrun.
  injection Hrun as <- <- <-.
  set (row := project_row (set_faults None None env) a g tzt due).
  set (t1 := mkTables (config (view c))
               (<[seq_projects (view c) + 1 := row]> (projects (view c)))
               (reminders (view c)) (seq_projects (view c) + 1)
               (seq_reminders (view c))).
  set (ts := with_fallback (ce_now_utc env) due
               (reminder_timestamps (ce_now_utc env) due offsets)).
  set (rows := reminder_rows (seq_projects (view c) + 1) (ca_custom_offsets a) ts).
  destruct (insert_reminders_fold rows t1) as (_ & Hp & _ & _ & Hnew & _).
  cbn zeta in Hp, Hnew. cbn [committed view].
  assert (Hsoon : ce_now_utc env + 60 < due) by apply Hready.
  repeat apply conj.
  - exists row. split; [|reflexivity].
    cbn [view]. rewrite Hp. unfold t1. cbn [projects]. apply lookup_insert_eq.
  - apply with_fallback_nonempty. exact Hsoon.
  - intros t Ht. apply list_elem_of_lookup in Ht as [i Hi].
    eexists _, _. split.
    + cbn [view]. apply (Hnew i). unfold rows, reminder_rows.
      rewrite list_lookup_fmap, Hi. reflexivity.
    + repeat split.
  - intros [k f].
    rewrite (project_create_run (set_faults None (Some (k, f)) env) a c g tzt due
               offsets Hready).
    cbn [set_faults ce_fault_project ce_fault_reminders ce_now_utc execute_with
         executemany_with].
    cbn zeta. cbn [insert_project].
    destruct f; eexists; (split; [reflexivity|]); cbn [committed view];
      fold row; fold t1; rewrite Hp; split; reflexivity.
Qed.

Lemma project_create_two_commits_witness :
  exists c',
    project_create (set_faults None (Some (0%nat, StmtAbort)) sample_env)
      (sample_args None) fresh_conn = (Raised sqlite_error, c')
    /\ is_Some (projects (committed c') !! 1).
Proof.
  destruct (project_create_two_commits sample_env (sample_args None) fresh_conn
              (project_create sample_env (sample_args None) fresh_conn).2
              1 sample_due [sample_due - 300])
    as ((row & Hrow & _) & _ & _ & Hfail).
  - vm_compute. reflexivity.
  - destruct (Hfail (0%nat, StmtAbort)) as (c' & E & Hp & _).
    exists c'. split; [exact E|]. rewrite Hp. now exists row.
Defined.

(** C5, as stated, fails: when the trigger insertion fails, the event row
    stays committed and has no trigger. *)
Lemma project_create_orphan_event :
  exists c',
    project_create (set_faults None (Some (0%nat, StmtAbort)) sample_env)
      (sample_args None) fresh_conn = (Raised sqlite_error, c')
    /\ is_Some (projects (committed c') !! 1)
    /\ reminders (committed c') = ∅
    /\ reminders (view c') = ∅.
Proof.
  eexists. repeat apply conj.
  - vm_compute. reflexivity.
  - vm_compute. eexists. reflexivity.
  - vm_compute. reflexivity.
  - vm_compute. reflexivity.
Qed.

(** ** Digest configuration *)

(** C6 at a failing input.  [deadlines_configure] given a timezone name
    that [ZoneInfo] cannot resolve replies that the digest is configured
    and stores the name as it is: [parse_timezone] falls back to UTC
    without raising, and its result is discarded. *)
Theorem deadlines_configure_stores_unknown_timezone
    (zoneinfo : string -> bool) (c : Conn) :
  let r := deadlines_configure zoneinfo 42 6 "09:00"
             (Some "Mars/Olympus_Mons"%string) c in
  r.1 = Replied (DigestConfigured 6 "09:00" (Some "Mars/Olympus_Mons"%string))
  /\ (exists row, get_config r.2 42 = Some row
                  /\ Config.timezone row = Some "Mars/Olympus_Mons"%string)
  /\ parse_timezone (fun _ => false) (Some "Mars/Olympus_Mons"%string) = tz_utc.
Proof.
  cbn zeta. unfold deadlines_configure.
  change (strptime_HM_ok "09:00") with true. cbn [negb].
  cbn zeta. cbn [fst snd Py.or_else Py.truthy].
  repeat apply conj.
  - reflexivity.
  - unfold upsert_config, get_config.
    destruct (config (view c) !! 42) as [row|] eqn:E.
    + eexists. cbn. rewrite lookup_alter_eq, E. cbn. split; reflexivity.
    + eexists. cbn. rewrite lookup_insert_eq. split; reflexivity.
  - vm_compute. reflexivity.
Qed.

(** ** Reminder poller *)

Lemma sends_for_cons (x : Z) (e : Event) (tr : list Event) :
  sends_for x (e :: tr) = ((if is_send_for x e then 1 else 0) + sends_for x tr)%nat.
Proof. unfold sends_for. simpl. now destruct (is_send_for x e). Qed.

Lemma updates_for_cons (x : Z) (e : Event) (tr : list Event) :
  updates_for x (e :: tr)
  = ((if is_update_for x e then 1 else 0) + updates_for x tr)%nat.
Proof. unfold updates_for. simpl. now destruct (is_update_for x e). Qed.

Lemma try_send_reminder_effect (gw : Gateway) (r : DueRow.t) (b : Bot) :
  let b1 := (try_send_reminder gw r b).2 in
  conn b1 = conn b
  /\ digest_cache b1 = digest_cache b
  /\ (forall x, updates_for x (trace b1) = updates_for x (trace b))
  /\ (forall x, x <> DueRow.rid r -> sends_for x (trace b1) = sends_for x (trace b))
  /\ (sends_for (DueRow.rid r) (trace b) <= sends_for (DueRow.rid r) (trace b1)
      <= sends_for (DueRow.rid r) (trace b) + 1)%nat.
Proof.
  unfold try_send_reminder.
  destruct (resolve_channel gw b (DueRow.channel_id r)) as [e|ch];
    cbn [snd log trace conn digest_cache].
  - repeat split; auto; lia.
  - repeat split; auto.
    + intros x Hx. rewrite sends_for_cons. cbn [is_send_for].
      destruct (Z.eqb_spec (DueRow.rid r) x); [congruence | reflexivity].
    + rewrite sends_for_cons. lia.
    + rewrite sends_for_cons. cbn [is_send_for]. rewrite Z.eqb_refl. lia.
Qed.

Lemma reminder_step_effect (gw : Gateway) (b : Bot) (r : DueRow.t) :
  let b' := reminder_step gw b r in
  conn b' = mark_conn (conn b) (DueRow.rid r)
  /\ digest_cache b' = digest_cache b
  /\ (forall x, updates_for x (trace b')
                = (updates_for x (trace b)
                   + (if bool_decide (x = DueRow.rid r) then 1 else 0))%nat)
  /\ (forall x, (sends_for x (trace b) <= sends_for x (trace b')
                 <= sends_for x (trace b)
                    + (if bool_decide (x = DueRow.rid r) then 1 else 0))%nat).
Proof.
  cbn zeta. unfold reminder_step.
  destruct (try_send_reminder_effect gw r b) as (Hc & Hd & Hu & Hs & Hs').
  destruct (try_send_reminder gw r b) as [[e|[]] b1]; cbn [snd] in *.
  - unfold mark_sent, log; cbn [conn trace digest_cache]. rewrite Hc.
    repeat split; auto.
    + intros x. rewrite !updates_for_cons, Hu. cbn [is_update_for].
      case_bool_decide as Hx;
        [subst x; rewrite Z.eqb_refl
        | destruct (Z.eqb_spec (DueRow.rid r) x); [congruence|]]; lia.
    + rewrite !sends_for_cons. cbn [is_send_for].
      destruct (decide (x = DueRow.rid r)); [subst; lia | rewrite Hs by auto; lia].
    + rewrite !sends_for_cons. cbn [is_send_for].
      case_bool_decide; [subst; lia | rewrite Hs by auto; lia].
  - unfold mark_sent; cbn [conn trace digest_cache]. rewrite Hc.
    repeat split; auto.
    + intros x. rewrite !updates_for_cons, Hu. cbn [is_update_for].
      case_bool_decide as Hx;
        [subst x; rewrite Z.eqb_refl
        | destruct (Z.eqb_spec (DueRow.rid r) x); [congruence|]]; lia.
    + rewrite !sends_for_cons. cbn [is_send_for].
      destruct (decide (x = DueRow.rid r)); [subst; lia | rewrite Hs by auto; lia].
    + rewrite !sends_for_cons. cbn [is_send_for].
      case_bool_decide; [subst; lia | rewrite Hs by auto; lia].
Qed.

Lemma fold_reminder_step (gw : Gateway) (rows : list DueRow.t) (b : Bot) :
  NoDup (DueRow.rid <$> rows) ->
  let b' := fold_left (reminder_step gw) rows b in
  conn b' = fold_left mark_conn (DueRow.rid <$> rows) (conn b)
  /\ digest_cache b' = digest_cache b
  /\ (forall x, updates_for x (trace b')
                = (updates_for x (trace b)
                   + (if bool_decide (x ∈ DueRow.rid <$> rows) then 1 else 0))%nat)
  /\ (forall x, (sends_for x (trace b) <= sends_for x (trace b')
                 <= sends_for x (trace b)
                    + (if bool_decide (x ∈ DueRow.rid <$> rows) then 1 else 0))%nat).
Proof.
  revert b. induction rows as [|r rows IH]; intros b Hnd; cbn zeta.
  - cbn. repeat split; auto; lia.
  - rewrite fmap_cons in Hnd. apply NoDup_cons in Hnd as [Hnin Hnd].
    cbn [fold_left]. rewrite fmap_cons. cbn [fold_left].
    destruct (IH (reminder_step gw b r) Hnd) as (Hc & Hd & Hu & Hs).
    destruct (reminder_step_effect gw b r) as (Hc1 & Hd1 & Hu1 & Hs1).
    cbn zeta in *.
    assert (Hcase : forall x,
              ((if bool_decide (x ∈ DueRow.rid r :: (DueRow.rid <$> rows)) then 1 else 0)
               = (if bool_decide (x = DueRow.rid r) then 1 else 0)
                 + (if bool_decide (x ∈ DueRow.rid <$> rows) then 1 else 0))%nat).
    { intros x. destruct (decide (x = DueRow.rid r)) as [->|Hne].
      - rewrite (bool_decide_eq_true_2 (_ ∈ _ :: _)) by apply list_elem_of_here.
        rewrite (bool_decide_eq_true_2 (_ = _)) by reflexivity.
        now rewrite (bool_decide_eq_false_2 _ Hnin).
      - rewrite (bool_decide_eq_false_2 _ Hne).
        rewrite (bool_decide_ext (x ∈ DueRow.rid r :: (DueRow.rid <$> rows))
                   (x ∈ DueRow.rid <$> rows)); [reflexivity|].
        rewrite elem_of_cons. tauto. }
    repeat apply conj.
    + now rewrite Hc, Hc1.
    + now rewrite Hd, Hd1.
    + intros x. rewrite Hu, Hu1, Hcase. lia.
    + intros x. specialize (Hs x). specialize (Hs1 x). rewrite Hcase. lia.
Qed.

Lemma mark_sent_idem (r : Reminder.t) :
  Reminder.mark_sent (Reminder.mark_sent r) = Reminder.mark_sent r.
Proof. reflexivity. Qed.

Lemma fold_update_sent_lookup (rids : list Z) (t : Tables) (k : Z) :
  reminders (fold_left (fun t rid => update_sent rid t) rids t) !! k
  = if bool_decide (k ∈ rids) then Reminder.mark_sent <$> reminders t !! k
    else reminders t !! k.
Proof.
  revert t. induction rids as [|x rids IH]; intros t.
  - cbn. reflexivity.
  - cbn [fold_left]. rewrite IH. cbn [update_sent reminders].
    rewrite lookup_alter.
    destruct (decide (x = k)) as [->|Hne].
    + rewrite (bool_decide_eq_true_2 (k ∈ k :: rids)) by apply list_elem_of_here.
      case_bool_decide; [|reflexivity].
      destruct (reminders t !! k); reflexivity.
    + rewrite (bool_decide_ext (k ∈ x :: rids) (k ∈ rids)); [reflexivity|].
      rewrite elem_of_cons. split; [intros [?|?]; [congruence | assumption] | tauto].
Qed.

Lemma fold_mark_conn (rids : list Z) (c : Conn) :
  view (fold_left mark_conn rids c)
  = fold_left (fun t rid => update_sent rid t) rids (view c)
  /\ (rids <> [] -> committed (fold_left mark_conn rids c)
                   = view (fold_left mark_conn rids c)).
Proof.
  revert c. induction rids as [|x rids IH]; intros c.
  - split; [reflexivity | congruence].
  - cbn [fold_left]. destruct (IH (mark_conn c x)) as [Hv Hc]. split.
    + rewrite Hv. reflexivity.
    + intros _. destruct rids as [|y rids]; [reflexivity|].
      apply Hc. discriminate.
Qed.

(** *** The rows that the poller selects *)

Lemma due_row_Some (t : Tables) (ws we : Z) (kv : Z * Reminder.t) (r : DueRow.t) :
  due_row t ws we kv = Some r ->
  DueRow.rid r = kv.1 /\ Reminder.sent kv.2 = 0
  /\ ws <= Reminder.remind_ts kv.2 <= we
  /\ DueRow.remind_ts r = Reminder.remind_ts kv.2.
Proof.
  unfold due_row.
  destruct (Z.eqb_spec (Reminder.sent kv.2) 0); [|discriminate].
  destruct (Z.leb_spec ws (Reminder.remind_ts kv.2)); [|discriminate].
  destruct (Z.leb_spec (Reminder.remind_ts kv.2) we); [|discriminate].
  cbn. destruct (projects t !! _); [|discriminate].
  intros [= <-]. cbn. repeat split; auto.
Qed.


Lemma omap_keys_NoDup {V R : Type} (f : Z * V -> option R) (key : R -> Z)
    (l : list (Z * V)) :
  (forall kv r, f kv = Some r -> key r = kv.1) ->
  NoDup (l.*1) -> NoDup (key <$> omap f l).
Proof.
  intros Hf. induction l as [|kv l IH]; cbn; [constructor|].
  intros Hnd. apply NoDup_cons in Hnd as [Hnin Hnd].
  destruct (f kv) as [r|] eqn:E; [|now apply IH].
  cbn. apply NoDup_cons. split; [|now apply IH].
  intros Hin. apply Hnin.
  apply list_elem_of_fmap in Hin as (r' & Hk & Hr').
  apply list_elem_of_omap in Hr' as (kv' & Hkv' & Hf').
  apply list_elem_of_fmap. exists kv'. split; [|exact Hkv'].
  rewrite <- (Hf kv r E), Hk. now apply Hf.
Qed.

Lemma query_due_NoDup (c : Conn) (ws we : Z) :
  NoDup (DueRow.rid <$> query_due c ws we).
Proof.
  unfold query_due. rewrite merge_sort_Permutation.
  apply omap_keys_NoDup.
  - intros kv r H. now apply due_row_Some in H.
  - apply NoDup_fst_map_to_list.
Qed.

Lemma reminder_loop_fold (gw : Gateway) (now : Z) (b : Bot) :
  _reminder_loop gw now b
  = fold_left (reminder_step gw) (query_due (conn b) (now - 60) (now + 30)) b.
Proof.
  unfold _reminder_loop. now destruct (query_due _ _ _).
Qed.

Lemma reminder_loop_effect (gw : Gateway) (now : Z) (b : Bot) :
  let rids := DueRow.rid <$> query_due (conn b) (now - 60) (now + 30) in
  let b' := _reminder_loop gw now b in
  conn b' = fold_left mark_conn rids (conn b)
  /\ (forall k, reminders (view (conn b')) !! k
                = if bool_decide (k ∈ rids)
                  then Reminder.mark_sent <$> reminders (view (conn b)) !! k
                  else reminders (view (conn b)) !! k)
  /\ (forall x, updates_for x (trace b')
                = (updates_for x (trace b)
                   + (if bool_decide (x ∈ rids) then 1 else 0))%nat)
  /\ (forall x, (sends_for x (trace b) <= sends_for x (trace b')
                 <= sends_for x (trace b)
                    + (if bool_decide (x ∈ rids) then 1 else 0))%nat).
Proof.
  cbn zeta. rewrite reminder_loop_fold.
  destruct (fold_reminder_step gw _ b (query_due_NoDup (conn b) (now - 60) (now + 30)))
    as (Hc & _ & Hu & Hs).
  cbn zeta in *. repeat apply conj; auto.
  intros k. rewrite Hc, (proj1 (fold_mark_conn _ _)).
  apply fold_update_sent_lookup.
Qed.






(** ** Digest poller *)

Lemma digests_for_cons (g : Z) (d : string) (e : Event) (tr : list Event) :
  digests_for g d (e :: tr)
  = ((if is_digest_for g d e then 1 else 0) + digests_for g d tr)%nat.
Proof. unfold digests_for. simpl. now destruct (is_digest_for g d e). Qed.

Lemma is_digest_for_send (g g' : Z) (d d' : string) (ch : Channel) (m : Message) :
  is_digest_for g' d' (Send (OfDigest g d) ch m) = bool_decide (g' = g /\ d' = d).
Proof.
  cbn. destruct (Z.eqb_spec g g'), (String.eqb_spec d d'); cbn;
    symmetry; (apply bool_decide_eq_true_2 || apply bool_decide_eq_false_2);
    intuition congruence.
Qed.

Lemma deliver_digest_effect (gw : Gateway) (g cid : Z) (t : LocalTime) (b : Bot) :
  let b' := deliver_digest gw g cid t b in
  let rows := query_upcoming (conn b) g (lt_timestamp t) (lt_timestamp_7d t) in
  conn b' = conn b
  /\ digest_cache b' = digest_cache b
  /\ (forall g' d',
        (digests_for g' d' (trace b) <= digests_for g' d' (trace b')
         <= digests_for g' d' (trace b)
            + (if bool_decide (g' = g /\ d' = lt_date t) then 1 else 0))%nat)
  /\ ((exists ch, resolve_channel gw b cid = inr ch) -> rows <> [] ->
      digests_for g (lt_date t) (trace b') = S (digests_for g (lt_date t) (trace b)))
  /\ ((exists e, resolve_channel gw b cid = inl e) \/ rows = [] ->
      trace b' = trace b \/ exists e, trace b' = Printed (OfDigest g (lt_date t)) e :: trace b).
Proof.
  cbn zeta. unfold deliver_digest.
  destruct (resolve_channel gw b cid) as [e|ch].
  { cbn [log conn trace digest_cache]. repeat apply conj; auto.
    - intros g' d'. rewrite digests_for_cons. cbn [is_digest_for]. lia.
    - intros [ch Hch]. discriminate.
    - intros _. right. now exists e. }
  destruct (query_upcoming _ _ _ _) as [|row rows] eqn:Hq.
  { repeat apply conj; auto.
    - intros g' d'. lia.
    - congruence. }
  set (m := DigestMessage (row :: rows)).
  destruct (send gw (trace b) ch m) as [e|[]];
    cbn [log conn trace digest_cache]; repeat apply conj; auto.
  - intros g' d'. rewrite !digests_for_cons, is_digest_for_send.
    cbn [is_digest_for]. lia.
  - intros _ _. rewrite !digests_for_cons, is_digest_for_send.
    cbn [is_digest_for]. rewrite bool_decide_eq_true_2 by auto. lia.
  - intros [[e' He']|He']; discriminate.
  - intros g' d'. rewrite !digests_for_cons, is_digest_for_send. lia.
  - intros _ _. rewrite !digests_for_cons, is_digest_for_send.
    rewrite bool_decide_eq_true_2 by auto. lia.
  - intros [[e' He']|He']; discriminate.
Qed.

Lemma digest_step_conn (env : DigestEnv) (b : Bot) (g : Z) :
  conn (digest_step env b g) = conn b.
Proof.
  unfold digest_step. destruct (digest_due env (conn b) g) as [[cid t]|]; [|reflexivity].
  case_bool_decide; [reflexivity|].
  now destruct (deliver_digest_effect (de_gateway env) g cid t
                  (set_cache ({[digest_key g (lt_date t)]} ∪ default ∅ (digest_cache b)) b))
    as (-> & _).
Qed.

(** The guard only grows. *)
Lemma digest_step_guard (env : DigestEnv) (b : Bot) (g : Z) (key : string)
    (cache : gset string) :
  digest_cache b = Some cache -> key ∈ cache ->
  exists cache', digest_cache (digest_step env b g) = Some cache' /\ key ∈ cache'.
Proof.
  intros Hc Hk. unfold digest_step.
  destruct (digest_due env (conn b) g) as [[cid t]|]; [|now exists cache].
  rewrite Hc. change (default ∅ (Some cache)) with cache.
  case_bool_decide; [now exists cache|].
  destruct (deliver_digest_effect (de_gateway env) g cid t
              (set_cache ({[digest_key g (lt_date t)]} ∪ cache) b))
    as (_ & -> & _).
  eexists. split; [reflexivity|]. apply elem_of_union. now right.
Qed.

Lemma digest_loop_guard (env : DigestEnv) (b : Bot) (key : string)
    (cache : gset string) :
  digest_cache b = Some cache -> key ∈ cache ->
  exists cache', digest_cache (_digest_loop env b) = Some cache' /\ key ∈ cache'.
Proof.
  unfold _digest_loop. generalize (de_guilds env). intros gs.
  revert b cache. induction gs as [|g gs IH]; intros b cache Hc Hk.
  - now exists cache.
  - cbn [fold_left].
    destruct (digest_step_guard env b g key cache Hc Hk) as (cache1 & Hc1 & Hk1).
    exact (IH _ cache1 Hc1 Hk1).
Qed.

Lemma digest_loops_guard (envs : list DigestEnv) (b : Bot) (key : string)
    (cache : gset string) :
  digest_cache b = Some cache -> key ∈ cache ->
  exists cache', digest_cache (digest_loops envs b) = Some cache' /\ key ∈ cache'.
Proof.
  revert b cache. induction envs as [|env envs IH]; intros b cache Hc Hk.
  - now exists cache.
  - cbn. destruct (digest_loop_guard env b key cache Hc Hk) as (cache1 & Hc1 & Hk1).
    exact (IH _ cache1 Hc1 Hk1).
Qed.

Lemma delivered_are_guarded_step (env : DigestEnv) (b : Bot) (g0 : Z) :
  delivered_are_guarded b -> delivered_are_guarded (digest_step env b g0).
Proof.
  intros Hinv g d. unfold digest_step.
  destruct (digest_due env (conn b) g0) as [[cid t]|]; [|apply Hinv].
  set (key0 := digest_key g0 (lt_date t)).
  set (cache := default ∅ (digest_cache b)).
  assert (Hsub : forall cache0 key, digest_cache b = Some cache0 -> key ∈ cache0 ->
                                    key ∈ cache).
  { intros cache0 key E Hk. unfold cache. now rewrite E. }
  case_bool_decide as Hkey.
  - cbn [set_cache trace digest_cache].
    destruct (Hinv g d) as [H|(H & cache0 & Hc & Hk)]; [now left | right].
    split; [exact H|]. exists cache. split; [reflexivity | eauto].
  - destruct (deliver_digest_effect (de_gateway env) g0 cid t
                (set_cache ({[key0]} ∪ cache) b)) as (_ & Hdc & Hcnt & _).
    cbn zeta in Hcnt. specialize (Hcnt g d).
    cbn [set_cache trace digest_cache] in Hcnt, Hdc.
    case_bool_decide as Heq.
    + destruct Heq as [-> ->].
      assert (H0 : digests_for g0 (lt_date t) (trace b) = 0%nat).
      { destruct (Hinv g0 (lt_date t)) as [H|(_ & cache0 & Hc & Hk)]; [exact H|].
        exfalso. apply Hkey. eauto. }
      destruct (digests_for g0 (lt_date t) (trace (deliver_digest _ _ _ _ _)))
        as [|[|n]] eqn:E; [now left | right | lia].
      split; [reflexivity|]. rewrite Hdc. eexists. split; [reflexivity|].
      fold key0. apply elem_of_union. left. now apply elem_of_singleton.
    + destruct (Hinv g d) as [H|(H & cache0 & Hc & Hk)]; [left; lia | right].
      split; [lia|]. rewrite Hdc. eexists. split; [reflexivity|].
      specialize (Hsub _ _ Hc Hk). apply elem_of_union. now right.
Qed.

Lemma delivered_are_guarded_loops (envs : list DigestEnv) (b : Bot) :
  delivered_are_guarded b -> delivered_are_guarded (digest_loops envs b).
Proof.
  revert b. induction envs as [|env envs IH]; intros b Hinv; [exact Hinv|].
  cbn. apply IH. unfold _digest_loop. generalize (de_guilds env). intros gs.
  revert b Hinv. induction gs as [|g gs IHg]; intros b Hinv; [exact Hinv|].
  cbn [fold_left]. apply IHg. now apply delivered_are_guarded_step.
Qed.

Lemma digest_step_due (env : DigestEnv) (b : Bot) (g cid : Z) (t : LocalTime) :
  digest_due env (conn b) g = Some (cid, t) ->
  digest_step env b g
  = let key := digest_key g (lt_date t) in
    let cache := default ∅ (digest_cache b) in
    if bool_decide (key ∈ cache) then set_cache cache b
    else deliver_digest (de_gateway env) g cid t (set_cache ({[key]} ∪ cache) b).
Proof. intros H. unfold digest_step. now rewrite H. Qed.

(** C4, as amended.  Take two evaluations of the digest for guild [g] that
    both match the configured minute on the same local date.  After the
    first, the key of (guild, date) is in the guard, whatever the gateway
    did, and it stays there for the rest of the process.  The second
    evaluation changes neither the trace nor the guard, so nothing is sent
    or retried.  The two evaluations call [channel.send] at most once:
    exactly once when the key was not yet in the guard, the channel
    resolves and at least one deadline falls in the seven-day window, and
    not at all otherwise.  Over any sequence of runs of the digest loop of
    a process, [channel.send] is called at most once per (guild, date). *)
Theorem digest_once_per_day (env1 env2 : DigestEnv) (b : Bot) (g cid1 cid2 : Z)
    (t1 t2 : LocalTime) :
  digest_due env1 (conn b) g = Some (cid1, t1) ->
  digest_due env2 (conn (digest_step env1 b g)) g = Some (cid2, t2) ->
  lt_date t2 = lt_date t1 ->
  let d := lt_date t1 in
  let key := digest_key g d in
  let b1 := digest_step env1 b g in
  let b2 := digest_step env2 b1 g in
  let guard := default ∅ (digest_cache b) in
  let b0 := set_cache ({[key]} ∪ guard) b in
  let rows := query_upcoming (conn b) g (lt_timestamp t1) (lt_timestamp_7d t1) in
  (exists cache, digest_cache b1 = Some cache /\ key ∈ cache)
  /\ (forall envs, exists cache,
        digest_cache (digest_loops envs b1) = Some cache /\ key ∈ cache)
  /\ trace b2 = trace b1
  /\ digest_cache b2 = digest_cache b1
  /\ (digests_for g d (trace b2) <= S (digests_for g d (trace b)))%nat
  /\ (key ∉ guard ->
      (exists ch, resolve_channel (de_gateway env1) b0 cid1 = inr ch) ->
      rows <> [] ->
      digests_for g d (trace b2) = S (digests_for g d (trace b)))
  /\ (key ∈ guard
      \/ (exists e, resolve_channel (de_gateway env1) b0 cid1 = inl e)
      \/ rows = [] ->
      digests_for g d (trace b2) = digests_for g d (trace b))
  /\ (forall envs c g' d',
        (digests_for g' d' (trace (digest_loops envs (start c))) <= 1)%nat).
Proof.
  intros H1 H2 Hdate. cbn zeta.
  set (d := lt_date t1). set (key := digest_key g d).
  set (guard := default ∅ (digest_cache b)).
  set (b0 := set_cache ({[key]} ∪ guard) b).
  set (b1 := digest_step env1 b g) in *.
  assert (Hb1 : b1 = if bool_decide (key ∈ guard) then set_cache guard b
                     else deliver_digest (de_gateway env1) g cid1 t1 b0)
    by (unfold b1; now rewrite (digest_step_due env1 b g cid1 t1 H1)).
  destruct (deliver_digest_effect (de_gateway env1) g cid1 t1 b0)
    as (Hconn & Hcache & Hcnt & Hone & Hnone).
  cbn zeta in *. cbn [b0 set_cache conn trace digest_cache] in Hconn, Hcache, Hcnt, Hone, Hnone.
  fold b0 in Hconn, Hcache, Hcnt, Hone, Hnone. fold d in Hcnt, Hone, Hnone.
  assert (Hguard : exists cache, digest_cache b1 = Some cache /\ key ∈ cache).
  { rewrite Hb1. case_bool_decide as Hk.
    - exists guard. split; [reflexivity | exact Hk].
    - rewrite Hcache. eexists. split; [reflexivity|].
      apply elem_of_union. left. now apply elem_of_singleton. }
  assert (Hb2 : trace (digest_step env2 b1 g) = trace b1
                /\ digest_cache (digest_step env2 b1 g) = digest_cache b1).
  { rewrite (digest_step_due env2 b1 g cid2 t2 H2). cbn zeta.
    rewrite Hdate. fold d. fold key.
    destruct Hguard as (cache & Hc & Hk). rewrite Hc.
    change (default ∅ (Some cache)) with cache.
    rewrite (bool_decide_eq_true_2 _ Hk). split; reflexivity. }
  destruct Hb2 as [Htr Hdc].
  assert (Hfirst : (digests_for g d (trace b) <= digests_for g d (trace b1)
                    <= S (digests_for g d (trace b)))%nat).
  { rewrite Hb1. case_bool_decide as Hk; [cbn [set_cache trace]; lia|].
    specialize (Hcnt g d). rewrite bool_decide_eq_true_2 in Hcnt by auto. lia. }
  repeat apply conj.
  - exact Hguard.
  - intros envs. destruct Hguard as (cache & Hc & Hk).
    exact (digest_loops_guard envs b1 key cache Hc Hk).
  - exact Htr.
  - exact Hdc.
  - rewrite Htr. lia.
  - intros Hk Hres Hrows. rewrite Htr, Hb1.
    rewrite (bool_decide_eq_false_2 _ Hk). now apply Hone.
  - intros Hor. rewrite Htr, Hb1. case_bool_decide as Hk; [reflexivity|].
    destruct Hor as [Hk'|Hor]; [contradiction|].
    destruct (Hnone Hor) as [E|[e E]]; rewrite E; [reflexivity|].
    rewrite digests_for_cons. reflexivity.
  - intros envs c g' d'.
    assert (Hinv : delivered_are_guarded (start c)) by (intros ? ?; now left).
    destruct (delivered_are_guarded_loops envs (start c) Hinv g' d') as [H|[H _]]; lia.
Qed.

Lemma digest_once_per_day_witness :
  digests_for 42 "2030-01-01"
    (trace (digest_step (sample_digest_env false)
              (digest_step (sample_digest_env false) (start sample_with_project) 42)
              42))
  = 1%nat.
Proof.
  destruct (digest_once_per_day (sample_digest_env false) (sample_digest_env false)
              (start sample_with_project) 42 6 6 sample_local sample_local)
    as (_ & _ & _ & _ & _ & Hone & _).
  - vm_compute. reflexivity.
  - vm_compute. reflexivity.
  - reflexivity.
  - apply Hone.
    + change (digest_key 42 (lt_date sample_local) ∉ (∅ : gset string)).
      apply not_elem_of_empty.
    + eexists. vm_compute. reflexivity.
    + vm_compute. discriminate.
Defined.

(** C4, as stated, fails: when no deadline falls in the seven-day window,
    two evaluations in the matching minute call [channel.send] zero times,
    not once. *)
Lemma digest_without_deadlines_sends_nothing :
  digest_due (sample_digest_env true) sample_configured 42 = Some (6, sample_local)
  /\ digests_for 42 "2030-01-01"
       (trace (digest_loops [sample_digest_env true; sample_digest_env true]
                 (start sample_configured)))
     = 0%nat.
Proof. split; vm_compute; reflexivity. Qed.

(** ** Worked examples *)

Example parse_offset_str_doc :
  parse_offset_str "3d, 24h, 4h, 30m" = inr [259200; 86400; 14400; 1800].
Proof. vm_compute. reflexivity. Qed.

Example parse_offset_str_dedup :
  parse_offset_str "1D,24h , 86400s" = inr [86400].
Proof. vm_compute. reflexivity. Qed.

Example parse_offset_str_invalid :
  parse_offset_str "3d, x, 2d"
  = inl (Py.ValueError "Invalid duration: x (use s,m,h,d,w)").
Proof. vm_compute. reflexivity. Qed.

Example strptime_HM_ok_samples :
  map strptime_HM_ok ["09:00"; "9:5"; "23:59"; "24:00"; "7:60"; "12:5"; ""]%string
  = [true; true; true; false; false; true; false].
Proof. vm_compute. reflexivity. Qed.

Example int_of_str_samples :
  map (fun s => Py.int_of_str (chars s)) [" 09 "; "-3"; "1_0"; "1__0"; "_1"; ""]%string
  = [Some 9; Some (-3); Some 10; None; None; None].
Proof. vm_compute. reflexivity. Qed.

Example project_create_too_soon :
  project_create
    (mkCreateEnv (fun _ => false) sample_due_timestamp (sample_due - 50)
       (sample_due - 50) None None)
    (sample_args None) fresh_conn
  = (Replied DueTooSoon, fresh_conn).
Proof. vm_compute. reflexivity. Qed.

(** Two triggers fall in the window and every [channel.send] fails: both
    are attempted once and both are marked. *)
Example reminder_loop_failed_delivery :
  let c := sample_two_triggers in
  let b' := _reminder_loop (sample_gateway false) (sample_now + 90) (start c) in
  DueRow.rid <$> query_due c (sample_now + 30) (sample_now + 120) = [1; 2]
  /\ Reminder.sent <$> reminders (view (conn b')) !! 1 = Some 1
  /\ Reminder.sent <$> reminders (view (conn b')) !! 2 = Some 1
  /\ (sends_for 1 (trace b'), sends_for 2 (trace b')) = (1%nat, 1%nat)
  /\ (updates_for 1 (trace b'), updates_for 2 (trace b')) = (1%nat, 1%nat)
  /\ length (trace b') = 6%nat.
Proof. vm_compute. repeat split. Qed.

(** * Further properties *)

(** ** [project_create] *)

Lemma parse_offset_parts_nonneg (parts : list (list ascii)) (out res : list Z) :
  parse_offset_parts parts out = inr res ->
  Forall (fun v => 0 <= v) out -> Forall (fun v => 0 <= v) res.
Proof.
  revert out. induction parts as [|part rest IH]; intros out.
  - cbn. intros [= <-]. auto.
  - cbn [parse_offset_parts].
    destruct (Py.strip part) as [|ch p] eqn:Es; [apply IH|].
    destruct (DURATION_RE_match (ch :: p)) as [[g1 g2]|] eqn:Em; [|discriminate].
    apply DURATION_RE_match_sound in Em.
    destruct Em as (w1 & w2 & w3 & _ & _ & _ & _ & _ & Hds & Hu).
    destruct (unit_multiplier_lower g2 (unit_letter_is_unit g2 Hu)) as [-> Hpos].
    intros Hres Hout. apply (IH _ Hres).
    apply Forall_app. split; [exact Hout|].
    apply Forall_cons_2; [|apply Forall_nil_2].
    rewrite int_of_digits_decimal.
    pose proof (decimal_value_nonneg g1 Hds). nia.
Qed.

Lemma parse_offset_str_shape (s : string) (offsets : list Z) :
  parse_offset_str s = inr offsets ->
  Forall (fun off => 0 <= off) offsets
  /\ StronglySorted (fun a b => b < a) offsets.
Proof.
  unfold parse_offset_str.
  destruct (parse_offset_parts _ []) as [e|out] eqn:Ep; [discriminate|].
  intros [= <-].
  destruct (sorted_set_reverse_spec out) as (Hmem & _ & Hs).
  split; [|exact Hs].
  pose proof (parse_offset_parts_nonneg _ _ _ Ep (Forall_nil_2 _)) as Hnn.
  apply Forall_forall. intros x Hx. apply Hmem in Hx.
  exact (proj1 (Forall_forall _ _) Hnn x Hx).
Qed.

Lemma compute_offsets_shape (custom : option string) (now due : Z) (offsets : list Z) :
  compute_offsets custom now due = inr offsets ->
  Forall (fun off => 0 <= off) offsets
  /\ StronglySorted (fun a b => b < a) offsets
  /\ (Py.truthy custom = false -> Forall (fun off => 60 <= off) offsets).
Proof.
  assert (Hdef : Forall (fun off => 60 <= off) (default_offsets now due)
                 /\ StronglySorted (fun a b => b < a) (default_offsets now due)).
  { split; [apply default_offsets_nonempty|].
    unfold default_offsets, day, hour. branch_on_tests;
      repeat (apply SSorted_cons; [|repeat (apply Forall_cons_2; [lia|]); apply Forall_nil_2]);
      apply SSorted_nil. }
  assert (Hdef' : Forall (fun off => 0 <= off) (default_offsets now due)).
  { eapply Forall_impl; [apply Hdef|]. cbn. intros; lia. }
  unfold compute_offsets.
  destruct custom as [s|]; [|intros [= <-]; repeat split; tauto].
  destruct (Py.truthy (Some s)) eqn:Ht; [|intros [= <-]; repeat split; tauto].
  intros Hp. destruct (parse_offset_str_shape s offsets Hp) as [Hnn Hs].
  repeat split; [exact Hnn | exact Hs | discriminate].
Qed.

Lemma reminder_timestamps_sorted (now due : Z) (offsets : list Z) :
  StronglySorted (fun a b => b < a) offsets ->
  StronglySorted Z.lt (reminder_timestamps now due offsets).
Proof.
  induction 1 as [|off rest Hs IH Hall]; cbn [reminder_timestamps]; [constructor|].
  destruct (Z.ltb_spec (now + 30) (due - off)); [|exact IH].
  constructor; [exact IH|].
  apply Forall_forall. intros t Ht.
  pose proof (reminder_timestamps_bounds now due rest) as Hb.
  destruct (proj1 (Forall_forall _ _) Hb t Ht) as (_ & o & Ho & ->).
  pose proof (proj1 (Forall_forall _ _) Hall o Ho) as Hlt. cbn in Hlt. lia.
Qed.

Lemma with_fallback_sorted (now due : Z) (l : list Z) :
  StronglySorted Z.lt l -> StronglySorted Z.lt (with_fallback now due l).
Proof.
  intros H. destruct l; [|exact H]. unfold with_fallback.
  destruct (_ <? _); repeat constructor.
Qed.

Lemma scheduled_instants_strict (now due : Z) (offsets : list Z) :
  now + 60 < due -> Forall (fun off => 0 < off) offsets ->
  Forall (fun ts => now + 30 < ts < due)
         (with_fallback now due (reminder_timestamps now due offsets)).
Proof.
  intros Hsoon Hoff.
  pose proof (reminder_timestamps_bounds now due offsets) as Hb.
  destruct (reminder_timestamps now due offsets) as [|t l] eqn:E.
  - unfold with_fallback.
    destruct (Z.ltb_spec (Z.max (due - 300) (now + 60)) due); [|constructor].
    apply Forall_cons_2; [lia | apply Forall_nil_2].
  - cbn [with_fallback]. eapply Forall_impl; [exact Hb|].
    intros ts (H1 & o & Ho & ->). split; [exact H1|].
    pose proof (proj1 (Forall_forall _ _) Hoff o Ho) as Hpos.
    cbn beta in Hpos. lia.
Qed.

(** Explicit result of a successful [project_create]. *)
Lemma project_create_success (env : CreateEnv) (a : CreateArgs) (c c' : Conn)
    (pid due : Z) (ts : list Z) :
  project_create env a c = (Replied (ProjectCreated pid due ts), c') ->
  exists g tz_text offsets,
    create_ready env a c g tz_text due offsets
    /\ ts = with_fallback (ce_now_utc env) due
              (reminder_timestamps (ce_now_utc env) due offsets)
    /\ pid = seq_projects (view c) + 1
    /\ view c' = fold_left (fun t r => insert_reminder r t)
                   (reminder_rows pid (ca_custom_offsets a) ts)
                   (insert_project (project_row env a g tz_text due) (view c)).2
    /\ committed c' = view c'.
Proof.
  intros Hrun.
  destruct (project_create_created _ _ _ _ _ _ _ Hrun) as (g & tzt & offsets & Hready).
  exists g, tzt, offsets. split; [exact Hready|].
  rewrite (project_create_run _ a c g tzt due offsets Hready) in Hrun.
  cbn zeta in Hrun. unfold execute_with, executemany_with in Hrun.
  destruct (ce_fault_project env) as [[]|]; try discriminate.
  cbn [insert_project] in Hrun.
  destruct (ce_fault_reminders env) as [[k []]|]; try discriminate.
  injection Hrun as <- <- <-. cbn [view committed insert_project snd].
  repeat split; reflexivity.
Qed.

(** X1.  Only a reply that reports the created project changes the store:
    after any other reply of [project_create] (not in a server, bad due
    format, due not more than 60 s ahead, bad duration) the connection is
    as before.  A due instant at most 60 s ahead is always answered by the
    "too soon" reply. *)
Theorem project_create_error_keeps_store (env : CreateEnv) (a : CreateArgs)
    (c : Conn) :
  (forall r c', project_create env a c = (Replied r, c') ->
     (forall pid due ts, r <> ProjectCreated pid due ts) -> c' = c)
  /\ (forall g due,
        ca_guild_id a = Some g ->
        ce_due_timestamp env (ca_due a)
          (parse_timezone (ce_zoneinfo env)
             (create_tz (ca_timezone a) (get_config c g))) = Some due ->
        due <= ce_now_utc env + 60 ->
        project_create env a c = (Replied DueTooSoon, c)).
Proof.
  split.
  - intros r c'. unfold project_create.
    destruct (ca_guild_id a) as [g|]; [|now intros [= <- <-]].
    cbn zeta.
    destruct (ce_due_timestamp env _ _) as [due|]; [|now intros [= <- <-]].
    destruct (due <=? ce_now_utc env + 60); [now intros [= <- <-]|].
    destruct (compute_offsets _ _ _) as [[]|offsets]; try discriminate;
      [now intros [= <- <-]|].
    destruct (create_tz _ _); [|discriminate].
    destruct (execute_with _ _ _) as [[e|pid] c1]; [discriminate|].
    destruct (executemany_with _ _ _ _) as [[e|?] c2]; [discriminate|].
    intros [= <- <-] Hne. exfalso. eapply Hne. reflexivity.
  - intros g due Hg Hdue Hsoon. unfold project_create. rewrite Hg. cbn zeta.
    rewrite Hdue. now rewrite (proj2 (Z.leb_le _ _) Hsoon).
Qed.

Lemma project_create_error_keeps_store_witness :
  project_create
    (mkCreateEnv (fun _ => false) sample_due_timestamp (sample_due - 60)
       (sample_due - 60) None None)
    (sample_args None) sample_configured
  = (Replied DueTooSoon, sample_configured).
Proof.
  apply (proj2 (project_create_error_keeps_store _ _ _) 42 sample_due).
  - reflexivity.
  - vm_compute. reflexivity.
  - vm_compute. discriminate.
Defined.

(** X2.  When [project_create] reports a created project, the fire
    instants it reports are at least one, strictly increasing (hence
    without duplicate), later than [now + 30] and not later than the due
    instant; they are strictly before it when no custom offsets were
    given.  Each of them is committed as an unsent reminder of the new
    project, and exactly that many reminder rows are added. *)
Theorem project_create_schedule (env : CreateEnv) (a : CreateArgs) (c c' : Conn)
    (pid due : Z) (ts : list Z) :
  project_create env a c = (Replied (ProjectCreated pid due ts), c') ->
  let now := ce_now_utc env in
  ts <> []
  /\ StronglySorted Z.lt ts
  /\ Forall (fun t => now + 30 < t <= due) ts
  /\ (Py.truthy (ca_custom_offsets a) = false -> Forall (fun t => t < due) ts)
  /\ (forall (i : nat) t, ts !! i = Some t ->
        reminders (committed c') !! (seq_reminders (view c) + 1 + Z.of_nat i)
        = Some (Reminder.mk pid t 0
                  (if Py.truthy (ca_custom_offsets a) then 1 else 0) None))
  /\ seq_reminders (committed c') = seq_reminders (view c) + Z.of_nat (length ts).
Proof.
  intros Hrun now.
  destruct (project_create_success _ _ _ _ _ _ _ Hrun)
    as (g & tzt & offsets & Hready & Hts & Hpid & Hview & Hcom).
  destruct Hready as (_ & _ & _ & Hsoon & Hoff).
  destruct (compute_offsets_shape _ _ _ _ Hoff) as (Hnn & Hsorted & Hdef).
  destruct (insert_reminders_fold (reminder_rows pid (ca_custom_offsets a) ts)
              (insert_project (project_row env a g tzt due) (view c)).2)
    as (_ & _ & _ & Hseq & Hnew & _).
  cbn zeta in Hseq, Hnew. rewrite <- Hview in Hseq, Hnew.
  cbn [insert_project snd seq_reminders] in Hseq, Hnew.
  repeat apply conj.
  - rewrite Hts. now apply with_fallback_nonempty.
  - rewrite Hts. now apply with_fallback_sorted, reminder_timestamps_sorted.
  - rewrite Hts. now apply scheduled_instants_bounds.
  - intros Hc. rewrite Hts.
    eapply Forall_impl; [apply (scheduled_instants_strict now due offsets Hsoon)|].
    + eapply Forall_impl; [exact (Hdef Hc)|]. cbn. intros; lia.
    + cbn. intros; lia.
  - intros i t Hi. rewrite Hcom. apply Hnew.
    unfold reminder_rows. now rewrite list_lookup_fmap, Hi.
  - rewrite Hcom, Hseq. unfold reminder_rows. now rewrite length_fmap.
Qed.

Lemma project_create_schedule_witness :
  StronglySorted Z.lt [sample_due - 3540; sample_due - 3480].
Proof.
  destruct (project_create_schedule sample_env (sample_args (Some "59m,58m"%string))
              fresh_conn sample_two_triggers 1 sample_due
              [sample_due - 3540; sample_due - 3480]) as (_ & H & _).
  - vm_compute. reflexivity.
  - exact H.
Defined.

Ltac list_eq_lia :=
  repeat (f_equal; try lia).

(** X3.  The default schedule as a function of the lead [L = due - now]:
    the offsets of the table, minus those that fall within 30 s of now,
    with the five-minute fallback when none is left.  A lead above three
    days and 30 s gives three reminders, a lead of three days to three days
    and 30 s only two; the one-hour, thirty-minute and ten-minute offsets
    are replaced by [due - 300] when the lead exceeds them by at most 30 s;
    leads from two to ten minutes give a reminder at [now + 60]; and a lead
    of at most one minute, which [project_create] refuses, would give no
    reminder at all. *)
Theorem default_schedule_table (now due : Z) :
  let L := due - now in
  let sched := default_schedule now due in
  (3 * day + 30 < L -> sched = [due - 3 * day; due - 2 * day; due - day])
  /\ (3 * day <= L <= 3 * day + 30 -> sched = [due - 2 * day; due - day])
  /\ (2 * day <= L < 3 * day -> sched = [due - day])
  /\ (12 * hour <= L < 2 * day -> sched = [due - 4 * hour])
  /\ (4 * hour <= L < 12 * hour -> sched = [due - 2 * hour])
  /\ (hour + 30 < L < 4 * hour -> sched = [due - hour])
  /\ (hour <= L <= hour + 30 -> sched = [due - 300])
  /\ (1830 < L < hour -> sched = [due - 1800])
  /\ (1800 <= L <= 1830 -> sched = [due - 300])
  /\ (630 < L < 1800 -> sched = [due - 600])
  /\ (600 < L <= 630 -> sched = [due - 300])
  /\ (120 <= L <= 600 -> sched = [now + 60])
  /\ (90 < L < 120 -> sched = [due - 60])
  /\ (60 < L <= 90 -> sched = [now + 60])
  /\ (L <= 60 -> sched = []).
Proof.
  intros L sched. subst L sched.
  unfold default_schedule, default_offsets, with_fallback, day, hour.
  repeat apply conj; intros H; branch_on_tests;
    cbn [reminder_timestamps]; branch_on_tests; list_eq_lia.
Qed.

Lemma default_schedule_table_witness :
  default_schedule 0 (3 * day + 31) = [31; day + 31; 2 * day + 31]
  /\ default_schedule 0 (3 * day + 30) = [day + 30; 2 * day + 30]
  /\ default_schedule 0 3600 = [3300]
  /\ default_schedule 0 100 = [40]
  /\ default_schedule 0 61 = [60]
  /\ default_schedule 0 60 = [].
Proof.
  unfold day. repeat apply conj.
  - destruct (default_schedule_table 0 (3 * 86400 + 31)) as (H & _).
    apply H. unfold day. lia.
  - destruct (default_schedule_table 0 (3 * 86400 + 30)) as (_ & H & _).
    apply H. unfold day. lia.
  - destruct (default_schedule_table 0 3600) as (_ & _ & _ & _ & _ & _ & H & _).
    apply H. unfold hour. lia.
  - destruct (default_schedule_table 0 100)
      as (_ & _ & _ & _ & _ & _ & _ & _ & _ & _ & _ & _ & H & _).
    apply H. lia.
  - destruct (default_schedule_table 0 61)
      as (_ & _ & _ & _ & _ & _ & _ & _ & _ & _ & _ & _ & _ & H & _).
    apply H. lia.
  - destruct (default_schedule_table 0 60)
      as (_ & _ & _ & _ & _ & _ & _ & _ & _ & _ & _ & _ & _ & _ & H).
    apply H. lia.
Defined.

(** ** [project_add_reminder] *)

Lemma add_reminder_loop_spec (pid now due : Z) (offs : list Z) (c : Conn) :
  let ins := reminder_timestamps now due offs in
  let rows := map (fun ts => Reminder.mk pid ts 0 1 None) ins in
  (add_reminder_loop pid now due offs c).1 = ins
  /\ view (add_reminder_loop pid now due offs c).2
     = fold_left (fun t r => insert_reminder r t) rows (view c)
  /\ (ins = [] -> (add_reminder_loop pid now due offs c).2 = c)
  /\ (ins <> [] -> committed (add_reminder_loop pid now due offs c).2
                   = view (add_reminder_loop pid now due offs c).2).
Proof.
  cbn zeta. revert c. induction offs as [|off rest IH]; intros c.
  - cbn. repeat split; congruence.
  - cbn [add_reminder_loop reminder_timestamps].
    destruct (now + 30 <? due - off); [|apply IH].
    set (c1 := (execute _ c).2).
    specialize (IH c1). destruct (add_reminder_loop pid now due rest c1) as [ins c2].
    cbn [fst snd] in *. destruct IH as (-> & Hv & Hnil & Hne).
    repeat split.
    + rewrite Hv. reflexivity.
    + discriminate.
    + intros _. destruct (reminder_timestamps now due rest) eqn:E.
      * rewrite (Hnil eq_refl). reflexivity.
      * apply Hne. discriminate.
Qed.

(** X4.  [project_add_reminder] looks the project up in the guild of the
    caller: for a project of another guild the reply is "not found" and
    the store is untouched.  For a project of the guild and a well-formed
    offset string, the fire instants [due - off] later than [now + 30] are
    each committed as an unsent custom reminder of the project, the other
    rows being kept; they are reported in the reply, and when there is
    none the reply says so and the store is untouched. *)
Theorem project_add_reminder_spec (now : Z) (g : option Z) (pid : Z)
    (offset : string) (c : Conn) (p : Project.t) :
  projects (view c) !! pid = Some p ->
  (g <> Some (Project.guild_id p) ->
   project_add_reminder now g pid offset c = (Replied ProjectNotFound, c))
  /\ (forall offs,
        g = Some (Project.guild_id p) ->
        parse_offset_str offset = inr offs ->
        let ins := reminder_timestamps now (Project.due_ts p) offs in
        let c' := (project_add_reminder now g pid offset c).2 in
        Forall (fun t => now + 30 < t <= Project.due_ts p) ins
        /\ (ins = [] ->
            project_add_reminder now g pid offset c = (Replied NoValidReminders, c))
        /\ (ins <> [] ->
            (project_add_reminder now g pid offset c).1 = Replied (AddedReminders ins)
            /\ committed c' = view c')
        /\ (forall (i : nat) t, ins !! i = Some t ->
              reminders (view c') !! (seq_reminders (view c) + 1 + Z.of_nat i)
              = Some (Reminder.mk pid t 0 1 None))
        /\ (forall k, k <= seq_reminders (view c) ->
              reminders (view c') !! k = reminders (view c) !! k)
        /\ projects (view c') = projects (view c)).
Proof.
  intros Hp. split.
  - intros Hg. unfold project_add_reminder, query_project. rewrite Hp.
    now rewrite bool_decide_eq_false_2.
  - intros offs Hg Hparse ins c'.
    assert (Hrun : project_add_reminder now g pid offset c
                   = match add_reminder_loop pid now (Project.due_ts p) offs c with
                     | ([], c1) => (Replied NoValidReminders, c1)
                     | (inserted, c1) => (Replied (AddedReminders inserted), c1)
                     end).
    { unfold project_add_reminder, query_project. rewrite Hp.
      rewrite bool_decide_eq_true_2 by exact Hg. now rewrite Hparse. }
    destruct (add_reminder_loop_spec pid now (Project.due_ts p) offs c)
      as (Hins & Hview & Hnil & Hne).
    cbn zeta in *. fold ins in Hins, Hview, Hnil, Hne.
    assert (Hc' : c' = (add_reminder_loop pid now (Project.due_ts p) offs c).2).
    { unfold c'. rewrite Hrun.
      destruct (add_reminder_loop _ _ _ _ _) as [[|] ?]; reflexivity. }
    destruct (insert_reminders_fold
                (map (fun ts => Reminder.mk pid ts 0 1 None) ins) (view c))
      as (_ & Hpr & _ & _ & Hnew & Hold).
    cbn zeta in *. rewrite <- Hview, <- Hc' in Hpr, Hnew, Hold.
    repeat apply conj.
    + destruct (parse_offset_str_shape offset offs Hparse) as [Hnn _].
      pose proof (reminder_timestamps_bounds now (Project.due_ts p) offs) as Hb.
      eapply Forall_impl; [exact Hb|]. intros t (H1 & o & Ho & ->).
      split; [exact H1|].
      pose proof (proj1 (Forall_forall _ _) Hnn o Ho) as Hpos. cbn beta in Hpos. lia.
    + intros E. rewrite Hrun.
      destruct (add_reminder_loop _ _ _ _ _) as [ins' c1]. cbn [fst snd] in *.
      rewrite Hins, E, (Hnil E). reflexivity.
    + intros E. split.
      * rewrite Hrun.
        destruct (add_reminder_loop _ _ _ _ _) as [ins' c1]. cbn [fst snd] in *.
        rewrite Hins. destruct ins; [congruence | reflexivity].
      * rewrite Hc'. now apply Hne.
    + intros i t Hi. apply Hnew. now rewrite list_lookup_fmap, Hi.
    + intros k Hk. apply Hold. now left.
    + exact Hpr.
Qed.

Lemma project_add_reminder_spec_witness :
  project_add_reminder sample_now (Some 7) 1 "30m" sample_with_project
  = (Replied ProjectNotFound, sample_with_project)
  /\ (project_add_reminder sample_now (Some 42) 1 "30m,2h" sample_with_project).1
     = Replied (AddedReminders [sample_due - 1800]).
Proof.
  destruct (project_add_reminder_spec sample_now (Some 7) 1 "30m" sample_with_project
              (project_row sample_env (sample_args None) 42 "UTC" sample_due))
    as [Hother _]; [vm_compute; reflexivity|].
  destruct (project_add_reminder_spec sample_now (Some 42) 1 "30m,2h"
              sample_with_project
              (project_row sample_env (sample_args None) 42 "UTC" sample_due))
    as [_ Hsame]; [vm_compute; reflexivity|].
  split.
  - apply Hother. discriminate.
  - destruct (Hsame [7200; 1800]) as (_ & _ & Hadd & _).
    + reflexivity.
    + vm_compute. reflexivity.
    + apply Hadd. vm_compute. discriminate.
Defined.

(** ** Reminder poller: selection, frame, re-poll *)

Lemma due_row_project (t : Tables) (ws we : Z) (kv : Z * Reminder.t) (r : DueRow.t) :
  due_row t ws we kv = Some r ->
  is_Some (projects t !! Reminder.project_id kv.2).
Proof.
  unfold due_row. destruct (_ && _); [|discriminate].
  destruct (projects t !! _); [eauto | discriminate].
Qed.

Lemma query_due_sound (c : Conn) (ws we : Z) (rid : Z) :
  rid ∈ DueRow.rid <$> query_due c ws we ->
  exists row, reminders (view c) !! rid = Some row
              /\ Reminder.sent row = 0
              /\ ws <= Reminder.remind_ts row <= we
              /\ is_Some (projects (view c) !! Reminder.project_id row).
Proof.
  intros Hin. apply list_elem_of_fmap in Hin as (dr & -> & Hin).
  unfold query_due in Hin. rewrite merge_sort_Permutation in Hin.
  apply list_elem_of_omap in Hin as ([k row] & Hkv & Hr).
  apply elem_of_map_to_list in Hkv.
  pose proof (due_row_project _ _ _ _ _ Hr) as Hp.
  apply due_row_Some in Hr as (Hrid & Hsent & Hw & _). cbn in *.
  exists row. rewrite Hrid. auto.
Qed.

Lemma query_due_complete (c : Conn) (ws we : Z) (rid : Z) (row : Reminder.t) :
  reminders (view c) !! rid = Some row ->
  Reminder.sent row = 0 ->
  ws <= Reminder.remind_ts row <= we ->
  is_Some (projects (view c) !! Reminder.project_id row) ->
  rid ∈ DueRow.rid <$> query_due c ws we.
Proof.
  intros Hrow Hsent Hw [p Hp].
  apply list_elem_of_fmap.
  exists (DueRow.mk rid (Reminder.project_id row) (Reminder.remind_ts row)
            (Project.name p) (Project.due_ts p) (Project.role_id p)
            (Project.channel_id p) (Project.description p)).
  split; [reflexivity|].
  unfold query_due. rewrite merge_sort_Permutation.
  apply list_elem_of_omap. exists (rid, row). split.
  - now apply elem_of_map_to_list.
  - unfold due_row. cbn [fst snd]. rewrite Hsent, Hp.
    rewrite (proj2 (Z.leb_le _ _) (proj1 Hw)), (proj2 (Z.leb_le _ _) (proj2 Hw)).
    reflexivity.
Qed.

Lemma fold_update_sent_frame (rids : list Z) (t : Tables) :
  let t' := fold_left (fun t rid => update_sent rid t) rids t in
  config t' = config t /\ projects t' = projects t
  /\ seq_projects t' = seq_projects t /\ seq_reminders t' = seq_reminders t.
Proof.
  revert t. induction rids as [|x rids IH]; intros t; [cbn; auto|].
  cbn [fold_left]. destruct (IH (update_sent x t)) as (-> & -> & -> & ->).
  cbn. auto.
Qed.

Lemma reminder_loop_frame (gw : Gateway) (now : Z) (b : Bot) :
  let b' := _reminder_loop gw now b in
  config (view (conn b')) = config (view (conn b))
  /\ projects (view (conn b')) = projects (view (conn b))
  /\ seq_projects (view (conn b')) = seq_projects (view (conn b))
  /\ seq_reminders (view (conn b')) = seq_reminders (view (conn b))
  /\ digest_cache b' = digest_cache b.
Proof.
  cbn zeta.
  destruct (reminder_loop_effect gw now b) as (Hc & _).
  cbn zeta in Hc. rewrite Hc, (proj1 (fold_mark_conn _ _)).
  destruct (fold_update_sent_frame
              (DueRow.rid <$> query_due (conn b) (now - 60) (now + 30))
              (view (conn b))) as (-> & -> & -> & ->).
  repeat split.
  rewrite reminder_loop_fold.
  apply (fold_reminder_step gw _ b (query_due_NoDup _ _ _)).
Qed.

(** X5.  A poll cycle only turns [sent] from 0 to 1 on the rows it
    selected: every other reminder row, the projects, the configuration,
    the id counters and the digest guard are as before, no row appears or
    disappears, and no row goes back to unsent. *)
Theorem reminder_loop_only_marks (gw : Gateway) (now : Z) (b : Bot) :
  let b' := _reminder_loop gw now b in
  config (view (conn b')) = config (view (conn b))
  /\ projects (view (conn b')) = projects (view (conn b))
  /\ seq_projects (view (conn b')) = seq_projects (view (conn b))
  /\ seq_reminders (view (conn b')) = seq_reminders (view (conn b))
  /\ digest_cache b' = digest_cache b
  /\ (forall k,
        reminders (view (conn b')) !! k = reminders (view (conn b)) !! k
        \/ exists row,
             reminders (view (conn b)) !! k = Some row
             /\ Reminder.sent row = 0
             /\ now - 60 <= Reminder.remind_ts row <= now + 30
             /\ reminders (view (conn b')) !! k = Some (Reminder.mark_sent row)).
Proof.
  cbn zeta.
  destruct (reminder_loop_frame gw now b) as (H1 & H2 & H3 & H4 & H5).
  repeat apply conj; auto.
  intros k. destruct (reminder_loop_effect gw now b) as (_ & Hl & _).
  cbn zeta in Hl. rewrite Hl. case_bool_decide as Hin; [right | now left].
  apply query_due_sound in Hin as (row & Hrow & Hsent & Hw & _).
  exists row. rewrite Hrow. auto.
Qed.

(** X6.  Polling again is harmless.  A second cycle at the same clock
    reading, whatever the gateway does, selects nothing and leaves the bot
    exactly as the first cycle left it; and at any later clock reading no
    row selected by the first cycle is selected again. *)
Theorem reminder_loop_repoll (gw1 gw2 : Gateway) (now : Z) (b : Bot) :
  let b1 := _reminder_loop gw1 now b in
  _reminder_loop gw2 now b1 = b1
  /\ forall now2 r,
       r ∈ query_due (conn b) (now - 60) (now + 30) ->
       DueRow.rid r ∉ DueRow.rid <$> query_due (conn b1) (now2 - 60) (now2 + 30).
Proof.
  cbn zeta.
  destruct (reminder_loop_effect gw1 now b) as (_ & Hl & _).
  destruct (reminder_loop_frame gw1 now b) as (_ & Hp & _).
  cbn zeta in *.
  set (b1 := _reminder_loop gw1 now b) in *.
  assert (Hmarked : forall now2 rid,
            rid ∈ DueRow.rid <$> query_due (conn b) (now - 60) (now + 30) ->
            rid ∉ DueRow.rid <$> query_due (conn b1) (now2 - 60) (now2 + 30)).
  { intros now2 rid Hin Hin2.
    apply query_due_sound in Hin2 as (row' & Hrow' & Hsent' & _).
    rewrite Hl, (bool_decide_eq_true_2 _ Hin) in Hrow'.
    apply query_due_sound in Hin as (row & Hrow & _).
    rewrite Hrow in Hrow'. cbn in Hrow'. injection Hrow' as <-.
    cbn in Hsent'. discriminate. }
  split.
  - assert (Hnone : query_due (conn b1) (now - 60) (now + 30) = []).
    { destruct (query_due (conn b1) (now - 60) (now + 30)) as [|dr l] eqn:E;
        [reflexivity | exfalso].
      assert (Hin2 : DueRow.rid dr ∈ DueRow.rid <$> query_due (conn b1) (now - 60) (now + 30))
        by (rewrite E; apply list_elem_of_here).
      destruct (decide (DueRow.rid dr ∈ DueRow.rid <$> query_due (conn b) (now - 60) (now + 30)))
        as [Hin|Hnin].
      - exact (Hmarked now _ Hin Hin2).
      - apply Hnin.
        pose proof Hin2 as Hin3.
        apply query_due_sound in Hin3 as (row' & Hrow' & Hsent' & Hw & Hproj).
        rewrite Hl, (bool_decide_eq_false_2 _ Hnin) in Hrow'.
        rewrite Hp in Hproj.
        exact (query_due_complete _ _ _ _ _ Hrow' Hsent' Hw Hproj). }
    unfold _reminder_loop at 1. now rewrite Hnone.
  - intros now2 r Hr. apply Hmarked. now apply list_elem_of_fmap_2.
Qed.

Lemma reminder_loop_not_selected (gw : Gateway) (now : Z) (b : Bot) (k : Z) :
  k ∉ DueRow.rid <$> query_due (conn b) (now - 60) (now + 30) ->
  let b' := _reminder_loop gw now b in
  reminders (view (conn b')) !! k = reminders (view (conn b)) !! k
  /\ sends_for k (trace b') = sends_for k (trace b)
  /\ updates_for k (trace b') = updates_for k (trace b).
Proof.
  intros Hnin. cbn zeta.
  destruct (reminder_loop_effect gw now b) as (_ & Hl & Hu & Hs).
  cbn zeta in *. specialize (Hl k). specialize (Hu k). specialize (Hs k).
  rewrite (bool_decide_eq_false_2 _ Hnin) in Hl, Hu, Hs.
  repeat split; [exact Hl | lia | lia].
Qed.

Lemma reminder_loops_never_due (runs : list (Gateway * Z)) (b : Bot) (k : Z) :
  match reminders (view (conn b)) !! k with
  | Some r => never_due (view (conn b)) runs r
  | None => True
  end ->
  let b' := reminder_loops runs b in
  reminders (view (conn b')) !! k = reminders (view (conn b)) !! k
  /\ projects (view (conn b')) = projects (view (conn b))
  /\ sends_for k (trace b') = sends_for k (trace b)
  /\ updates_for k (trace b') = updates_for k (trace b).
Proof.
  revert b. induction runs as [|[gw now] runs IH]; intros b Hnd; cbn zeta.
  - cbn. auto.
  - cbn [reminder_loops fold_left fst snd].
    assert (Hnin : k ∉ DueRow.rid <$> query_due (conn b) (now - 60) (now + 30)).
    { intros Hin. apply query_due_sound in Hin as (row & Hrow & Hsent & Hw & [p Hp]).
      rewrite Hrow in Hnd. unfold never_due in Hnd. destruct Hnd as [H|[H|H]].
      - contradiction.
      - congruence.
      - apply (H (gw, now)); [apply list_elem_of_here | exact Hw]. }
    destruct (reminder_loop_not_selected gw now b k Hnin) as (Hl & Hs & Hu).
    destruct (reminder_loop_frame gw now b) as (_ & Hp & _).
    cbn zeta in *.
    specialize (IH (_reminder_loop gw now b)).
    unfold reminder_loops, never_due in IH, Hnd. cbn zeta in IH.
    rewrite Hl, Hp, Hs, Hu in IH. apply IH.
    destruct (reminders (view (conn b)) !! k) as [r|]; [|exact I].
    destruct Hnd as [H|[H|H]]; [now left | right; now left | right; right].
    intros run Hrun. apply H. now apply list_elem_of_further.
Qed.

(** X7.  A trigger that is due in none of the poll windows of a process
    (the poller was not running around its fire instant) is silently
    missed: over any such sequence of poll cycles no [channel.send] is
    called for it, no [UPDATE] runs for it, and its row stays as it is. *)
Theorem reminder_missed_window (runs : list (Gateway * Z)) (c : Conn) (k : Z)
    (r : Reminder.t) :
  reminders (view c) !! k = Some r ->
  (forall run, run ∈ runs ->
     ~ (run.2 - 60 <= Reminder.remind_ts r <= run.2 + 30)) ->
  let b' := reminder_loops runs (start c) in
  reminders (view (conn b')) !! k = Some r
  /\ sends_for k (trace b') = 0%nat
  /\ updates_for k (trace b') = 0%nat.
Proof.
  intros Hr Hwin.
  destruct (reminder_loops_never_due runs (start c) k) as (Hl & _ & Hs & Hu).
  - cbn [start conn]. rewrite Hr. unfold never_due. right. right. exact Hwin.
  - cbn zeta in *. rewrite Hl, Hs, Hu. cbn [start conn trace]. auto.
Qed.

Lemma reminder_missed_window_witness :
  let b' := reminder_loops [(sample_gateway true, sample_now);
                            (sample_gateway true, sample_now + 150)]
              (start sample_two_triggers) in
  sends_for 1 (trace b') = 0%nat /\ sends_for 2 (trace b') = 1%nat.
Proof.
  cbn zeta. split.
  - apply (reminder_missed_window _ sample_two_triggers 1
             (Reminder.mk 1 (sample_now + 60) 0 1 None)).
    + vm_compute. reflexivity.
    + intros run Hrun.
      apply elem_of_cons in Hrun as [->|Hrun];
        [|apply list_elem_of_singleton in Hrun as ->];
        cbn [snd Reminder.remind_ts]; unfold sample_now; lia.
  - vm_compute. reflexivity.
Defined.

(** ** [project_delete] and [project_list] *)

Lemma project_due_le_total : Total project_due_le.
Proof. intros a b. unfold project_due_le. lia. Qed.

Lemma query_guild_projects_elem (c : Conn) (g : option Z) (kv : Z * Project.t) :
  kv ∈ query_guild_projects c g
  <-> projects (view c) !! kv.1 = Some kv.2 /\ g = Some (Project.guild_id kv.2).
Proof.
  unfold query_guild_projects. rewrite merge_sort_Permutation.
  rewrite list_elem_of_In, filter_In, <- list_elem_of_In.
  destruct kv as [k p]. rewrite elem_of_map_to_list. cbn [fst snd].
  rewrite bool_decide_eq_true. tauto.
Qed.

Lemma query_guild_projects_NoDup (c : Conn) (g : option Z) :
  NoDup ((query_guild_projects c g).*1).
Proof.
  unfold query_guild_projects. rewrite merge_sort_Permutation.
  pose proof (NoDup_fst_map_to_list (projects (view c))) as H.
  induction (map_to_list (projects (view c))) as [|kv l IH]; cbn; [constructor|].
  rewrite fmap_cons in H. apply NoDup_cons in H as [Hnin Hnd].
  destruct (bool_decide _); [|now apply IH].
  rewrite fmap_cons. apply NoDup_cons. split; [|now apply IH].
  intros Hin. apply Hnin.
  apply list_elem_of_fmap in Hin as (kv' & -> & Hkv').
  apply list_elem_of_In, filter_In in Hkv' as [Hkv' _].
  apply list_elem_of_fmap. exists kv'. split; [reflexivity|].
  now apply list_elem_of_In.
Qed.

Lemma project_list_lines (g : option Z) (c : Conn) :
  project_list g c
  = match query_guild_projects c g with
    | [] => NoProjectsFound
    | rows => ProjectLines (line_of <$> rows)
    end.
Proof. reflexivity. Qed.

(** X8.  [project_list] shows exactly the projects of the caller's guild,
    each once, in ascending order of due instant, and says that there is
    none exactly when the guild has no project: projects of other guilds
    are never listed. *)
Theorem project_list_spec (g : option Z) (c : Conn) :
  (project_list g c = NoProjectsFound
   <-> forall pid p, projects (view c) !! pid = Some p -> g <> Some (Project.guild_id p))
  /\ (forall lines, project_list g c = ProjectLines lines ->
        (forall id name due tz,
           (id, name, due, tz) ∈ lines
           <-> exists p, projects (view c) !! id = Some p
                         /\ g = Some (Project.guild_id p)
                         /\ name = Project.name p /\ due = Project.due_ts p
                         /\ tz = Project.tz p)
        /\ Sorted (fun a b : Z * string * Z * string => a.1.2 <= b.1.2) lines
        /\ NoDup (lines.*1.*1.*1)).
Proof.
  rewrite project_list_lines. split.
  - split.
    + intros Hnone pid p Hp Hg.
      assert (Hin : (pid, p) ∈ query_guild_projects c g)
        by now apply query_guild_projects_elem.
      destruct (query_guild_projects c g); [|discriminate].
      now apply elem_of_nil in Hin.
    + intros Hall. destruct (query_guild_projects c g) as [|kv l] eqn:E; [reflexivity|].
      assert (Hin : kv ∈ query_guild_projects c g) by (rewrite E; apply list_elem_of_here).
      apply query_guild_projects_elem in Hin as [Hp Hg].
      now destruct (Hall _ _ Hp).
  - intros lines Hlines.
    assert (Hl : lines = line_of <$> query_guild_projects c g).
    { destruct (query_guild_projects c g); [discriminate|]. now injection Hlines. }
    subst lines. repeat apply conj.
    + intros id name due tz. rewrite list_elem_of_fmap. split.
      * intros ([k p] & [= -> -> -> ->] & Hin).
        apply query_guild_projects_elem in Hin as [Hp Hg]. cbn in *.
        exists p. auto.
      * intros (p & Hp & Hg & -> & -> & ->). exists (id, p). split; [reflexivity|].
        now apply query_guild_projects_elem.
    + apply (Sorted_fmap line_of project_due_le); [now intros [] [] ?|].
      apply (@Sorted_merge_sort _ project_due_le _ project_due_le_total).
    + replace ((line_of <$> query_guild_projects c g).*1.*1.*1)
        with ((query_guild_projects c g).*1);
        [apply query_guild_projects_NoDup|].
      clear Hlines.
      induction (query_guild_projects c g) as [|kv l IH]; [reflexivity|].
      rewrite !fmap_cons, IH. reflexivity.
Qed.

Lemma delete_project_lookup (pid : Z) (t : Tables) (k : Z) (r : Reminder.t) :
  reminders (delete_project pid t).2 !! k = Some r
  <-> reminders t !! k = Some r /\ Reminder.project_id r <> pid.
Proof. cbn. apply map_lookup_filter_Some. Qed.

(** X9.  [project_delete] removes a project of the caller's guild together
    with all its reminders and nothing else, and commits; for a project of
    another guild it replies "not found" and leaves the store untouched.
    After the deletion the poller never calls [channel.send] for a
    reminder of the deleted project. *)
Theorem project_delete_cascade (g : option Z) (pid : Z) (c : Conn) (p : Project.t) :
  projects (view c) !! pid = Some p ->
  (g <> Some (Project.guild_id p) ->
   project_delete g pid c = (DeleteNotFound, c))
  /\ (g = Some (Project.guild_id p) ->
      let c' := (project_delete g pid c).2 in
      (project_delete g pid c).1 = Deleted pid
      /\ projects (view c') !! pid = None
      /\ (forall q, q <> pid -> projects (view c') !! q = projects (view c) !! q)
      /\ (forall k r, reminders (view c') !! k = Some r
                      <-> reminders (view c) !! k = Some r
                          /\ Reminder.project_id r <> pid)
      /\ config (view c') = config (view c)
      /\ committed c' = view c'
      /\ (forall runs k r,
            reminders (view c) !! k = Some r -> Reminder.project_id r = pid ->
            sends_for k (trace (reminder_loops runs (start c'))) = 0%nat)).
Proof.
  intros Hp. split.
  - intros Hg. unfold project_delete, query_project. rewrite Hp.
    now rewrite bool_decide_eq_false_2.
  - intros Hg. cbn zeta.
    assert (Hrun : project_delete g pid c
                   = (Deleted pid, (execute (delete_project pid) c).2)).
    { unfold project_delete, query_project. rewrite Hp.
      now rewrite bool_decide_eq_true_2. }
    rewrite Hrun. cbn [fst snd execute delete_project view committed].
    assert (Hrem : forall k r,
              filter (fun kv : Z * Reminder.t => Reminder.project_id kv.2 <> pid)
                (reminders (view c)) !! k = Some r
              <-> reminders (view c) !! k = Some r /\ Reminder.project_id r <> pid).
    { intros k r. apply map_lookup_filter_Some. }
    repeat apply conj; try reflexivity.
    + cbn. apply lookup_delete_eq.
    + intros q Hq. cbn. now apply lookup_delete_ne.
    + exact Hrem.
    + intros runs k r Hr Hpid.
      set (c' := mkConn _ _).
      destruct (reminder_loops_never_due runs (start c') k) as (_ & _ & Hs & _).
      * cbn [start conn]. unfold c'. cbn [view reminders].
        destruct (filter _ _ !! k) as [r'|] eqn:E; [|exact I].
        apply Hrem in E as [E Hne]. congruence.
      * cbn zeta in Hs. rewrite Hs. reflexivity.
Qed.

Lemma project_delete_cascade_witness :
  project_delete (Some 7) 1 sample_two_triggers = (DeleteNotFound, sample_two_triggers)
  /\ reminders (view (project_delete (Some 42) 1 sample_two_triggers).2) !! 1 = None.
Proof.
  destruct (project_delete_cascade (Some 7) 1 sample_two_triggers
              (project_row sample_env (sample_args (Some "59m,58m"%string)) 42 "UTC"
                 sample_due)) as [Hother _]; [vm_compute; reflexivity|].
  destruct (project_delete_cascade (Some 42) 1 sample_two_triggers
              (project_row sample_env (sample_args (Some "59m,58m"%string)) 42 "UTC"
                 sample_due)) as [_ Hsame]; [vm_compute; reflexivity|].
  split.
  - apply Hother. discriminate.
  - destruct (Hsame eq_refl) as (_ & _ & _ & Hrem & _).
    destruct (reminders (view (project_delete (Some 42) 1 sample_two_triggers).2) !! 1)
      as [r|] eqn:E; [|reflexivity].
    apply Hrem in E as [E Hne]. vm_compute in E. injection E as <-.
    now destruct Hne.
Defined.

(** X10.  A created project is listed and a deleted one is not: after
    [project_create] reports project [pid], [project_list] of the same
    guild contains it with its name and due instant; after [project_delete]
    reports its deletion no line of [project_list] carries that id. *)
Theorem project_create_list_delete (env : CreateEnv) (a : CreateArgs)
    (c c' : Conn) (pid due : Z) (ts : list Z) :
  project_create env a c = (Replied (ProjectCreated pid due ts), c') ->
  (exists lines tz,
     project_list (ca_guild_id a) c' = ProjectLines lines
     /\ (pid, ca_name a, due, tz) ∈ lines)
  /\ (forall c'', project_delete (ca_guild_id a) pid c' = (Deleted pid, c'') ->
      forall g, match project_list g c'' with
                | NoProjectsFound => True
                | ProjectLines lines => pid ∉ lines.*1.*1.*1
                end)
  /\ exists c'', project_delete (ca_guild_id a) pid c' = (Deleted pid, c'').
Proof.
  intros Hrun.
  destruct (project_create_success _ _ _ _ _ _ _ Hrun)
    as (g & tzt & offsets & Hready & Hts & Hpid & Hview & Hcom).
  assert (Hg : ca_guild_id a = Some g) by apply Hready.
  assert (Hp : projects (view c') !! pid = Some (project_row env a g tzt due)).
  { rewrite Hview.
    destruct (insert_reminders_fold (reminder_rows pid (ca_custom_offsets a) ts)
                (insert_project (project_row env a g tzt due) (view c)).2)
      as (_ & -> & _).
    cbn. rewrite Hpid. apply lookup_insert_eq. }
  repeat apply conj.
  - destruct (project_list_spec (Some g) c') as [Hnone Hlines].
    rewrite Hg.
    destruct (project_list (Some g) c') as [|lines] eqn:El.
    + exfalso. exact (proj1 Hnone eq_refl pid _ Hp eq_refl).
    + exists lines, tzt. split; [reflexivity|].
      apply (proj1 (Hlines lines eq_refl)). eexists. split; [exact Hp|].
      repeat split.
  - intros c'' Hdel g'.
    destruct (project_list_spec g' c'') as [_ Hlines].
    destruct (project_list g' c'') as [|lines]; [exact I|].
    destruct (Hlines lines eq_refl) as (Hmem & _).
    intros Hin. apply list_elem_of_fmap in Hin as (x1 & E1 & Hin).
    apply list_elem_of_fmap in Hin as (x2 & E2 & Hin).
    apply list_elem_of_fmap in Hin as ([[[i n] d] z] & E3 & Hin).
    subst x2 x1. cbn in E1. subst i.
    apply Hmem in Hin as (p & Hp' & _).
    destruct (project_delete_cascade (ca_guild_id a) _ c' _ Hp) as [_ Hsame].
    destruct (Hsame Hg) as (_ & Hgone & _).
    rewrite Hdel in Hgone. cbn [snd] in Hgone. congruence.
  - destruct (project_delete_cascade (ca_guild_id a) _ c' _ Hp) as [_ Hsame].
    destruct (Hsame Hg) as (Hreply & _).
    destruct (project_delete (ca_guild_id a) _ c') as [r c'']. cbn in Hreply. subst r.
    now exists c''.
Qed.

Lemma project_create_list_delete_witness :
  exists lines tz,
    project_list (Some 42) sample_with_project = ProjectLines lines
    /\ (1, "Essay"%string, sample_due, tz) ∈ lines.
Proof.
  destruct (project_create_list_delete sample_env (sample_args None) sample_configured
              sample_with_project 1 sample_due [sample_due - 300]) as (H & _).
  - vm_compute. reflexivity.
  - exact H.
Defined.

(** ** Configuration: [upsert_config], [deadlines_timezone], digest time *)

(** X11.  [upsert_config] followed by [get_config] for the same guild gives
    the previous row of the guild (or the column defaults when there was
    none) with the named columns replaced; the rows of other guilds, the
    projects and the reminders are untouched, and the change is
    committed. *)
Theorem upsert_config_round_trip (g : Z) (kw : ConfigKwargs) (c : Conn) :
  let c' := upsert_config g kw c in
  let old := default Config.default (get_config c g) in
  (exists row,
     get_config c' g = Some row
     /\ Config.timezone row = default (Config.timezone old) (kw_timezone kw)
     /\ Config.deadlines_channel_id row
        = default (Config.deadlines_channel_id old) (kw_deadlines_channel_id kw)
     /\ Config.deadlines_digest_time row
        = default (Config.deadlines_digest_time old) (kw_deadlines_digest_time kw)
     /\ Config.announcer_user_id row = Config.announcer_user_id old
     /\ Config.announce_role_id row = Config.announce_role_id old
     /\ Config.announce_channel_id row = Config.announce_channel_id old)
  /\ (forall g', g' <> g -> get_config c' g' = get_config c g')
  /\ projects (view c') = projects (view c)
  /\ reminders (view c') = reminders (view c)
  /\ committed c' = view c'.
Proof.
  cbn zeta. unfold upsert_config, get_config.
  destruct (config (view c) !! g) as [row|] eqn:E; cbn.
  - repeat apply conj; try reflexivity.
    + eexists. rewrite lookup_alter_eq, E. cbn. repeat split.
    + intros g' Hne. now apply lookup_alter_ne.
  - repeat apply conj; try reflexivity.
    + eexists. rewrite lookup_insert_eq. repeat split.
    + intros g' Hne. now apply lookup_insert_ne.
Qed.

Lemma get_config_deadlines_timezone (zi : string -> bool) (g : Z) (tz : string)
    (c : Conn) :
  exists row,
    get_config (deadlines_timezone zi g tz c) g = Some row
    /\ Config.timezone row = Some tz
    /\ Config.deadlines_channel_id row
       = Config.deadlines_channel_id (default Config.default (get_config c g))
    /\ Config.deadlines_digest_time row
       = Config.deadlines_digest_time (default Config.default (get_config c g)).
Proof.
  unfold deadlines_timezone. cbn zeta.
  destruct (upsert_config_round_trip g (mkKwargs None None (Some (Some tz))) c)
    as ((row & Hrow & Htz & Hch & Htime & _) & _).
  exists row. cbn in *. auto.
Qed.

(** X12.  The timezone set by [deadlines_timezone] is the one used
    afterwards: a [project_create] of that guild without a timezone
    argument reads its due string in that timezone and stores its name
    with the project, and a [deadlines_configure] without a timezone
    argument keeps it.  The digest channel and time of day of the guild
    are not changed by [deadlines_timezone]. *)
Theorem deadlines_timezone_used (zi : string -> bool) (g : Z) (tz : string)
    (c : Conn) :
  let c1 := deadlines_timezone zi g tz c in
  (exists row,
     get_config c1 g = Some row
     /\ Config.timezone row = Some tz
     /\ Config.deadlines_channel_id row
        = Config.deadlines_channel_id (default Config.default (get_config c g))
     /\ Config.deadlines_digest_time row
        = Config.deadlines_digest_time (default Config.default (get_config c g)))
  /\ (forall env a pid due ts c2,
        ca_guild_id a = Some g ->
        Py.truthy (ca_timezone a) = false ->
        project_create env a c1 = (Replied (ProjectCreated pid due ts), c2) ->
        ce_due_timestamp env (ca_due a)
          (parse_timezone (ce_zoneinfo env) (Some tz)) = Some due
        /\ exists p, projects (view c2) !! pid = Some p /\ Project.tz p = tz)
  /\ (forall zi' ch hhmm,
        strptime_HM_ok hhmm = true ->
        exists row,
          get_config (deadlines_configure zi' g ch hhmm None c1).2 g = Some row
          /\ Config.timezone row = Some tz
          /\ Config.deadlines_channel_id row = Some ch
          /\ Config.deadlines_digest_time row = Some hhmm).
Proof.
  cbn zeta.
  destruct (get_config_deadlines_timezone zi g tz c) as (row & Hrow & Htz & Hch & Ht).
  repeat apply conj.
  - exists row. auto.
  - intros env a pid due ts c2 Hg Hnotz Hrun.
    destruct (project_create_success _ _ _ _ _ _ _ Hrun)
      as (g' & tzt & offsets & Hready & Hts & Hpid & Hview & _).
    destruct Hready as (Hg' & Hctz & Hdue & _).
    rewrite Hg in Hg'. injection Hg' as <-.
    unfold create_tz, Py.or_else in Hctz. rewrite Hnotz, Hrow, Htz in Hctz.
    injection Hctz as <-. split; [exact Hdue|].
    exists (project_row env a g tz due). split; [|reflexivity].
    rewrite Hview.
    destruct (insert_reminders_fold (reminder_rows pid (ca_custom_offsets a) ts)
                (insert_project (project_row env a g tz due)
                   (view (deadlines_timezone zi g tz c))).2) as (_ & -> & _).
    cbn. rewrite Hpid. apply lookup_insert_eq.
  - intros zi' ch hhmm Hok. unfold deadlines_configure. rewrite Hok. cbn [negb].
    cbn zeta. cbn [snd Py.or_else Py.truthy]. rewrite Hrow, Htz.
    destruct (upsert_config_round_trip g
                (mkKwargs (Some (Some ch)) (Some (Some hhmm)) (Some (Some tz)))
                (deadlines_timezone zi g tz c))
      as ((row' & Hrow' & Htz' & Hch' & Htime' & _) & _).
    exists row'. cbn in *. auto.
Qed.

(** *** Time of day *)

Lemma colon_match {A : Type} (c : ascii) (x y : A) :
  match c with ":"%char => x | _ => y end = if Ascii.eqb c ":" then x else y.
Proof. destruct c as [[] [] [] [] [] [] [] []]; reflexivity. Qed.

Lemma digit_below (n : Z) (c : ascii) :
  Py.isdigit c && (Py.code c <? 48 + n) = true ->
  Py.isdigit c = true /\ 0 <= Py.digit_value c < n.
Proof.
  intros H. apply andb_true_iff in H as [Hd Hlt].
  split; [exact Hd|]. pose proof (digit_value_range c Hd).
  apply Z.ltb_lt in Hlt. unfold Py.digit_value in *. lia.
Qed.

Lemma decimal_one (a : ascii) : decimal_value [a] = Py.digit_value a.
Proof. cbn. lia. Qed.

Lemma decimal_two (a b : ascii) :
  decimal_value [a; b] = 10 * Py.digit_value a + Py.digit_value b.
Proof. cbn. lia. Qed.

Lemma hour_pair (a b : ascii) :
  (Ascii.eqb a "2" && (Py.isdigit b && (Py.code b <? 48 + 4)))
  || ((Py.isdigit a && (Py.code a <? 48 + 2)) && Py.isdigit b) = true ->
  Py.isdigit a = true /\ Py.isdigit b = true /\ 0 <= decimal_value [a; b] <= 23.
Proof.
  rewrite decimal_two. intros H. apply orb_true_iff in H as [H|H];
    apply andb_true_iff in H as [H1 H2].
  - apply Ascii.eqb_eq in H1 as ->. apply digit_below in H2 as [Hb Hr].
    split; [reflexivity|]. split; [exact Hb|].
    change (Py.digit_value "2") with 2. lia.
  - apply digit_below in H1 as [Ha Hr]. pose proof (digit_value_range b H2).
    split; [exact Ha|]. split; [exact H2|]. lia.
Qed.

Lemma minute_pair (a b : ascii) :
  (Py.isdigit a && (Py.code a <? 48 + 6)) && Py.isdigit b = true ->
  Py.isdigit a = true /\ Py.isdigit b = true /\ 0 <= decimal_value [a; b] <= 59.
Proof.
  rewrite decimal_two. intros H. apply andb_true_iff in H as [H1 H2].
  apply digit_below in H1 as [Ha Hr]. pose proof (digit_value_range b H2).
  split; [exact Ha|]. split; [exact H2|]. lia.
Qed.

Ltac shape_goal :=
  split; [reflexivity|];
  split; [discriminate|];
  split; [discriminate|];
  split; [repeat (apply Forall_cons_2; [assumption|]); apply Forall_nil_2|];
  split; [repeat (apply Forall_cons_2; [assumption|]); apply Forall_nil_2|];
  split; lia.

(** The strings that [strptime] accepts for ["%H:%M"]. *)
Lemma strptime_HM_shape (s : string) :
  strptime_HM_ok s = true ->
  exists hs ms,
    chars s = hs ++ ":"%char :: ms
    /\ hs <> [] /\ ms <> [] /\ digits hs /\ digits ms
    /\ 0 <= decimal_value hs <= 23 /\ 0 <= decimal_value ms <= 59.
Proof.
  unfold strptime_HM_ok.
  destruct (chars s) as [|a [|b [|c [|d [|e [|f l]]]]]];
    rewrite ?colon_match;
    try (destruct (Ascii.eqb_spec b ":") as [->|]);
    rewrite ?colon_match;
    try (destruct (Ascii.eqb_spec c ":") as [->|]);
    try (intros; discriminate).
  - intros H. apply andb_true_iff in H as [_ Hc]. vm_compute in Hc. discriminate.
  - (* h:m *)
    intros H. apply andb_true_iff in H as [Ha Hc].
    pose proof (digit_value_range a Ha). pose proof (digit_value_range c Hc).
    exists [a], [c]. rewrite !decimal_one. shape_goal.
  - intros H. apply andb_true_iff in H as [H _].
    apply andb_true_iff in H as [_ H]. vm_compute in H. discriminate.
  - (* h:mm *)
    intros H. apply andb_true_iff in H as [H Hd].
    apply andb_true_iff in H as [Ha Hc].
    destruct (minute_pair c d) as (Hc' & _ & Hm); [now rewrite Hc, Hd|].
    pose proof (digit_value_range a Ha).
    exists [a], [c; d]. rewrite decimal_one. shape_goal.
  - (* hh:m *)
    intros H. apply andb_true_iff in H as [H Hd].
    destruct (hour_pair a b H) as (Ha & Hb & Hh).
    pose proof (digit_value_range d Hd).
    exists [a; b], [d]. rewrite decimal_one. shape_goal.
  - intros H. apply andb_true_iff in H as [H _].
    apply andb_true_iff in H as [H _].
    destruct (hour_pair a ":" H) as (_ & Hb & _). vm_compute in Hb. discriminate.
  - (* hh:mm *)
    intros H. apply andb_true_iff in H as [H He].
    apply andb_true_iff in H as [H Hd].
    destruct (hour_pair a b H) as (Ha & Hb & Hh).
    destruct (minute_pair d e) as (Hd' & _ & Hm); [now rewrite Hd, He|].
    exists [a; b], [d; e]. shape_goal.
Qed.

Lemma split_no_sep (sep : ascii) (s : list ascii) :
  Forall (fun c => c <> sep) s -> Py.split sep s = [s].
Proof.
  induction 1 as [|c s Hc _ IH]; [reflexivity|].
  cbn [Py.split]. destruct (Ascii.eqb_spec c sep); [contradiction|].
  now rewrite IH.
Qed.

Lemma split_at_sep (sep : ascii) (s1 s2 : list ascii) :
  Forall (fun c => c <> sep) s1 ->
  Py.split sep (s1 ++ sep :: s2) = s1 :: Py.split sep s2.
Proof.
  induction 1 as [|c s Hc _ IH]; cbn [Py.split app].
  - now rewrite Ascii.eqb_refl.
  - destruct (Ascii.eqb_spec c sep); [contradiction|]. now rewrite IH.
Qed.

Lemma digits_no_colon (ds : list ascii) :
  digits ds -> Forall (fun c => c <> ":"%char) ds.
Proof.
  intros H. eapply Forall_impl; [exact H|].
  intros c Hc ->. vm_compute in Hc. discriminate.
Qed.

Lemma int_body_digits (ds : list ascii) (acc : Z) (after_digit : bool) :
  digits ds -> ds <> [] \/ after_digit = true ->
  Py.int_body ds acc after_digit
  = Some (acc * 10 ^ Z.of_nat (length ds) + decimal_value ds).
Proof.
  intros Hds. revert acc after_digit.
  induction Hds as [|d ds Hd _ IH]; intros acc b Hne.
  - destruct Hne as [?| ->]; [congruence|]. cbn. f_equal. lia.
  - cbn [Py.int_body]. rewrite Hd. rewrite IH by now right.
    f_equal. cbn [length decimal_value].
    rewrite Nat2Z.inj_succ, Z.pow_succ_r by lia. ring.
Qed.

Lemma strip_digits (ds : list ascii) : digits ds -> Py.strip ds = ds.
Proof.
  intros Hds. unfold Py.strip, Py.lstrip, Py.rstrip.
  assert (Hid : forall l, digits l -> Py.dropwhile Py.isspace l = l).
  { intros l Hl. destruct Hl as [|d l Hd _]; [reflexivity|].
    cbn. now rewrite (digit_not_space d Hd). }
  rewrite (Hid ds Hds), (Hid (rev ds)) by now apply List.Forall_rev.
  apply rev_involutive.
Qed.

Lemma int_of_str_digits (ds : list ascii) :
  digits ds -> ds <> [] -> Py.int_of_str ds = Some (decimal_value ds).
Proof.
  intros Hds Hne. unfold Py.int_of_str. rewrite (strip_digits ds Hds).
  pose proof (int_body_digits ds 0 false Hds (or_introl Hne)) as Hbody.
  replace (0 * 10 ^ Z.of_nat (length ds) + decimal_value ds)
    with (decimal_value ds) in Hbody by lia.
  destruct Hds as [|d ds Hd Hds]; [congruence|].
  rewrite <- Hbody. clear Hbody.
  destruct d as [[] [] [] [] [] [] [] []]; try reflexivity;
    vm_compute in Hd; discriminate.
Qed.

Lemma parse_digest_time_digits (s : string) (hs ms : list ascii) :
  chars s = hs ++ ":"%char :: ms ->
  digits hs -> digits ms -> hs <> [] -> ms <> [] ->
  parse_digest_time s = (decimal_value hs, decimal_value ms).
Proof.
  intros E Hh Hm Hhne Hmne. unfold parse_digest_time. rewrite E.
  rewrite (split_at_sep _ _ _ (digits_no_colon hs Hh)).
  rewrite (split_no_sep _ _ (digits_no_colon ms Hm)).
  cbn [map]. now rewrite (int_of_str_digits hs Hh Hhne), (int_of_str_digits ms Hm Hmne).
Qed.

(** X13.  Every time of day that [deadlines_configure] accepts
    ([strptime] with ["%H:%M"]) is read back by the digest loop as the
    hour and the minute that it writes in decimal, between 0:00 and 23:59:
    the 09:00 fallback of the loop is never taken for an accepted time. *)
Theorem accepted_time_is_read_back (s : string) :
  strptime_HM_ok s = true ->
  exists hs ms,
    chars s = hs ++ ":"%char :: ms
    /\ digits hs /\ digits ms
    /\ parse_digest_time s = (decimal_value hs, decimal_value ms)
    /\ 0 <= decimal_value hs <= 23
    /\ 0 <= decimal_value ms <= 59.
Proof.
  intros H.
  destruct (strptime_HM_shape s H) as (hs & ms & E & Hhne & Hmne & Hh & Hm & Rh & Rm).
  exists hs, ms. repeat apply conj; auto; try lia.
  now apply parse_digest_time_digits.
Qed.

Lemma accepted_time_is_read_back_witness :
  exists hs ms,
    parse_digest_time "7:05" = (decimal_value hs, decimal_value ms)
    /\ 0 <= decimal_value hs <= 23 /\ 0 <= decimal_value ms <= 59.
Proof.
  destruct (accepted_time_is_read_back "7:05") as (hs & ms & _ & _ & _ & E & Rh & Rm).
  - reflexivity.
  - exists hs, ms. auto.
Defined.

Lemma accepted_time_truthy (s : string) :
  strptime_HM_ok s = true -> Py.truthy (Some s) = true.
Proof. destruct s; [discriminate | reflexivity]. Qed.

(** X14.  After [deadlines_configure] with an accepted time and a channel
    id other than 0, the digest of the guild is due exactly when the local
    time in the stored timezone has the configured hour and minute, and it
    then goes to the configured channel; with the channel id 0 it is never
    due.  With a time that [strptime] rejects the command replies so and
    the store is untouched. *)
Theorem configured_digest_due (zi : string -> bool) (g ch : Z) (hhmm : string)
    (tz : option string) (c : Conn) (env : DigestEnv) :
  let c' := (deadlines_configure zi g ch hhmm tz c).2 in
  let stored := create_tz tz (get_config c g) in
  let t := de_astimezone env
             (parse_timezone (de_zoneinfo env) (Py.or_else stored (Some "UTC"%string))) in
  (strptime_HM_ok hhmm = false ->
   deadlines_configure zi g ch hhmm tz c = (Replied InvalidTimeFormat, c))
  /\ (strptime_HM_ok hhmm = true ->
      (ch = 0 -> digest_due env c' g = None)
      /\ (ch <> 0 ->
          digest_due env c' g
          = if (lt_hour t =? (parse_digest_time hhmm).1)
               && (lt_minute t =? (parse_digest_time hhmm).2)
            then Some (ch, t) else None)).
Proof.
  cbn zeta. split.
  - intros Hbad. unfold deadlines_configure. now rewrite Hbad.
  - intros Hok.
    assert (Hcfg : exists row,
              get_config (deadlines_configure zi g ch hhmm tz c).2 g = Some row
              /\ Config.timezone row = create_tz tz (get_config c g)
              /\ Config.deadlines_channel_id row = Some ch
              /\ Config.deadlines_digest_time row = Some hhmm).
    { unfold deadlines_configure. rewrite Hok. cbn [negb]. cbn zeta. cbn [snd].
      destruct (upsert_config_round_trip g
                  (mkKwargs (Some (Some ch)) (Some (Some hhmm))
                     (Some (Py.or_else tz
                              match get_config c g with
                              | Some row => Config.timezone row
                              | None => Some "UTC"%string
                              end))) c)
        as ((row & Hrow & Htz & Hch & Htime & _) & _).
      exists row. cbn in *. auto. }
    destruct Hcfg as (row & Hrow & Htz & Hch & Htime).
    unfold digest_due. rewrite Hrow, Hch, Htime, Htz.
    replace (Py.or_else (Some hhmm) (Some "09:00"%string)) with (Some hhmm)
      by (unfold Py.or_else; now rewrite (accepted_time_truthy hhmm Hok)).
    change (default "09:00"%string (Some hhmm)) with hhmm.
    split.
    + intros ->. reflexivity.
    + intros Hne. rewrite (proj2 (Z.eqb_neq ch 0) Hne).
      destruct (parse_digest_time hhmm) as [h m]. reflexivity.
Qed.

Lemma configured_digest_due_witness :
  digest_due (sample_digest_env true) sample_configured 42 = Some (6, sample_local)
  /\ deadlines_configure (fun _ => false) 42 6 "24:00" None fresh_conn
     = (Replied InvalidTimeFormat, fresh_conn).
Proof.
  destruct (configured_digest_due (fun _ => false) 42 6 "09:00" None fresh_conn
              (sample_digest_env true)) as [_ Hok].
  destruct (configured_digest_due (fun _ => false) 42 6 "24:00" None fresh_conn
              (sample_digest_env true)) as [Hbad _].
  split.
  - destruct (Hok eq_refl) as [_ Hdue]. unfold sample_configured.
    rewrite Hdue by discriminate. reflexivity.
  - apply Hbad. reflexivity.
Defined.

(** ** Digest poller: contents and independence of guilds *)

Lemma due_ts_le_total : Total due_ts_le.
Proof. intros a b. unfold due_ts_le. lia. Qed.

Lemma query_upcoming_elem (c : Conn) (g start_ts end_ts : Z)
    (id : Z) (name : string) (due : Z) (tz : string) :
  (id, name, due, tz) ∈ query_upcoming c g start_ts end_ts
  <-> exists p, projects (view c) !! id = Some p
                /\ Project.guild_id p = g
                /\ start_ts <= Project.due_ts p <= end_ts
                /\ name = Project.name p /\ due = Project.due_ts p
                /\ tz = Project.tz p.
Proof.
  unfold query_upcoming. rewrite merge_sort_Permutation, list_elem_of_omap. split.
  - intros ([k p] & Hkv & Hf). apply elem_of_map_to_list in Hkv. cbn [fst snd] in Hf.
    destruct (Z.eqb_spec (Project.guild_id p) g); [|discriminate].
    destruct (Z.leb_spec start_ts (Project.due_ts p)); [|discriminate].
    destruct (Z.leb_spec (Project.due_ts p) end_ts); [|discriminate].
    cbn in Hf. injection Hf as <- <- <- <-. exists p. repeat split; auto.
  - intros (p & Hp & Hg & [H1 H2] & -> & -> & ->). exists (id, p). split.
    + now apply elem_of_map_to_list.
    + cbn [fst snd]. rewrite (proj2 (Z.eqb_eq _ _) Hg).
      now rewrite (proj2 (Z.leb_le _ _) H1), (proj2 (Z.leb_le _ _) H2).
Qed.

(** X15.  When the digest of guild [g] is due and its key is not yet in
    the guard, every event that the evaluation adds is either a failure
    report or one [channel.send] carrying exactly the projects of guild
    [g] whose due instant lies between the local now and seven days later,
    in ascending order of due instant, and at least one of them: no
    project of another guild is ever listed and no empty digest is
    sent. *)
Theorem digest_lists_own_guild (env : DigestEnv) (b : Bot) (g cid : Z)
    (t : LocalTime) :
  digest_due env (conn b) g = Some (cid, t) ->
  let rows := query_upcoming (conn b) g (lt_timestamp t) (lt_timestamp_7d t) in
  (forall id name due tz,
     (id, name, due, tz) ∈ rows
     <-> exists p, projects (view (conn b)) !! id = Some p
                   /\ Project.guild_id p = g
                   /\ lt_timestamp t <= Project.due_ts p <= lt_timestamp_7d t
                   /\ name = Project.name p /\ due = Project.due_ts p
                   /\ tz = Project.tz p)
  /\ Sorted due_ts_le rows
  /\ (forall e, e ∈ trace (digest_step env b g) ->
        e ∈ trace b
        \/ (exists x, e = Printed (OfDigest g (lt_date t)) x)
        \/ (exists ch, e = Send (OfDigest g (lt_date t)) ch (DigestMessage rows)
                       /\ rows <> [])).
Proof.
  intros Hdue. cbn zeta. repeat apply conj.
  - intros. apply query_upcoming_elem.
  - apply (@Sorted_merge_sort _ due_ts_le _ due_ts_le_total).
  - intros e. rewrite (digest_step_due env b g cid t Hdue). cbn zeta.
    case_bool_decide; [now left|].
    unfold deliver_digest.
    set (b0 := set_cache _ b).
    change (conn b0) with (conn b). change (trace b0) with (trace b).
    destruct (resolve_channel (de_gateway env) b0 cid) as [x|ch].
    { cbn [log trace]. intros He. apply elem_of_cons in He as [->|He];
        [right; left; eauto | now left]. }
    destruct (query_upcoming (conn b) g (lt_timestamp t) (lt_timestamp_7d t))
      as [|row rows] eqn:Hq; [now left|].
    destruct (send (de_gateway env) (trace b) ch (DigestMessage (row :: rows)))
      as [x|[]]; cbn [log trace]; intros He.
    + apply elem_of_cons in He as [->|He]; [right; left; eauto|].
      apply elem_of_cons in He as [->|He]; [|now left].
      right. right. exists ch. split; [reflexivity | discriminate].
    + apply elem_of_cons in He as [->|He]; [|now left].
      right. right. exists ch. split; [reflexivity | discriminate].
Qed.

Lemma digest_lists_own_guild_witness :
  digest_due (sample_digest_env true) (conn (start sample_with_project)) 42
  = Some (6, sample_local)
  /\ Sorted due_ts_le
       (query_upcoming (conn (start sample_with_project)) 42
          (lt_timestamp sample_local) (lt_timestamp_7d sample_local)).
Proof.
  assert (H : digest_due (sample_digest_env true) (conn (start sample_with_project)) 42
              = Some (6, sample_local)) by (vm_compute; reflexivity).
  split; [exact H|].
  destruct (digest_lists_own_guild (sample_digest_env true)
              (start sample_with_project) 42 6 sample_local H) as (_ & Hs & _).
  exact Hs.
Defined.

(** *** Keys of the guard *)

Lemma pretty_N_char_no_colon (x : N) : pretty_N_char x <> ":"%char.
Proof. unfold pretty_N_char. repeat case_match; discriminate. Qed.

Lemma pretty_N_go_no_colon (x : N) (s : string) :
  no_colon s -> no_colon (pretty_N_go x s).
Proof.
  revert s. induction (N.lt_wf_0 x) as [x _ IH]; intros s Hs.
  assert (x = 0 \/ 0 < x)%N as [->|Hpos] by lia.
  - now rewrite pretty_N_go_0.
  - rewrite pretty_N_go_step by exact Hpos. apply IH.
    + now apply N.div_lt.
    + split; [apply pretty_N_char_no_colon | exact Hs].
Qed.

Lemma pretty_N_no_colon (x : N) : no_colon (pretty x).
Proof.
  unfold pretty, pretty_N. case_decide.
  - cbn. split; [discriminate | exact I].
  - now apply pretty_N_go_no_colon.
Qed.

Lemma pretty_Z_no_colon (x : Z) : no_colon (pretty x).
Proof.
  destruct x as [|p|p]; unfold pretty, pretty_Z.
  - cbn. split; [discriminate | exact I].
  - apply pretty_N_no_colon.
  - cbn. split; [discriminate|]. apply pretty_N_no_colon.
Qed.

Lemma append_colon_inj (s1 s2 d1 d2 : string) :
  no_colon s1 -> no_colon s2 ->
  s1 +:+ String ":" d1 = s2 +:+ String ":" d2 -> s1 = s2 /\ d1 = d2.
Proof.
  revert s2. induction s1 as [|c s1 IH]; intros [|c' s2] H1 H2; cbn.
  - intros [= ->]. auto.
  - intros [= <- _]. now destruct H2.
  - intros [= -> _]. now destruct H1.
  - intros [= <- E]. destruct H1 as [_ H1], H2 as [_ H2].
    destruct (IH s2 H1 H2 E) as [-> ->]. auto.
Qed.

Lemma digest_key_inj (g g' : Z) (d d' : string) :
  digest_key g d = digest_key g' d' -> g = g' /\ d = d'.
Proof.
  unfold digest_key. cbn [String.append].
  change (":" +:+ d) with (String ":" d). change (":" +:+ d') with (String ":" d').
  intros E.
  destruct (append_colon_inj _ _ _ _ (pretty_Z_no_colon g) (pretty_Z_no_colon g') E)
    as [Hg ->].
  split; [|reflexivity]. now apply (inj pretty).
Qed.

(** X16.  The keys of the debounce guard tell guilds and dates apart:
    two keys are equal only for the same guild and the same date text.  So
    the evaluation of one guild's digest never marks the digest of another
    guild, or of another date, as done, and never counts as a delivery for
    it. *)
Theorem digest_guard_per_guild (env : DigestEnv) (b : Bot) (g0 : Z) :
  (forall g g' d d', digest_key g d = digest_key g' d' -> g = g' /\ d = d')
  /\ (forall g d,
        (forall cid t, digest_due env (conn b) g0 = Some (cid, t) ->
                       (g, d) <> (g0, lt_date t)) ->
        (digest_key g d ∈ guard (digest_step env b g0) <-> digest_key g d ∈ guard b)
        /\ digests_for g d (trace (digest_step env b g0)) = digests_for g d (trace b)).
Proof.
  split; [intros; now apply digest_key_inj|].
  intros g d Hother. unfold digest_step, guard.
  destruct (digest_due env (conn b) g0) as [[cid t]|] eqn:Hdue; [|tauto].
  specialize (Hother cid t eq_refl).
  case_bool_decide as Hkey; [cbn; tauto|].
  destruct (deliver_digest_effect (de_gateway env) g0 cid t
              (set_cache ({[digest_key g0 (lt_date t)]} ∪ default ∅ (digest_cache b)) b))
    as (_ & Hdc & Hcnt & _).
  cbn zeta in Hcnt. specialize (Hcnt g d).
  rewrite bool_decide_eq_false_2 in Hcnt by (intros [-> ->]; now apply Hother).
  rewrite Hdc. cbn [set_cache digest_cache trace default] in *.
  split; [|lia]. unfold id. rewrite elem_of_union, elem_of_singleton. split; [|tauto].
  intros [E|H]; [|exact H].
  apply digest_key_inj in E as [-> ->]. now destruct Hother.
Qed.



(** ** Invariants of the store *)

Lemma sc_insert_project (row : Project.t) (t : Tables) :
  store_consistent t -> store_consistent (insert_project row t).2.
Proof.
  intros (H1 & H2 & H3). cbn. repeat split; cbn.
  - intros rid r Hr. destruct (H1 rid r Hr) as [p Hp].
    destruct (decide (seq_projects t + 1 = Reminder.project_id r)) as [<-|Hne].
    + rewrite lookup_insert_eq. eauto.
    + rewrite lookup_insert_ne by exact Hne. eauto.
  - exact H2.
  - intros pid [p Hp].
    destruct (decide (seq_projects t + 1 = pid)) as [<-|Hne]; [lia|].
    rewrite lookup_insert_ne in Hp by exact Hne.
    specialize (H3 pid (ex_intro _ p Hp)). lia.
Qed.

Lemma sc_insert_reminder (r : Reminder.t) (t : Tables) :
  store_consistent t -> is_Some (projects t !! Reminder.project_id r) ->
  store_consistent (insert_reminder r t).
Proof.
  intros (H1 & H2 & H3) Hp. repeat split; cbn.
  - intros rid r' Hr.
    destruct (decide (seq_reminders t + 1 = rid)) as [<-|Hne].
    + rewrite lookup_insert_eq in Hr. now injection Hr as <-.
    + rewrite lookup_insert_ne in Hr by exact Hne. eauto.
  - intros rid [r' Hr].
    destruct (decide (seq_reminders t + 1 = rid)) as [<-|Hne]; [lia|].
    rewrite lookup_insert_ne in Hr by exact Hne.
    specialize (H2 rid (ex_intro _ r' Hr)). lia.
  - exact H3.
Qed.

Lemma sc_fold_insert (rows : list Reminder.t) (t : Tables) :
  store_consistent t ->
  Forall (fun r => is_Some (projects t !! Reminder.project_id r)) rows ->
  store_consistent (fold_left (fun t r => insert_reminder r t) rows t).
Proof.
  revert t. induction rows as [|r rows IH]; intros t Hsc Hall; [exact Hsc|].
  cbn [fold_left]. apply Forall_cons in Hall as [Hr Hall].
  apply IH; [now apply sc_insert_reminder | exact Hall].
Qed.

Lemma sc_delete_project (pid : Z) (t : Tables) :
  store_consistent t -> store_consistent (delete_project pid t).2.
Proof.
  intros (H1 & H2 & H3). repeat split; cbn.
  - intros rid r Hr. apply map_lookup_filter_Some in Hr as [Hr Hne]. cbn in Hne.
    rewrite lookup_delete_ne by congruence. eauto.
  - intros rid [r Hr]. apply map_lookup_filter_Some in Hr as [Hr _]. eauto.
  - intros q [p Hp]. destruct (decide (pid = q)) as [->|Hne].
    + now rewrite lookup_delete_eq in Hp.
    + rewrite lookup_delete_ne in Hp by exact Hne. eauto.
Qed.

Lemma sc_update_sent (rid : Z) (t : Tables) :
  store_consistent t -> store_consistent (update_sent rid t).
Proof.
  intros (H1 & H2 & H3). repeat split; cbn; [| |exact H3].
  - intros k r Hr. rewrite lookup_alter in Hr. case_decide.
    + subst k. destruct (reminders t !! rid) as [r0|] eqn:E; [|discriminate].
      cbn in Hr. injection Hr as <-. cbn. eauto.
    + eauto.
  - intros k [r Hr]. rewrite lookup_alter in Hr. case_decide; [|eauto].
    subst k. destruct (reminders t !! rid) as [r0|] eqn:E; [|discriminate]. eauto.
Qed.

Lemma sc_config (t : Tables) (cfg : gmap Z Config.t) :
  store_consistent t ->
  store_consistent (mkTables cfg (projects t) (reminders t) (seq_projects t)
                      (seq_reminders t)).
Proof. intros H. exact H. Qed.

Lemma cc_upsert_config (g : Z) (kw : ConfigKwargs) (c : Conn) :
  conn_consistent c -> conn_consistent (upsert_config g kw c).
Proof.
  intros [Hv _]. unfold upsert_config.
  destruct (config (view c) !! g); cbn; split; apply sc_config; exact Hv.
Qed.

Lemma cc_project_create (env : CreateEnv) (a : CreateArgs) (c : Conn) :
  conn_consistent c -> conn_consistent (project_create env a c).2.
Proof.
  intros Hcc. unfold project_create.
  destruct (ca_guild_id a) as [g|]; [|exact Hcc]. cbn zeta.
  destruct (ce_due_timestamp env _ _) as [due|]; [|exact Hcc].
  destruct (due <=? ce_now_utc env + 60); [exact Hcc|].
  destruct (compute_offsets _ _ _) as [[]|offsets]; try exact Hcc.
  destruct (create_tz _ _) as [tzt|]; [|exact Hcc].
  set (row := Project.mk _ _ _ _ _ _ _ _ _).
  set (ts := with_fallback _ _ _).
  destruct Hcc as [Hv Hc].
  unfold execute_with.
  destruct (ce_fault_project env) as [[]|]; [split; assumption | split; assumption|].
  cbn [insert_project].
  set (t1 := mkTables _ _ _ _ _).
  assert (Ht1 : store_consistent t1) by exact (sc_insert_project row _ Hv).
  set (rows := reminder_rows _ _ ts).
  assert (Hrows : forall l, (exists k, l = take k rows) ->
            store_consistent (fold_left (fun t r => insert_reminder r t) l t1)).
  { intros l [k ->]. apply sc_fold_insert; [exact Ht1|].
    apply Forall_forall. intros r Hr.
    apply elem_of_take in Hr as (i & Hr & _).
    unfold rows, reminder_rows in Hr. rewrite list_lookup_fmap in Hr.
    destruct (ts !! i); [|discriminate]. cbn in Hr. injection Hr as <-.
    cbn. unfold t1. cbn. rewrite lookup_insert_eq. eauto. }
  unfold executemany_with.
  destruct (ce_fault_reminders env) as [[k []]|]; cbn [snd view committed].
  - split; [|exact Ht1]. apply Hrows. now exists k.
  - split; exact Ht1.
  - assert (store_consistent (fold_left (fun t r => insert_reminder r t) rows t1)).
    { apply Hrows. exists (length rows). now rewrite firstn_all. }
    split; assumption.
Qed.

Lemma cc_add_reminder_loop (pid now due : Z) (offs : list Z) (c : Conn) :
  conn_consistent c -> is_Some (projects (view c) !! pid) ->
  conn_consistent (add_reminder_loop pid now due offs c).2.
Proof.
  revert c. induction offs as [|off rest IH]; intros c Hcc Hp; [exact Hcc|].
  cbn [add_reminder_loop]. destruct (now + 30 <? due - off); [|now apply IH].
  set (c1 := (execute _ c).2).
  assert (Hc1 : conn_consistent c1 /\ is_Some (projects (view c1) !! pid)).
  { unfold c1. cbn. destruct Hcc as [Hv _].
    assert (store_consistent (insert_reminder (Reminder.mk pid (due - off) 0 1 None)
                                (view c)))
      by (apply sc_insert_reminder; [exact Hv | exact Hp]).
    repeat split; try apply H. exact Hp. }
  specialize (IH c1 (proj1 Hc1) (proj2 Hc1)).
  destruct (add_reminder_loop pid now due rest c1). exact IH.
Qed.

Lemma cc_project_add_reminder (now : Z) (g : option Z) (pid : Z) (off : string)
    (c : Conn) :
  conn_consistent c -> conn_consistent (project_add_reminder now g pid off c).2.
Proof.
  intros Hcc. unfold project_add_reminder, query_project.
  destruct (projects (view c) !! pid) as [p|] eqn:Hp; [|exact Hcc].
  case_bool_decide; [|exact Hcc].
  destruct (parse_offset_str off) as [[]|offs]; try exact Hcc.
  pose proof (cc_add_reminder_loop pid now (Project.due_ts p) offs c Hcc
                (ex_intro _ p Hp)) as Hloop.
  destruct (add_reminder_loop _ _ _ _ _) as [[|] c1]; exact Hloop.
Qed.

Lemma cc_project_delete (g : option Z) (pid : Z) (c : Conn) :
  conn_consistent c -> conn_consistent (project_delete g pid c).2.
Proof.
  intros Hcc. unfold project_delete.
  destruct (query_project c pid g); [|exact Hcc].
  cbn. destruct Hcc as [Hv _].
  split; exact (sc_delete_project pid _ Hv).
Qed.

Lemma cc_mark_conn (c : Conn) (rid : Z) :
  conn_consistent c -> conn_consistent (mark_conn c rid).
Proof. intros [Hv _]. cbn. split; now apply sc_update_sent. Qed.

Lemma cc_reminder_loop (gw : Gateway) (now : Z) (b : Bot) :
  conn_consistent (conn b) -> conn_consistent (conn (_reminder_loop gw now b)).
Proof.
  intros Hcc. destruct (reminder_loop_effect gw now b) as (-> & _).
  generalize (DueRow.rid <$> query_due (conn b) (now - 60) (now + 30)).
  intros rids. revert Hcc. generalize (conn b).
  induction rids as [|rid rids IH]; intros c Hcc; [exact Hcc|].
  cbn [fold_left]. apply IH. now apply cc_mark_conn.
Qed.

Lemma cc_run_command (cmd : Command) (c : Conn) :
  conn_consistent c -> conn_consistent (run_command cmd c).
Proof.
  intros Hcc. destruct cmd; cbn [run_command].
  - now apply cc_project_create.
  - now apply cc_project_add_reminder.
  - now apply cc_project_delete.
  - unfold deadlines_configure. destruct (negb _); [exact Hcc|].
    cbn. now apply cc_upsert_config.
  - unfold deadlines_timezone. now apply cc_upsert_config.
  - now apply (cc_reminder_loop gw now (start c)).
Qed.

Lemma cc_run_commands (cmds : list Command) : conn_consistent (run_commands cmds).
Proof.
  unfold run_commands.
  assert (H0 : conn_consistent fresh_conn).
  { split; repeat split; cbn; intros; try (rewrite lookup_empty in *);
      try match goal with H : is_Some None |- _ => destruct H; discriminate end;
      discriminate. }
  revert H0. generalize fresh_conn.
  induction cmds as [|cmd cmds IH]; intros c Hc; [exact Hc|].
  cbn [fold_left]. apply IH. now apply cc_run_command.
Qed.

(** X18.  Whatever commands and poll cycles ran on a new database, and
    whichever statements failed, every stored reminder belongs to a
    stored project and no stored id is above its [AUTOINCREMENT] counter,
    both in what the connection sees and in what is committed.  Hence a
    further [project_create] takes an unused id and overwrites nothing,
    and the poller's join drops no trigger: every unsent reminder whose
    fire instant is in the window is selected. *)
Theorem store_integrity (cmds : list Command) :
  let c := run_commands cmds in
  store_consistent (view c)
  /\ store_consistent (committed c)
  /\ (forall env a pid due ts c',
        project_create env a c = (Replied (ProjectCreated pid due ts), c') ->
        projects (view c) !! pid = None
        /\ (forall q p, projects (view c) !! q = Some p ->
                        projects (view c') !! q = Some p)
        /\ (forall k r, reminders (view c) !! k = Some r ->
                        reminders (view c') !! k = Some r))
  /\ (forall now k r,
        reminders (view c) !! k = Some r -> Reminder.sent r = 0 ->
        now - 60 <= Reminder.remind_ts r <= now + 30 ->
        k ∈ DueRow.rid <$> query_due c (now - 60) (now + 30)).
Proof.
  cbn zeta. destruct (cc_run_commands cmds) as [Hv Hc].
  set (c := run_commands cmds) in *.
  split; [exact Hv|]. split; [exact Hc|]. split.
  - intros env a pid due ts c' Hrun.
    destruct (project_create_success _ _ _ _ _ _ _ Hrun)
      as (g & tzt & offsets & _ & _ & Hpid & Hview & _).
    destruct Hv as (_ & H2 & H3).
    destruct (insert_reminders_fold (reminder_rows pid (ca_custom_offsets a) ts)
                (insert_project (project_row env a g tzt due) (view c)).2)
      as (_ & Hp & _ & _ & _ & Hold).
    cbn zeta in Hp, Hold. rewrite <- Hview in Hp, Hold.
    cbn [insert_project snd projects reminders seq_reminders] in Hp, Hold.
    assert (Hfresh : projects (view c) !! pid = None).
    { destruct (projects (view c) !! pid) as [p|] eqn:E; [|reflexivity].
      specialize (H3 pid (ex_intro _ p E)). lia. }
    repeat apply conj; [exact Hfresh | |].
    + intros q p Hq. rewrite Hp, <- Hpid. rewrite lookup_insert_ne; [exact Hq|].
      intros ->. congruence.
    + intros k r Hk. rewrite Hold; [exact Hk|].
      left. apply H2. eauto.
  - intros now k r Hr Hsent Hw.
    apply (query_due_complete c _ _ k r Hr Hsent Hw).
    destruct Hv as (H1 & _). eauto.
Qed.

(** ** The weekly schedule *)

(** *** Times of day *)

Lemma read_time_digits (s : string) (hs ms : list ascii) :
  chars s = hs ++ ":"%char :: ms ->
  digits hs -> digits ms -> hs <> [] -> ms <> [] ->
  0 <= decimal_value hs <= 23 -> 0 <= decimal_value ms <= 59 ->
  read_time s = inr (decimal_value hs, decimal_value ms).
Proof.
  intros E Hh Hm Hhne Hmne Rh Rm. unfold read_time. rewrite E.
  rewrite (split_at_sep _ _ _ (digits_no_colon hs Hh)).
  rewrite (split_no_sep _ _ (digits_no_colon ms Hm)).
  rewrite (int_of_str_digits hs Hh Hhne), (int_of_str_digits ms Hm Hmne).
  replace (0 <=? decimal_value hs) with true by (symmetry; apply Z.leb_le; lia).
  replace (decimal_value hs <=? 23) with true by (symmetry; apply Z.leb_le; lia).
  replace (0 <=? decimal_value ms) with true by (symmetry; apply Z.leb_le; lia).
  replace (decimal_value ms <=? 59) with true by (symmetry; apply Z.leb_le; lia).
  reflexivity.
Qed.

Lemma read_time_range (s : string) (h m : Z) :
  read_time s = inr (h, m) -> 0 <= h <= 23 /\ 0 <= m <= 59.
Proof.
  unfold read_time.
  destruct (Py.split ":" (chars s)) as [|hs [|ms [|]]]; try discriminate.
  destruct (Py.int_of_str hs) as [h'|]; [|discriminate].
  destruct (Py.int_of_str ms) as [m'|]; [|discriminate].
  destruct (negb _) eqn:Hr; [discriminate|].
  intros [= <- <-]. apply negb_false_iff in Hr.
  repeat (apply andb_true_iff in Hr as [Hr ?]). lia.
Qed.

Lemma in_seqZ (a n x : Z) : a <= x < a + n -> In x (seqZ a n).
Proof. intros H. apply list_elem_of_In, elem_of_seqZ. exact H. Qed.

Lemma format_time_facts (h m : Z) :
  0 <= h <= 23 -> 0 <= m <= 59 ->
  String.length (format_time (h, m)) = 5%nat
  /\ strptime_HM_ok (format_time (h, m)) = true
  /\ read_time (format_time (h, m)) = inr (h, m).
Proof.
  intros Hh Hm.
  assert (Hall :
    forallb (fun h =>
      forallb (fun m =>
        let t := format_time (h, m) in
        (String.length t =? 5)%nat && strptime_HM_ok t
        && match read_time t with
           | inr (h', m') => (h' =? h) && (m' =? m)
           | inl _ => false
           end) (seqZ 0 60)) (seqZ 0 24) = true) by (vm_compute; reflexivity).
  rewrite forallb_forall in Hall.
  specialize (Hall h (in_seqZ 0 24 h ltac:(lia))).
  rewrite forallb_forall in Hall.
  specialize (Hall m (in_seqZ 0 60 m ltac:(lia))). cbn zeta in Hall.
  apply andb_true_iff in Hall as [Hall Hr].
  apply andb_true_iff in Hall as [Hl Hs].
  apply Nat.eqb_eq in Hl. split; [exact Hl|]. split; [exact Hs|].
  destruct (read_time (format_time (h, m))) as [|[h' m']]; [discriminate|].
  apply andb_true_iff in Hr as [E1 E2].
  apply Z.eqb_eq in E1, E2. now subst.
Qed.

Lemma format_time_order (h1 m1 h2 m2 : Z) :
  0 <= h1 <= 23 -> 0 <= m1 <= 59 -> 0 <= h2 <= 23 -> 0 <= m2 <= 59 ->
  String.leb (format_time (h1, m1)) (format_time (h2, m2))
  = (minute_of_day (h1, m1) <=? minute_of_day (h2, m2)).
Proof.
  intros Hh1 Hm1 Hh2 Hm2.
  assert (Hall :
    let l := (fun n => (n, format_time (n `div` 60, n `mod` 60))) <$> seqZ 0 1440 in
    forallb (fun x : Z * string =>
      forallb (fun y : Z * string =>
        Bool.eqb (String.leb x.2 y.2) (x.1 <=? y.1)) l) l = true)
    by (vm_compute; reflexivity).
  cbn zeta in Hall. rewrite forallb_forall in Hall.
  assert (Hin : forall h m, 0 <= h <= 23 -> 0 <= m <= 59 ->
            In (minute_of_day (h, m), format_time (h, m))
               ((fun n => (n, format_time (n `div` 60, n `mod` 60))) <$> seqZ 0 1440)).
  { intros h m Hh Hm. apply list_elem_of_In, list_elem_of_fmap.
    exists (60 * h + m). split.
    - unfold minute_of_day. cbn [fst snd]. f_equal. f_equal. f_equal.
      + apply (Z.div_unique _ 60 h m); lia.
      + apply (Z.mod_unique _ 60 h m); lia.
    - apply elem_of_seqZ. lia. }
  specialize (Hall _ (Hin h1 m1 Hh1 Hm1)).
  rewrite forallb_forall in Hall.
  specialize (Hall _ (Hin h2 m2 Hh2 Hm2)). cbn [fst snd] in Hall.
  now apply Bool.eqb_prop in Hall.
Qed.

(** X19.  [validate_time] returns a canonical text: five characters
    ["HH:MM"] with the hour in 00..23 and the minute in 00..59, which
    [strptime] with ["%H:%M"] accepts, which denotes the hour and minute
    that were read, and which [validate_time] maps to itself. *)
Theorem validate_time_canonical (hhmm t : string) :
  validate_time hhmm = inr t ->
  exists h m,
    read_time hhmm = inr (h, m)
    /\ 0 <= h <= 23 /\ 0 <= m <= 59
    /\ String.length t = 5%nat
    /\ strptime_HM_ok t = true
    /\ read_time t = inr (h, m)
    /\ validate_time t = inr t.
Proof.
  unfold validate_time at 1.
  destruct (read_time hhmm) as [e|[h m]] eqn:Hr; [discriminate|].
  intros [= <-]. destruct (read_time_range _ _ _ Hr) as [Hh Hm].
  destruct (format_time_facts h m Hh Hm) as (Hl & Hs & Hrt).
  exists h, m. repeat apply conj; auto; try lia.
  unfold validate_time. now rewrite Hrt.
Qed.

Lemma validate_time_canonical_witness :
  validate_time " 7 : 5 " = inr "07:05"%string
  /\ exists h m, read_time "07:05" = inr (h, m) /\ validate_time "07:05" = inr "07:05"%string.
Proof.
  assert (H : validate_time " 7 : 5 " = inr "07:05"%string) by (vm_compute; reflexivity).
  split; [exact H|].
  destruct (validate_time_canonical " 7 : 5 " "07:05" H)
    as (h & m & _ & _ & _ & _ & _ & Hr & Hv).
  exists h, m. split; [exact Hr | exact Hv].
Defined.

(** X20.  Every time of day that [deadlines_configure] accepts is
    accepted by [validate_time] too, with the hour and minute that the
    digest loop reads from it; [validate_time] stores it with two digits
    each. *)
Theorem digest_time_is_schedule_time (s : string) :
  strptime_HM_ok s = true ->
  read_time s = inr (parse_digest_time s)
  /\ validate_time s = inr (format_time (parse_digest_time s))
  /\ String.length (format_time (parse_digest_time s)) = 5%nat.
Proof.
  intros H.
  destruct (strptime_HM_shape s H) as (hs & ms & E & Hhne & Hmne & Hh & Hm & Rh & Rm).
  rewrite (parse_digest_time_digits s hs ms E Hh Hm Hhne Hmne).
  pose proof (read_time_digits s hs ms E Hh Hm Hhne Hmne Rh Rm) as Hr.
  split; [exact Hr|]. split.
  - unfold validate_time. now rewrite Hr.
  - now apply format_time_facts.
Qed.

Lemma digest_time_is_schedule_time_witness :
  strptime_HM_ok "7:05" = true /\ validate_time "7:05" = inr "07:05"%string.
Proof.
  assert (H : strptime_HM_ok "7:05" = true) by reflexivity.
  split; [exact H|].
  destruct (digest_time_is_schedule_time "7:05" H) as (_ & Hv & _). exact Hv.
Defined.

(** X21.  On the texts that [validate_time] returns, the order of
    [ORDER BY start_time] (a comparison of text) is the order of the
    times of day. *)
Theorem start_time_order (a b s t : string) :
  validate_time a = inr s -> validate_time b = inr t ->
  exists hm1 hm2,
    read_time a = inr hm1 /\ read_time b = inr hm2
    /\ (text_le s t <-> minute_of_day hm1 <= minute_of_day hm2).
Proof.
  unfold validate_time.
  destruct (read_time a) as [|[h1 m1]] eqn:Ha; [discriminate|].
  destruct (read_time b) as [|[h2 m2]] eqn:Hb; [discriminate|].
  intros [= <-] [= <-]. exists (h1, m1), (h2, m2).
  split; [reflexivity|]. split; [reflexivity|].
  destruct (read_time_range _ _ _ Ha) as [? ?].
  destruct (read_time_range _ _ _ Hb) as [? ?].
  unfold text_le. rewrite format_time_order by assumption.
  apply Z.leb_le.
Qed.

Lemma start_time_order_witness :
  validate_time "9:30" = inr "09:30"%string
  /\ validate_time "10:00" = inr "10:00"%string
  /\ text_le "09:30" "10:00".
Proof.
  assert (Ha : validate_time "9:30" = inr "09:30"%string) by (vm_compute; reflexivity).
  assert (Hb : validate_time "10:00" = inr "10:00"%string) by (vm_compute; reflexivity).
  split; [exact Ha|]. split; [exact Hb|].
  destruct (start_time_order "9:30" "10:00" "09:30" "10:00" Ha Hb)
    as (hm1 & hm2 & E1 & E2 & Hiff).
  apply Hiff. vm_compute in E1, E2.
  injection E1 as <-. injection E2 as <-. vm_compute. discriminate.
Defined.

(** *** Day names *)

Lemma dropwhile_app_l {A : Type} (f : A -> bool) (l r : list A) :
  Py.dropwhile f l <> [] -> Py.dropwhile f (l ++ r) = Py.dropwhile f l ++ r.
Proof.
  induction l as [|x l IH]; cbn; [congruence|].
  destruct (f x); [exact IH | reflexivity].
Qed.

Lemma strip_pad (ws1 s ws2 : list ascii) :
  blank ws1 -> blank ws2 -> Py.strip (ws1 ++ s ++ ws2) = Py.strip s.
Proof.
  intros H1 H2.
  destruct (Py.dropwhile Py.isspace s) as [|c r] eqn:Hs.
  - pose proof (dropwhile_nil_all _ _ Hs) as Hb.
    rewrite (strip_blank s Hb). apply strip_blank.
    unfold blank in *. rewrite !Forall_app. auto.
  - unfold Py.strip, Py.lstrip, Py.rstrip.
    rewrite (dropwhile_app _ ws1 _ H1).
    rewrite dropwhile_app_l by (rewrite Hs; discriminate).
    rewrite rev_app_distr. rewrite dropwhile_app; [reflexivity|].
    now apply List.Forall_rev.
Qed.

Lemma isspace_lower (c : ascii) : Py.isspace (Py.lower c) = Py.isspace c.
Proof. destruct c as [[] [] [] [] [] [] [] []]; reflexivity. Qed.

Lemma lower_lower (c : ascii) : Py.lower (Py.lower c) = Py.lower c.
Proof. destruct c as [[] [] [] [] [] [] [] []]; reflexivity. Qed.

Lemma dropwhile_lower (l : list ascii) :
  Py.dropwhile Py.isspace (map Py.lower l) = map Py.lower (Py.dropwhile Py.isspace l).
Proof.
  induction l as [|c l IH]; [reflexivity|].
  cbn [map Py.dropwhile]. rewrite isspace_lower.
  destruct (Py.isspace c); [exact IH | reflexivity].
Qed.

Lemma strip_lower (l : list ascii) :
  Py.strip (map Py.lower l) = map Py.lower (Py.strip l).
Proof.
  unfold Py.strip, Py.lstrip, Py.rstrip.
  now rewrite dropwhile_lower, <- map_rev, dropwhile_lower, map_rev.
Qed.

Lemma parse_day_name (day : string) (d : Z) :
  parse_day day = inr d ->
  0 <= d <= 6
  /\ exists name,
       day_names !! Z.to_nat d = Some name
       /\ take 3 (map Py.lower (Py.strip (chars day))) = map Py.lower (chars name).
Proof.
  unfold parse_day, dict_get, WEEKDAY_MAP.
  remember (text (map Py.lower (Py.strip (chars day)))) as k eqn:Hk.
  apply (f_equal list_ascii_of_string) in Hk.
  rewrite list_ascii_of_string_of_list_ascii in Hk. rewrite <- Hk.
  cbn [List.find fst snd].
  repeat match goal with
         | |- context [String.eqb ?a k] =>
             destruct (String.eqb_spec a k) as [<-|_];
             [intros [= <-]; split; [lia|]; eexists; split; reflexivity|]
         end.
  discriminate.
Qed.

(** X22.  [parse_day] returns a weekday number from 0 to 6, the index in
    [day_names] of the name whose three letters begin the given text
    (case and surrounding whitespace apart); and its result does not
    depend on surrounding whitespace nor on the case of the letters. *)
Theorem parse_day_spec (day : string) :
  (forall d, parse_day day = inr d ->
     0 <= d <= 6
     /\ exists name,
          day_names !! Z.to_nat d = Some name
          /\ take 3 (map Py.lower (Py.strip (chars day))) = map Py.lower (chars name))
  /\ (forall ws1 ws2, blank ws1 -> blank ws2 ->
        parse_day (text (ws1 ++ chars day ++ ws2)) = parse_day day)
  /\ parse_day (text (map Py.lower (chars day))) = parse_day day.
Proof.
  split; [|split].
  - intros d. apply parse_day_name.
  - intros ws1 ws2 H1 H2. unfold parse_day.
    now rewrite list_ascii_of_string_of_list_ascii, strip_pad.
  - unfold parse_day.
    now rewrite list_ascii_of_string_of_list_ascii, strip_lower, map_map,
      (map_ext _ _ lower_lower).
Qed.

(** *** The table of schedule entries *)

Lemma validate_time_is_canonical (hhmm t : string) :
  validate_time hhmm = inr t -> canonical_time t.
Proof.
  unfold validate_time.
  destruct (read_time hhmm) as [e|[h m]] eqn:Hr; [discriminate|].
  intros [= <-]. destruct (read_time_range _ _ _ Hr) as [Hh Hm].
  now exists h, m.
Qed.

Lemma canonical_text_le (s t : string) :
  canonical_time s -> canonical_time t ->
  text_le s t <-> minutes_of s <= minutes_of t.
Proof.
  intros (h1 & m1 & Hh1 & Hm1 & ->) (h2 & m2 & Hh2 & Hm2 & ->).
  unfold text_le, minutes_of.
  destruct (format_time_facts h1 m1 Hh1 Hm1) as (_ & _ & ->).
  destruct (format_time_facts h2 m2 Hh2 Hm2) as (_ & _ & ->).
  rewrite format_time_order by assumption. apply Z.leb_le.
Qed.

Lemma parse_day_truthy (day : string) (wd : Z) :
  parse_day day = inr wd -> Py.truthy (Some day) = true.
Proof. destruct day; [discriminate | reflexivity]. Qed.

Lemma schedule_add_ok (g : option Z) (day subject st en : string)
    (notes : option string) (s : Schedules) :
  rows_ok s -> rows_ok (schedule_add g day subject st en notes s).2.
Proof.
  intros Hok. unfold schedule_add.
  destruct (parse_day day) as [|wd] eqn:Hd; [exact Hok|].
  destruct (validate_time st) as [|a] eqn:Ha; [exact Hok|].
  destruct (validate_time en) as [|b] eqn:Hb; [exact Hok|].
  destruct g as [gid|]; [|exact Hok].
  intros id r. cbn [snd schedule_rows seq_schedules].
  destruct (decide (seq_schedules s + 1 = id)) as [<-|Hne].
  - rewrite lookup_insert_eq. intros [= <-]. split; [|lia].
    repeat split; cbn.
    + apply (parse_day_name day wd Hd).
    + apply (parse_day_name day wd Hd).
    + exact (validate_time_is_canonical _ _ Ha).
    + exact (validate_time_is_canonical _ _ Hb).
    + eauto.
  - rewrite lookup_insert_ne by exact Hne. intros Hr.
    destruct (Hok id r Hr). split; [assumption | lia].
Qed.

Lemma schedule_clear_rows (g : option Z) (day : string) (wd : Z) (s : Schedules)
    (id : Z) (r : Schedule.t) :
  parse_day day = inr wd ->
  schedule_rows (schedule_clear g day s).2 !! id = Some r
  <-> schedule_rows s !! id = Some r
      /\ ~ (g = Some (Schedule.guild_id r) /\ Schedule.weekday r = wd).
Proof.
  intros Hd. unfold schedule_clear. rewrite Hd. cbn [snd schedule_rows].
  rewrite map_lookup_filter_Some. cbn [snd]. tauto.
Qed.

Lemma schedule_clear_ok (g : option Z) (day : string) (s : Schedules) :
  rows_ok s -> rows_ok (schedule_clear g day s).2.
Proof.
  intros Hok. destruct (parse_day day) as [e|wd] eqn:Hd.
  - unfold schedule_clear. now rewrite Hd.
  - intros id r Hr. apply (schedule_clear_rows g day wd s id r Hd) in Hr as [Hr _].
    unfold schedule_clear. rewrite Hd. cbn [snd seq_schedules]. now apply Hok.
Qed.

Lemma run_schedule_commands_ok (cmds : list ScheduleCommand) :
  rows_ok (run_schedule_commands cmds).
Proof.
  unfold run_schedule_commands.
  assert (H0 : rows_ok no_schedules).
  { intros id r Hr. cbn in Hr. now rewrite lookup_empty in Hr. }
  revert H0. generalize no_schedules.
  induction cmds as [|cmd cmds IH]; intros s Hs; [exact Hs|].
  cbn [fold_left]. apply IH. destruct cmd; cbn [run_schedule_command].
  - now apply schedule_add_ok.
  - now apply schedule_clear_ok.
Qed.

Lemma query_day_elem (s : Schedules) (g : option Z) (wd : Z) (r : Schedule.t) :
  r ∈ query_day s g wd
  <-> (exists id, schedule_rows s !! id = Some r)
      /\ g = Some (Schedule.guild_id r) /\ Schedule.weekday r = wd.
Proof.
  unfold query_day. rewrite merge_sort_Permutation.
  rewrite list_elem_of_In, filter_In, <- list_elem_of_In.
  rewrite andb_true_iff, bool_decide_eq_true, Z.eqb_eq.
  rewrite list_elem_of_fmap. split.
  - intros [([id r'] & -> & Hin) ?]. apply elem_of_map_to_list in Hin.
    split; [eauto | assumption].
  - intros [[id Hr] ?]. split; [|assumption].
    exists (id, r). split; [reflexivity|]. now apply elem_of_map_to_list.
Qed.

Lemma query_week_elem (s : Schedules) (g : option Z) (r : Schedule.t) :
  r ∈ query_week s g
  <-> (exists id, schedule_rows s !! id = Some r) /\ g = Some (Schedule.guild_id r).
Proof.
  unfold query_week. rewrite merge_sort_Permutation.
  rewrite list_elem_of_In, filter_In, <- list_elem_of_In.
  rewrite bool_decide_eq_true.
  rewrite list_elem_of_fmap. split.
  - intros [([id r'] & -> & Hin) ?]. apply elem_of_map_to_list in Hin.
    split; [eauto | assumption].
  - intros [[id Hr] ?]. split; [|assumption].
    exists (id, r). split; [reflexivity|]. now apply elem_of_map_to_list.
Qed.

Lemma text_le_total : Total text_le.
Proof. intros a b. apply String.leb_total. Qed.

Lemma start_le_total : Total start_le.
Proof. intros a b. apply text_le_total. Qed.

Lemma weekday_start_le_total : Total weekday_start_le.
Proof.
  intros a b. unfold weekday_start_le.
  destruct (Z.lt_trichotomy (Schedule.weekday a) (Schedule.weekday b)) as [H|[H|H]];
    [left; now left | | right; now left].
  destruct (start_le_total a b); [left | right]; right; split; congruence.
Qed.

Lemma Sorted_impl_Forall {A : Type} (R R' : relation A) (P : A -> Prop) (l : list A) :
  Forall P l -> (forall a b, P a -> P b -> R a b -> R' a b) ->
  Sorted R l -> Sorted R' l.
Proof.
  intros HP Himp. induction 1 as [|a l Hs IH Hhd]; [constructor|].
  apply Forall_cons in HP as [Pa Pl]. constructor; [now apply IH|].
  destruct Hhd as [|b l' Hab]; constructor.
  apply Forall_cons in Pl as [Pb _]. now apply Himp.
Qed.

Lemma StronglySorted_list_filter {A : Type} (R : relation A) (f : A -> bool)
    (l : list A) :
  StronglySorted R l -> StronglySorted R (List.filter f l).
Proof.
  induction 1 as [|a l Hs IH Hall]; cbn; [constructor|].
  destruct (f a); [|exact IH]. constructor; [exact IH|].
  apply Forall_forall. intros x Hx.
  apply list_elem_of_In, filter_In in Hx as [Hx _].
  rewrite Forall_forall in Hall. apply Hall. now apply list_elem_of_In.
Qed.

Lemma week_chronological_trans : Transitive week_chronological.
Proof. intros a b c. unfold week_chronological, chronological. lia. Qed.

Lemma query_day_sorted (s : Schedules) (g : option Z) (wd : Z) :
  rows_ok s -> Sorted chronological (query_day s g wd).
Proof.
  intros Hok.
  apply (Sorted_impl_Forall start_le chronological schedule_row_ok).
  - apply Forall_forall. intros r Hr.
    apply query_day_elem in Hr as [[id Hr] _]. now apply (Hok id r).
  - intros a b (_ & Ha & _) (_ & Hb & _) Hab.
    now apply (canonical_text_le _ _ Ha Hb).
  - apply Sorted_merge_sort. exact start_le_total.
Qed.

Lemma query_week_sorted (s : Schedules) (g : option Z) :
  rows_ok s -> StronglySorted week_chronological (query_week s g).
Proof.
  intros Hok. apply Sorted_StronglySorted; [exact week_chronological_trans|].
  apply (Sorted_impl_Forall weekday_start_le week_chronological schedule_row_ok).
  - apply Forall_forall. intros r Hr.
    apply query_week_elem in Hr as [[id Hr] _]. now apply (Hok id r).
  - intros a b (_ & Ha & _) (_ & Hb & _) [Hlt|[Heq Hab]]; [now left|].
    right. split; [exact Heq|]. now apply (canonical_text_le _ _ Ha Hb).
  - apply Sorted_merge_sort. exact weekday_start_le_total.
Qed.

(** X23.  [schedule_add] stores a row exactly when the day name is known,
    both times are valid and the command is used in a server; start and
    end are not compared.  The row gets an unused id and carries the
    weekday number, the two times in canonical form and the notes (or the
    empty text); the other rows are kept, and the row shows in the listing
    of that day.  In every other case the table is unchanged. *)
Theorem schedule_add_spec (cmds : list ScheduleCommand) (g : option Z)
    (day subject st en : string) (notes : option string) :
  let s := run_schedule_commands cmds in
  let out := schedule_add g day subject st en notes s in
  (forall wd a b gid,
     parse_day day = inr wd -> validate_time st = inr a ->
     validate_time en = inr b -> g = Some gid ->
     let id := seq_schedules s + 1 in
     let row := Schedule.mk gid wd subject a b
                  (Some (default ""%string (Py.or_else notes None))) in
     out.1 = Added subject day a b
     /\ schedule_rows s !! id = None
     /\ schedule_rows out.2 !! id = Some row
     /\ (forall k, k <> id -> schedule_rows out.2 !! k = schedule_rows s !! k)
     /\ exists rows, schedule_list g (Some day) out.2 = DayEmbed day rows /\ row ∈ rows)
  /\ ((forall subj d a b, out.1 <> Added subj d a b) -> out.2 = s).
Proof.
  cbn zeta. pose proof (run_schedule_commands_ok cmds) as Hok.
  set (s := run_schedule_commands cmds) in *. split.
  - intros wd a b gid Hd Ha Hb ->. unfold schedule_add. rewrite Hd, Ha, Hb.
    cbn [fst snd schedule_rows].
    split; [reflexivity|]. split.
    { destruct (schedule_rows s !! (seq_schedules s + 1)) as [r|] eqn:E; [|reflexivity].
      destruct (Hok _ _ E). lia. }
    split; [apply lookup_insert_eq|]. split.
    { intros k Hk. now apply lookup_insert_ne. }
    unfold schedule_list. rewrite (parse_day_truthy day wd Hd). change (default ""%string (Some day)) with day.
    rewrite Hd.
    set (s' := mkSchedules _ _). set (row := Schedule.mk _ _ _ _ _ _).
    assert (Hin : row ∈ query_day s' (Some gid) wd).
    { apply query_day_elem. split; [|split; reflexivity].
      exists (seq_schedules s + 1). apply lookup_insert_eq. }
    destruct (query_day s' (Some gid) wd) as [|r0 rows] eqn:E.
    + now apply elem_of_nil in Hin.
    + eauto.
  - unfold schedule_add.
    destruct (parse_day day) as [|wd]; [reflexivity|].
    destruct (validate_time st) as [|a]; [reflexivity|].
    destruct (validate_time en) as [|b]; [reflexivity|].
    destruct g as [gid|]; [|reflexivity].
    intros H. now destruct (H subject day a b).
Qed.

Lemma schedule_add_spec_witness :
  exists rows,
    schedule_list (Some 42) (Some " MONDAY "%string)
      (schedule_add (Some 42) " MONDAY " "Maths" "9:5" "08:00" None
         (run_schedule_commands [])).2
    = DayEmbed " MONDAY " rows
    /\ Schedule.mk 42 0 "Maths" "09:05" "08:00" (Some ""%string) ∈ rows.
Proof.
  destruct (schedule_add_spec [] (Some 42) " MONDAY " "Maths" "9:5" "08:00" None)
    as [H _].
  destruct (H 0 "09:05"%string "08:00"%string 42) as (_ & _ & _ & _ & Hl);
    try (vm_compute; reflexivity).
  exact Hl.
Defined.

(** X24.  The listing of one day shows exactly the rows of the caller's
    guild for that weekday, in the order of their start times; and after
    [schedule_clear] of a day its listing is empty, while the rows of other
    days and of other guilds are kept. *)
Theorem schedule_list_day (cmds : list ScheduleCommand) (g : option Z) (day : string) :
  let s := run_schedule_commands cmds in
  (forall rows, schedule_list g (Some day) s = DayEmbed day rows ->
     exists wd,
       parse_day day = inr wd
       /\ (forall r, r ∈ rows
                     <-> (exists id, schedule_rows s !! id = Some r)
                         /\ g = Some (Schedule.guild_id r)
                         /\ Schedule.weekday r = wd)
       /\ Sorted chronological rows)
  /\ (forall wd, parse_day day = inr wd ->
        let s' := (schedule_clear g day s).2 in
        (schedule_clear g day s).1 = Cleared day
        /\ schedule_list g (Some day) s' = NoEntries
        /\ forall id r,
             schedule_rows s' !! id = Some r
             <-> schedule_rows s !! id = Some r
                 /\ ~ (g = Some (Schedule.guild_id r) /\ Schedule.weekday r = wd)).
Proof.
  cbn zeta. pose proof (run_schedule_commands_ok cmds) as Hok.
  set (s := run_schedule_commands cmds) in *. split.
  - intros rows. unfold schedule_list.
    destruct (Py.truthy (Some day)) eqn:Ht.
    + change (default ""%string (Some day)) with day. destruct (parse_day day) as [|wd] eqn:Hd; [discriminate|].
      intros Hl.
      assert (E : rows = query_day s g wd).
      { destruct (query_day s g wd); [discriminate|]. now injection Hl. }
      subst rows. exists wd. split; [reflexivity|]. split.
      * intros r. apply query_day_elem.
      * now apply query_day_sorted.
    + destruct (query_week s g); [discriminate|].
      destruct (group_by_day _ _); discriminate.
  - intros wd Hd. split; [|split].
    + unfold schedule_clear. now rewrite Hd.
    + unfold schedule_list. rewrite (parse_day_truthy day wd Hd). change (default ""%string (Some day)) with day.
      rewrite Hd.
      destruct (query_day (schedule_clear g day s).2 g wd) as [|r rows] eqn:E;
        [reflexivity|].
      assert (Hin : r ∈ query_day (schedule_clear g day s).2 g wd)
        by (rewrite E; apply list_elem_of_here).
      apply query_day_elem in Hin as ([id Hr] & Hg & Hw).
      apply (schedule_clear_rows g day wd s id r Hd) in Hr as [_ Hn].
      now destruct Hn.
    + intros id r. now apply schedule_clear_rows.
Qed.

Lemma schedule_list_day_witness :
  parse_day "mon" = inr 0
  /\ schedule_list (Some 42) (Some "mon"%string)
       (schedule_clear (Some 42) "mon"
          (run_schedule_commands
             [SchAdd (Some 42) "Monday" "Maths" "9:00" "10:00" None])).2
     = NoEntries.
Proof.
  assert (H : parse_day "mon" = inr 0) by (vm_compute; reflexivity).
  split; [exact H|].
  destruct (schedule_list_day [SchAdd (Some 42) "Monday" "Maths" "9:00" "10:00" None]
              (Some 42) "mon") as [_ Hc].
  destruct (Hc 0 H) as (_ & Hl & _). exact Hl.
Defined.

(** *** The weekly listing *)

Lemma group_by_day_spec (rows : list Schedule.t) (by_day : gmap Z (list Schedule.t)) :
  (forall r, r ∈ rows -> is_Some (by_day !! Schedule.weekday r)) ->
  exists by_day',
    group_by_day rows by_day = inr by_day'
    /\ forall i,
         by_day' !! i
         = (fun l => l ++ List.filter (fun r => Schedule.weekday r =? i) rows)
             <$> by_day !! i.
Proof.
  revert by_day. induction rows as [|r rows IH]; intros bd Hkeys.
  - exists bd. split; [reflexivity|]. intros i. cbn.
    destruct (bd !! i); cbn; [now rewrite app_nil_r | reflexivity].
  - cbn [group_by_day].
    destruct (Hkeys r (list_elem_of_here _ _)) as [entries He]. rewrite He.
    destruct (IH (<[Schedule.weekday r := entries ++ [r]]> bd)) as (bd' & Hg & Hbd').
    { intros r' Hr'.
      destruct (decide (Schedule.weekday r = Schedule.weekday r')) as [E|Hne].
      - rewrite <- E, lookup_insert_eq. eauto.
      - rewrite lookup_insert_ne by exact Hne.
        apply Hkeys. now apply list_elem_of_further. }
    exists bd'. split; [exact Hg|]. intros i. rewrite Hbd'. cbn [List.filter].
    destruct (decide (Schedule.weekday r = i)) as [<-|Hne].
    + rewrite lookup_insert_eq, He, Z.eqb_refl. cbn. now rewrite <- app_assoc.
    + rewrite lookup_insert_ne by exact Hne.
      now replace (Schedule.weekday r =? i) with false by (symmetry; apply Z.eqb_neq; exact Hne).
Qed.

Lemma empty_by_day_lookup (i : Z) : 0 <= i <= 6 -> empty_by_day !! i = Some [].
Proof.
  intros H.
  assert (i = 0 \/ i = 1 \/ i = 2 \/ i = 3 \/ i = 4 \/ i = 5 \/ i = 6)
    as [->|[->|[->|[->|[->|[->| ->]]]]]] by lia; reflexivity.
Qed.

Lemma omap_ext_elem {A B : Type} (f g : A -> option B) (l : list A) :
  (forall x, x ∈ l -> f x = g x) -> omap f l = omap g l.
Proof.
  induction l as [|x l IH]; intros H; [reflexivity|].
  cbn [omap list_omap]. rewrite (H x (list_elem_of_here _ _)).
  rewrite IH; [reflexivity|]. intros y Hy. apply H. now apply list_elem_of_further.
Qed.

(** X25.  On a table that commands built, the weekly listing never fails
    with a [KeyError]: it has one field per day that has entries, named
    after the day, holding exactly the rows of the caller's guild for that
    weekday in the order of their start times; every row of the guild is in
    one of the fields. *)
Theorem schedule_list_week (cmds : list ScheduleCommand) (g : option Z) :
  let s := run_schedule_commands cmds in
  let rows := query_week s g in
  (forall r, r ∈ rows
             <-> (exists id, schedule_rows s !! id = Some r)
                 /\ g = Some (Schedule.guild_id r))
  /\ (rows = [] -> schedule_list g None s = NoEntries)
  /\ (rows <> [] ->
      exists fields,
        schedule_list g None s = WeekEmbed fields
        /\ (forall name entries,
              (name, entries) ∈ fields
              <-> exists i : nat,
                    day_names !! i = Some name
                    /\ entries
                       = List.filter (fun r => Schedule.weekday r =? Z.of_nat i) rows
                    /\ entries <> [])
        /\ (forall r, r ∈ rows ->
              exists name entries, (name, entries) ∈ fields /\ r ∈ entries)
        /\ (forall name entries, (name, entries) ∈ fields ->
              Sorted chronological entries)).
Proof.
  cbn zeta. pose proof (run_schedule_commands_ok cmds) as Hok.
  set (s := run_schedule_commands cmds) in *.
  split; [intros r; apply query_week_elem|].
  split; [intros E; unfold schedule_list; cbn; now rewrite E|].
  intros Hne.
  assert (Hrows : forall r, r ∈ query_week s g -> 0 <= Schedule.weekday r <= 6).
  { intros r Hr. apply query_week_elem in Hr as [[id Hr] _].
    now destruct (Hok id r Hr) as [[? _] _]. }
  destruct (group_by_day_spec (query_week s g) empty_by_day) as (bd & Hg & Hbd).
  { intros r Hr. rewrite empty_by_day_lookup by now apply Hrows. eauto. }
  set (F := fun i : nat =>
              match List.filter (fun r => Schedule.weekday r =? Z.of_nat i)
                      (query_week s g), day_names !! i with
              | e :: l, Some name => Some (name, e :: l)
              | _, _ => None
              end).
  assert (Hfields : week_fields bd = omap F (seq 0 7)).
  { unfold week_fields. apply omap_ext_elem. intros i Hi.
    apply list_elem_of_In, in_seq in Hi. unfold F.
    rewrite Hbd, empty_by_day_lookup by lia. reflexivity. }
  assert (Hmem : forall name entries,
            (name, entries) ∈ week_fields bd
            <-> exists i : nat,
                  day_names !! i = Some name
                  /\ entries
                     = List.filter (fun r => Schedule.weekday r =? Z.of_nat i)
                         (query_week s g)
                  /\ entries <> []).
  { intros name entries. rewrite Hfields, list_elem_of_omap. split.
    - intros (i & _ & Hi). exists i. unfold F in Hi.
      destruct (List.filter _ _) as [|e l]; [discriminate|].
      destruct (day_names !! i); [|discriminate].
      injection Hi as <- <-. repeat split. discriminate.
    - intros (i & Hn & -> & Hnn). exists i. split.
      + apply list_elem_of_In, in_seq.
        apply lookup_lt_Some in Hn. cbn in Hn. lia.
      + unfold F. rewrite Hn. now destruct (List.filter _ _). }
  exists (week_fields bd). split; [|split; [exact Hmem|split]].
  - unfold schedule_list. cbn [Py.truthy].
    destruct (query_week s g) as [|r0 rows]; [congruence|]. now rewrite Hg.
  - intros r Hr. pose proof (Hrows r Hr) as Hwd.
    destruct (lookup_lt_is_Some_2 day_names (Z.to_nat (Schedule.weekday r)))
      as [name Hn]; [cbn; lia|].
    exists name,
      (List.filter (fun r' => Schedule.weekday r' =? Z.of_nat (Z.to_nat (Schedule.weekday r)))
         (query_week s g)).
    assert (Hin : r ∈ List.filter
                      (fun r' => Schedule.weekday r' =? Z.of_nat (Z.to_nat (Schedule.weekday r)))
                      (query_week s g)).
    { apply list_elem_of_In, filter_In. split; [now apply list_elem_of_In|].
      apply Z.eqb_eq. lia. }
    split; [|exact Hin]. apply Hmem. exists (Z.to_nat (Schedule.weekday r)).
    split; [exact Hn|]. split; [reflexivity|].
    intros E. rewrite E in Hin. now apply elem_of_nil in Hin.
  - intros name entries Hf. apply Hmem in Hf as (i & _ & -> & _).
    apply StronglySorted_Sorted.
    pose proof (StronglySorted_list_filter week_chronological
                  (fun r => Schedule.weekday r =? Z.of_nat i) _
                  (query_week_sorted s g Hok)) as Hss.
    assert (Hall : Forall (fun r => Schedule.weekday r = Z.of_nat i)
                     (List.filter (fun r => Schedule.weekday r =? Z.of_nat i)
                        (query_week s g))).
    { apply Forall_forall. intros r Hr.
      apply list_elem_of_In, filter_In in Hr as [_ Hr]. now apply Z.eqb_eq. }
    induction Hss as [|a l Hs IH Hhd]; [constructor|].
    apply Forall_cons in Hall as [Ha Hl]. constructor; [now apply IH|].
    rewrite Forall_forall in *. intros b Hb.
    destruct (Hhd b Hb) as [Hlt|[_ Hc]]; [|exact Hc].
    rewrite Ha, (Hl b Hb) in Hlt. lia.
Qed.

Lemma schedule_list_week_witness :
  query_week
    (run_schedule_commands
       [SchAdd (Some 42) "tue" "Physics" "14:00" "15:00" None;
        SchAdd (Some 42) "Monday" "Maths" "9:00" "10:00" None]) (Some 42) <> []
  /\ exists fields,
       schedule_list (Some 42) None
         (run_schedule_commands
            [SchAdd (Some 42) "tue" "Physics" "14:00" "15:00" None;
             SchAdd (Some 42) "Monday" "Maths" "9:00" "10:00" None])
       = WeekEmbed fields.
Proof.
  assert (H : query_week
                (run_schedule_commands
                   [SchAdd (Some 42) "tue" "Physics" "14:00" "15:00" None;
                    SchAdd (Some 42) "Monday" "Maths" "9:00" "10:00" None]) (Some 42)
              <> []) by (vm_compute; discriminate).
  split; [exact H|].
  destruct (schedule_list_week
              [SchAdd (Some 42) "tue" "Physics" "14:00" "15:00" None;
               SchAdd (Some 42) "Monday" "Maths" "9:00" "10:00" None] (Some 42))
    as (_ & _ & Hw).
  destruct (Hw H) as (fields & Hl & _). eauto.
Defined.

(** ** Question lists *)

Lemma string_length_append (s1 s2 : string) :
  String.length (s1 +:+ s2) = (String.length s1 + String.length s2)%nat.
Proof.
  induction s1 as [|c s1 IH]; [reflexivity|].
  change (String c s1 +:+ s2) with (String c (s1 +:+ s2)).
  cbn [String.length Nat.add]. now rewrite IH.
Qed.

Lemma string_length_prefix (n : nat) (s : string) :
  (n <= String.length s)%nat -> String.length (substring 0 n s) = n.
Proof.
  revert s. induction n as [|n IH]; intros s Hn.
  - now destruct s.
  - destruct s as [|c s]; cbn in Hn; [lia|].
    cbn [substring String.length]. rewrite IH; [reflexivity | lia].
Qed.

Lemma substring_prefix_append (n : nat) (s t : string) :
  (n <= String.length s)%nat ->
  substring 0 n (substring 0 n s +:+ t) = substring 0 n s.
Proof.
  revert s. induction n as [|n IH]; intros s Hn.
  - destruct s, t; reflexivity.
  - destruct s as [|c s]; cbn in Hn; [lia|].
    cbn [substring].
    change (String c (substring 0 n s) +:+ t) with (String c (substring 0 n s +:+ t)).
    cbn [substring]. rewrite IH; [reflexivity | lia].
Qed.

Lemma qa_fold_inv (rows : list (Z * string * string))
    (chunk : list (string * string)) (embeds : list (list (string * string))) :
  (length chunk < 10)%nat ->
  Forall (fun e => length e = 10%nat) embeds ->
  exists chunk' embeds',
    fold_left qa_step rows (chunk, embeds) = (chunk', embeds')
    /\ (length chunk' < 10)%nat
    /\ Forall (fun e => length e = 10%nat) embeds'
    /\ concat embeds' ++ chunk' = concat embeds ++ chunk ++ (qa_field <$> rows).
Proof.
  revert chunk embeds. induction rows as [|r rows IH]; intros chunk embeds Hc He.
  - exists chunk, embeds. now rewrite app_nil_r.
  - cbn [fold_left]. unfold qa_step at 2. unfold MAX_FIELDS.
    destruct (Nat.eqb_spec (length (chunk ++ [qa_field r])) 10) as [E|Hne].
    + destruct (IH [] (embeds ++ [chunk ++ [qa_field r]])) as (c' & e' & Hf & ? & ? & Hcat).
      { cbn. lia. }
      { apply Forall_app. split; [exact He|]. now constructor. }
      exists c', e'. repeat (split; [assumption|]).
      rewrite Hcat, concat_app. cbn [concat]. rewrite fmap_cons.
      now rewrite app_nil_r, <- !app_assoc.
    + destruct (IH (chunk ++ [qa_field r]) embeds) as (c' & e' & Hf & ? & ? & Hcat).
      { rewrite length_app in *. cbn in *. lia. }
      { exact He. }
      exists c', e'. repeat (split; [assumption|]).
      rewrite Hcat, fmap_cons. now rewrite <- !app_assoc.
Qed.

(** X26.  The embeds that [qa_get] builds hold the rows of the topic in
    their order, one field each, nothing lost and nothing repeated; every
    embed has between 1 and 10 fields and all but the last have 10, so
    that [n] rows give [ceil(n / 10)] embeds.  A field value is the answer
    when it has at most 1024 characters; a longer answer is cut to its
    first 1000 characters followed by a 15-character mark, so that no
    value is longer than 1024 characters. *)
Theorem qa_embeds_spec (rows : list (Z * string * string)) :
  let embeds := qa_embeds rows in
  concat embeds = qa_field <$> rows
  /\ Forall (fun e => (1 <= length e <= 10)%nat) embeds
  /\ (forall (i : nat) e, embeds !! i = Some e -> (S i < length embeds)%nat ->
        length e = 10%nat)
  /\ length embeds = ((length rows + 9) / 10)%nat
  /\ (forall name value, (name, value) ∈ concat embeds ->
        (String.length value <= 1024)%nat)
  /\ (forall id q a,
        ((String.length a <= 1024)%nat -> (qa_field (id, q, a)).2 = a)
        /\ ((1024 < String.length a)%nat ->
            String.length (qa_field (id, q, a)).2 = 1015%nat
            /\ substring 0 1000 (qa_field (id, q, a)).2 = substring 0 1000 a)).
Proof.
  cbn zeta. unfold qa_embeds.
  destruct (qa_fold_inv rows [] [] ltac:(cbn; lia) ltac:(constructor))
    as (chunk & embeds & -> & Hc & He & Hcat).
  cbn [concat app] in Hcat.
  assert (Hlen : (10 * length embeds + length chunk = length rows)%nat).
  { apply (f_equal length) in Hcat. rewrite length_app, length_fmap in Hcat.
    rewrite <- Hcat. clear Hcat. induction He as [|e l Hel _ IH]; cbn; [lia|].
    rewrite length_app. lia. }
  assert (Hval : forall a, (String.length (field_value a) <= 1024)%nat).
  { intros a. unfold field_value.
    destruct (Nat.leb_spec (String.length a) 1024) as [Hle|Hgt]; [exact Hle|].
    rewrite string_length_append, string_length_prefix by lia.
    change (String.length "... (truncated)") with 15%nat. lia. }
  assert (Hbound : Forall (fun e : list (string * string) => (1 <= length e <= 10)%nat)
                     embeds).
  { eapply Forall_impl; [exact He|]. cbn beta. intros e ->. lia. }
  split; [|split; [|split; [|split; [|split]]]].
  - destruct chunk; [now rewrite app_nil_r in Hcat|].
    rewrite concat_app. cbn [concat]. now rewrite app_nil_r.
  - destruct chunk as [|f chunk]; [exact Hbound|].
    apply Forall_app. split; [exact Hbound|].
    constructor; [|constructor]. cbn in *. lia.
  - intros i e Hi Hlt.
    assert (Hin : embeds !! i = Some e).
    { destruct chunk as [|f chunk]; [exact Hi|].
      rewrite length_app in Hlt. cbn in Hlt.
      rewrite lookup_app_l in Hi by lia. exact Hi. }
    rewrite Forall_forall in He. apply He.
    eapply list_elem_of_lookup_2. exact Hin.
  - destruct chunk as [|f chunk].
    + cbn [length] in Hlen. apply (Nat.div_unique _ _ _ 9); lia.
    + rewrite length_app. cbn [length] in *.
      apply (Nat.div_unique _ _ _ (length chunk)); lia.
  - intros name value Hin.
    assert (Hin' : (name, value) ∈ qa_field <$> rows).
    { destruct chunk; [now rewrite app_nil_r in Hcat; rewrite <- Hcat|].
      rewrite concat_app in Hin. cbn [concat] in Hin.
      rewrite app_nil_r in Hin. now rewrite <- Hcat. }
    apply list_elem_of_fmap in Hin' as ([[id q] a] & E & _).
    cbn in E. injection E as -> ->. apply Hval.
  - intros id q a. cbn [qa_field snd]. unfold field_value.
    destruct (Nat.leb_spec (String.length a) 1024) as [Hle|Hgt];
      (split; [intros ?|intros ?]); try lia; [reflexivity|].
    split.
    + rewrite string_length_append, string_length_prefix by lia.
      change (String.length "... (truncated)") with 15%nat. lia.
    + apply substring_prefix_append. lia.
Qed.

(** *** The bulk question text *)

Lemma dropwhile_snoc {A : Type} (f : A -> bool) (l : list A) (y : A) :
  f y = false -> exists u, Py.dropwhile f (l ++ [y]) = u ++ [y].
Proof.
  intros Hy. induction l as [|x l [u IH]]; cbn.
  - rewrite Hy. now exists [].
  - destruct (f x); [now exists u|]. now exists (x :: l).
Qed.

Lemma dropwhile_id {A : Type} (f : A -> bool) (l : list A) :
  (forall x r, l = x :: r -> f x = false) -> Py.dropwhile f l = l.
Proof.
  destruct l as [|x r]; [reflexivity|]. intros H. cbn.
  now rewrite (H x r eq_refl).
Qed.

Lemma strip_head (s : list ascii) (x : ascii) (r : list ascii) :
  Py.strip s = x :: r -> Py.isspace x = false.
Proof.
  unfold Py.strip, Py.rstrip, Py.lstrip.
  destruct (Py.dropwhile Py.isspace s) as [|y t] eqn:Ht; [discriminate|].
  pose proof (dropwhile_head _ _ _ _ Ht) as Hy.
  cbn [rev]. destruct (dropwhile_snoc Py.isspace (rev t) y Hy) as [u ->].
  rewrite rev_app_distr. cbn. now intros [= <- _].
Qed.

Lemma strip_last (s : list ascii) (x : ascii) (r : list ascii) :
  rev (Py.strip s) = x :: r -> Py.isspace x = false.
Proof.
  unfold Py.strip, Py.rstrip. rewrite rev_involutive.
  apply dropwhile_head.
Qed.

Lemma strip_strip (s : list ascii) : Py.strip (Py.strip s) = Py.strip s.
Proof.
  unfold Py.strip at 1. unfold Py.lstrip, Py.rstrip.
  rewrite (dropwhile_id _ (Py.strip s)) by (intros x r; apply strip_head).
  rewrite (dropwhile_id _ (rev (Py.strip s))) by (intros x r; apply strip_last).
  apply rev_involutive.
Qed.

Lemma flush_stripped (st : QasState) :
  stripped_pairs st.1.1 -> stripped_pairs (flush st).1.1.
Proof.
  destruct st as [[qas [q|]] [a|]]; cbn; try (intros H; exact H).
  intros H. apply Forall_app. split; [exact H|].
  constructor; [|constructor]. cbn. split; apply strip_strip.
Qed.

Lemma qas_line_stripped (st : QasState) (ln : list ascii) :
  stripped_pairs st.1.1 -> stripped_pairs (qas_line st ln).1.1.
Proof.
  intros H. unfold qas_line.
  destruct (Py.strip ln) as [|c0 r0]; [now apply flush_stripped|].
  destruct (lower_startswith "q" ":" ln).
  - pose proof (flush_stripped st H) as Hf.
    destruct (flush st) as [[qas ?] ?]. exact Hf.
  - destruct (lower_startswith "a" ":" ln).
    + destruct st as [[qas ?] ?]. exact H.
    + destruct st as [[qas [q|]] [a|]]; exact H.
Qed.

Lemma fold_qas_line_stripped (lines : list (list ascii)) (st : QasState) :
  stripped_pairs st.1.1 -> stripped_pairs (fold_left qas_line lines st).1.1.
Proof.
  revert st. induction lines as [|ln lines IH]; intros st H; [exact H|].
  cbn [fold_left]. apply IH. now apply qas_line_stripped.
Qed.

(** X27.  Every pair that [_parse_qas_text] returns has a question and an
    answer that are not empty and that neither begin nor end with
    whitespace, whatever the text. *)
Theorem parse_qas_pairs_clean (qas_text : string) (q a : string) :
  (q, a) ∈ _parse_qas_text qas_text ->
  q <> ""%string /\ a <> ""%string
  /\ text (Py.strip (chars q)) = q /\ text (Py.strip (chars a)) = a.
Proof.
  unfold _parse_qas_text, parse_qas_lines. intros Hin.
  apply list_elem_of_fmap in Hin as ([q' a'] & [= -> ->] & Hin). cbn [fst snd].
  pose proof (flush_stripped _
                (fold_qas_line_stripped (Py.rstrip <$> splitlines (chars qas_text))
                   ([], None, None) (Forall_nil_2 _))) as Hs.
  destruct (flush _) as [[qas ?] ?]. cbn [fst] in Hs.
  apply list_elem_of_In, filter_In in Hin as [Hin Hne].
  unfold stripped_pairs in Hs. rewrite Forall_forall in Hs.
  destruct (Hs _ (proj2 (list_elem_of_In _ _) Hin)) as [Hq Ha]. cbn [fst snd] in Hq, Ha.
  rewrite !list_ascii_of_string_of_list_ascii, Hq, Ha.
  destruct q' as [|c1 q']; [discriminate|]. destruct a' as [|c2 a']; [discriminate|].
  repeat split; discriminate.
Qed.

Lemma parse_qas_pairs_clean_witness :
  ("What is 2 + 2?"%string, "4"%string)
    ∈ _parse_qas_text ("q:  What is 2 + 2?  " +:+ String "010" "a: 4")
  /\ "4"%string <> ""%string.
Proof.
  assert (H : ("What is 2 + 2?"%string, "4"%string)
                ∈ _parse_qas_text ("q:  What is 2 + 2?  " +:+ String "010" "a: 4"))
    by (vm_compute; apply list_elem_of_here).
  split; [exact H|].
  destruct (parse_qas_pairs_clean _ _ _ H) as (_ & Ha & _). exact Ha.
Defined.

Lemma splitlines_line (l rest : list ascii) :
  Forall (fun c => is_linebreak c = false) l ->
  splitlines (l ++ "010"%char :: rest) = l :: splitlines rest.
Proof.
  induction 1 as [|c l Hc _ IH].
  - cbn [app splitlines]. change (is_linebreak "010") with true. cbn match.
    destruct rest as [|c' s'']; reflexivity.
  - cbn [app splitlines]. rewrite Hc, IH. reflexivity.
Qed.

Lemma plain_line_head (s : list ascii) (x : ascii) (r : list ascii) :
  Py.strip s = s -> s = x :: r -> Py.isspace x = false.
Proof. intros Hs E. rewrite <- Hs in E. exact (strip_head _ _ _ E). Qed.

Lemma plain_line_last (s : list ascii) (x : ascii) (r : list ascii) :
  Py.strip s = s -> rev s = x :: r -> Py.isspace x = false.
Proof. intros Hs E. rewrite <- Hs in E. exact (strip_last _ _ _ E). Qed.

Lemma rstrip_prefixed (p s : list ascii) :
  s <> [] -> Py.strip s = s -> Py.rstrip (p ++ s) = p ++ s.
Proof.
  intros Hne Hs. unfold Py.rstrip. rewrite rev_app_distr.
  destruct (rev s) as [|x r] eqn:E.
  - apply (f_equal (@rev ascii)) in E. rewrite rev_involutive in E. now destruct Hne.
  - cbn [app Py.dropwhile]. rewrite (plain_line_last s x r Hs E).
    rewrite <- (rev_involutive (p ++ s)), rev_app_distr, E. reflexivity.
Qed.

Lemma strip_prefixed (c : ascii) (p s : list ascii) :
  Py.isspace c = false -> s <> [] -> Py.strip s = s ->
  Py.strip (c :: p ++ s) = c :: p ++ s.
Proof.
  intros Hc Hne Hs. unfold Py.strip, Py.lstrip. cbn [Py.dropwhile]. rewrite Hc.
  exact (rstrip_prefixed (c :: p) s Hne Hs).
Qed.

Lemma strip_after_space (s : list ascii) :
  Py.strip s = s -> Py.strip (" "%char :: s) = s.
Proof.
  intros Hs. rewrite <- Hs at 2.
  pose proof (strip_pad [" "%char] s []) as H. rewrite app_nil_r in H.
  apply H; [repeat constructor | constructor].
Qed.

Lemma qas_lines_of_splitlines (pairs : list (list ascii * list ascii)) :
  Forall (fun qa => plain_line qa.1 /\ plain_line qa.2) pairs ->
  Py.rstrip <$> splitlines (qas_lines_of pairs)
  = concat ((fun qa => [chars "Q: " ++ qa.1; chars "A: " ++ qa.2]) <$> pairs).
Proof.
  induction 1 as [|[q a] pairs [(Hqne & Hqs & Hql) (Hane & Has & Hal)] _ IH];
    [reflexivity|].
  cbn [fst snd] in *.
  unfold qas_lines_of. rewrite fmap_cons. cbn [concat fst snd].
  fold (qas_lines_of pairs).
  assert (E : (list_ascii_of_string "Q: " ++ q ++ "010"%char ::
               list_ascii_of_string "A: " ++ a ++ ["010"%char]) ++ qas_lines_of pairs
              = (list_ascii_of_string "Q: " ++ q) ++ "010"%char ::
                (list_ascii_of_string "A: " ++ a) ++ "010"%char :: qas_lines_of pairs).
  { rewrite <- !app_assoc. cbn [app]. rewrite <- !app_assoc. reflexivity. }
  rewrite E.
  rewrite splitlines_line, splitlines_line.
  - rewrite !fmap_cons, IH.
    rewrite (rstrip_prefixed _ q Hqne Hqs), (rstrip_prefixed _ a Hane Has).
    reflexivity.
  - apply Forall_app. split; [repeat constructor | exact Hal].
  - apply Forall_app. split; [repeat constructor | exact Hql].
Qed.

Lemma flush_none (st : QasState) : flush st = ((flush st).1.1, None, None).
Proof. destruct st as [[qas [q|]] [a|]]; reflexivity. Qed.

Lemma qas_line_question (st : QasState) (q : list ascii) :
  q <> [] -> Py.strip q = q ->
  qas_line st (chars "Q: " ++ q) = ((flush st).1.1, Some q, None).
Proof.
  intros Hne Hs. unfold qas_line.
  change (list_ascii_of_string "Q: " ++ q)
    with ("Q"%char :: [":"%char; " "%char] ++ q).
  rewrite (strip_prefixed "Q" [":"%char; " "%char] q eq_refl Hne Hs).
  cbn [app drop].
  change (lower_startswith "q" ":" ("Q"%char :: ":"%char :: " "%char :: q)) with true.
  cbn match. rewrite (strip_after_space q Hs), (flush_none st). reflexivity.
Qed.

Lemma qas_line_answer (qas : list (list ascii * list ascii))
    (q_cur a_cur : option (list ascii)) (a : list ascii) :
  a <> [] -> Py.strip a = a ->
  qas_line (qas, q_cur, a_cur) (chars "A: " ++ a) = (qas, q_cur, Some a).
Proof.
  intros Hne Hs. unfold qas_line.
  change (list_ascii_of_string "A: " ++ a)
    with ("A"%char :: [":"%char; " "%char] ++ a).
  rewrite (strip_prefixed "A" [":"%char; " "%char] a eq_refl Hne Hs).
  cbn [app drop].
  change (lower_startswith "q" ":" ("A"%char :: ":"%char :: " "%char :: a)) with false.
  change (lower_startswith "a" ":" ("A"%char :: ":"%char :: " "%char :: a)) with true.
  cbn match. now rewrite (strip_after_space a Hs).
Qed.

Lemma fold_qas_pairs (pairs : list (list ascii * list ascii)) (st : QasState) :
  Forall (fun qa => plain_line qa.1 /\ plain_line qa.2) pairs ->
  flush (fold_left qas_line
           (concat ((fun qa => [chars "Q: " ++ qa.1; chars "A: " ++ qa.2]) <$> pairs))
           st)
  = ((flush st).1.1 ++ pairs, None, None).
Proof.
  intros H. revert st.
  induction H as [|[q a] pairs [(Hqne & Hqs & _) (Hane & Has & _)] _ IH]; intros st.
  - cbn [fmap list_fmap concat fold_left]. rewrite app_nil_r. apply flush_none.
  - cbn [fst snd] in *. rewrite fmap_cons. cbn [concat app fold_left fst snd].
    rewrite (qas_line_question st q Hqne Hqs).
    rewrite (qas_line_answer _ _ _ a Hane Has).
    rewrite IH. cbn [flush fst]. rewrite Hqs, Has.
    now rewrite <- app_assoc.
Qed.

(** X28.  Writing pairs of one-line texts as [Q: ...] and [A: ...] lines
    and parsing the result gives the pairs back, in their order, provided
    that no question or answer is empty, begins or ends with whitespace,
    or holds a line boundary. *)
Theorem parse_qas_round_trip (pairs : list (list ascii * list ascii)) :
  Forall (fun qa => plain_line qa.1 /\ plain_line qa.2) pairs ->
  _parse_qas_text (text (qas_lines_of pairs))
  = (fun qa => (text qa.1, text qa.2)) <$> pairs.
Proof.
  intros H. unfold _parse_qas_text.
  rewrite list_ascii_of_string_of_list_ascii, (qas_lines_of_splitlines pairs H).
  unfold parse_qas_lines. rewrite (fold_qas_pairs pairs _ H).
  cbn [flush fst app]. f_equal.
  induction H as [|[q a] pairs [(Hqne & _) (Hane & _)] _ IH]; [reflexivity|].
  cbn [List.filter fst snd] in *.
  destruct q; [congruence|]. destruct a; [congruence|]. now rewrite IH.
Qed.

Lemma parse_qas_round_trip_witness :
  _parse_qas_text
    (text (qas_lines_of [(chars "Capital of France?", chars "Paris");
                         (chars "2 + 2", chars "4")]))
  = [("Capital of France?", "Paris"); ("2 + 2", "4")]%string.
Proof.
  apply (parse_qas_round_trip [(chars "Capital of France?", chars "Paris");
                               (chars "2 + 2", chars "4")]).
  repeat constructor; try discriminate; vm_compute; repeat constructor.
Defined.
